(** * CSL wake-up subsystem of the OpenThread stack (nrfconnect/sdk-openthread)

    A shallow embedding of
    - [Mac::WakeupCoordTable]   (wakeup_coord_table.hpp and .cpp),
    - [WakeupTxScheduler]       (wakeup_tx_scheduler.hpp and .cpp),
    - [EnhCslSender]            (enh_csl_sender.hpp and .cpp),
    and the properties of these three components.  In the source tree
    wakeup_tx_scheduler.cpp and enh_csl_sender.hpp follow
    wakeup_coord_table.hpp in its file, and enh_csl_sender.cpp follows
    wakeup_coord_table.cpp.

    Conventions.  A C++ [uintN_t] is a [Z] whose wrap-around is written out
    with [wrap16], [wrap32], [wrap64].  Stateful methods take the object
    (and whatever they read from the platform) and return the new object.
    Undefined behaviour and failed assertions of the sender are results of
    their own ([EnhCslSender.Fault]). *)

From Stdlib Require Import ZArith Lia Bool.
From stdpp Require Import base decidable option list numbers.


#[local] Open Scope Z_scope.

(** ** Fixed-width integers *)

Definition wrap16 (x : Z) : Z := x mod 2^16.
Definition wrap32 (x : Z) : Z := x mod 2^32.
Definition wrap64 (x : Z) : Z := x mod 2^64.

(** [otError] values used by the three components. *)
Inductive Error : Type :=
| kErrorNone
| kErrorSecurity
| kErrorNoBufs
| kErrorInvalidState
| kErrorNotImplemented
| kErrorAbort
| kErrorNoAck
| kErrorChannelAccessFailure.

#[global] Instance Error_eq_dec : EqDecision Error.
Proof. solve_decision. Defined.

(** ** Mac::WakeupCoordTable *)

Module WakeupCoordTable.

(** class WakeupCoord *)
Record WakeupCoord : Type := mkWakeupCoord {
  mExtAddr      : Z;   (* ExtAddress, 64 bit *)
  mKeySequence  : Z;   (* uint32_t *)
  mFrameCounter : Z;   (* uint32_t *)
  mLastUpdated  : Z    (* uint32_t, seconds *)
}.

Definition SetExtAddress (a : Z) (c : WakeupCoord) : WakeupCoord :=
  mkWakeupCoord a (mKeySequence c) (mFrameCounter c) (mLastUpdated c).
Definition SetKeySequence (k : Z) (c : WakeupCoord) : WakeupCoord :=
  mkWakeupCoord (mExtAddr c) k (mFrameCounter c) (mLastUpdated c).
Definition SetFrameCounter (f : Z) (c : WakeupCoord) : WakeupCoord :=
  mkWakeupCoord (mExtAddr c) (mKeySequence c) f (mLastUpdated c).
Definition SetLastUpdated (u : Z) (c : WakeupCoord) : WakeupCoord :=
  mkWakeupCoord (mExtAddr c) (mKeySequence c) (mFrameCounter c) u.

(** bool WakeupCoord::Matches(const ExtAddress &) *)
Definition Matches (a : Z) (c : WakeupCoord) : bool := mExtAddr c =? a.

(** What [DetectReplay] reads from the received frame: the extended source
    address, the four key-source bytes of the auxiliary security header and
    the frame counter. *)
Record RxFrame : Type := mkRxFrame {
  rxSrcAddr      : Z;
  rxKeySource    : list Z;   (* bytes *)
  rxFrameCounter : Z
}.

(** BigEndian::ReadUint32 *)
Definition ReadUint32 (b : list Z) : Z :=
  Z.lor (Z.lor (Z.lor (Z.shiftl (nth 0 b 0) 24) (Z.shiftl (nth 1 b 0) 16))
               (Z.shiftl (nth 2 b 0) 8))
        (nth 3 b 0).

(** A frame whose key source encodes [ks] (for the scenarios). *)
Definition frameOf (addr ks fc : Z) : RxFrame :=
  mkRxFrame addr
    [Z.land (Z.shiftr ks 24) 255; Z.land (Z.shiftr ks 16) 255;
     Z.land (Z.shiftr ks 8) 255; Z.land ks 255]
    fc.

(** uint32_t WakeupCoordTable::GetNowInSecs(): [otPlatTimeGet() / 1000000],
    cast to 32 bits.  [aPlatTime] is the value of [otPlatTimeGet()]. *)
Definition GetNowInSecs (aPlatTime : Z) : Z := wrap32 (aPlatTime / 1000000).

Section Table.

(** OPENTHREAD_CONFIG_MAC_MAX_WAKEUP_COORDS and OPENTHREAD_CONFIG_MAC_WC_EVICT_AGE
    are build-time configuration. *)
Variable kMaxWakeupCoords : nat.
Variable kWakeupCoordinatorEvictAge : Z.

(** [Array<WakeupCoord, kMaxWakeupCoords>]: the first [mLength] cells, in
    order.  A pointer to a cell is its index. *)
Abbreviation Table := (list WakeupCoord).

(** Array::FindMatching: the first cell that [Matches]. *)
Fixpoint FindMatchingFrom (i : nat) (t : Table) (a : Z) : option (nat * WakeupCoord) :=
  match t with
  | [] => None
  | c :: t' => if Matches a c then Some (i, c) else FindMatchingFrom (S i) t' a
  end.

Definition FindMatching (t : Table) (a : Z) : option (nat * WakeupCoord) :=
  FindMatchingFrom 0 t a.

(** Array::PushBack(): [nullptr] when the array is full, otherwise the array
    grows by one cell and the pointer to it is returned.  The new cell holds
    whatever the storage held; [DetectReplay] writes all four fields before
    anything reads them, so the cell is given as zeroes. *)
Definition PushBack (t : Table) : option nat * Table :=
  if (length t <? kMaxWakeupCoords)%nat
  then (Some (length t), t ++ [mkWakeupCoord 0 0 0 0])
  else (None, t).

(** Modelled from the spec: common/array.hpp is not among the sources; the
    spec says of the chosen entry only that it "is removed".  Array::Remove
    takes the last cell off the array and, when the removed cell is another
    one, copies the last cell over it. *)
Definition Remove (i : nat) (t : Table) : Table :=
  match list.last t with
  | None => t
  | Some l =>
      let t' := removelast t in
      if (i =? length t')%nat then t' else <[i := l]> t'
  end.

(** The loop of [Evict]: [(oldestCoord, oldestUpdated)] after the cells from
    index [i] on. *)
Fixpoint EvictScan (i : nat) (t : Table) (oldestCoord : option nat) (oldestUpdated : Z)
  : option nat * Z :=
  match t with
  | [] => (oldestCoord, oldestUpdated)
  | c :: t' =>
      if mLastUpdated c <? oldestUpdated
      then EvictScan (S i) t' (Some i) (mLastUpdated c)
      else EvictScan (S i) t' oldestCoord oldestUpdated
  end.

(** void WakeupCoordTable::Evict(void) *)
Definition Evict (aPlatTime : Z) (t : Table) : Table :=
  let now := GetNowInSecs aPlatTime in
  if now >? kWakeupCoordinatorEvictAge then
    let oldestUpdated := wrap32 (now - kWakeupCoordinatorEvictAge) in
    match fst (EvictScan 0 t None oldestUpdated) with
    | Some i => Remove i t
    | None => t
    end
  else t.

(** The four setters at the end of [DetectReplay], on the cell [i]. *)
Definition StoreFrame (i : nat) (addr ks fc now : Z) (t : Table) : Table :=
  alter (fun c => SetLastUpdated now (SetFrameCounter fc (SetKeySequence ks (SetExtAddress addr c))))
        i t.

(** Error WakeupCoordTable::DetectReplay(const RxFrame &aFrame).
    The platform clock is read once per call ([aPlatTime]). *)
Definition DetectReplay (aPlatTime : Z) (aFrame : RxFrame) (t : Table) : Error * Table :=
  let frameSrcAddr := rxSrcAddr aFrame in
  let frameKeySequence := ReadUint32 (rxKeySource aFrame) in
  let frameCounter := rxFrameCounter aFrame in
  match FindMatching t frameSrcAddr with
  | Some (i, coord) =>
      if negb (mKeySequence coord <=? frameKeySequence) then (kErrorSecurity, t)
      else if (frameKeySequence =? mKeySequence coord)
              && negb (mFrameCounter coord <? frameCounter)
      then (kErrorSecurity, t)
      else (kErrorNone,
            StoreFrame i frameSrcAddr frameKeySequence frameCounter (GetNowInSecs aPlatTime) t)
  | None =>
      let t1 := Evict aPlatTime t in
      match PushBack t1 with
      | (Some i, t2) =>
          (kErrorNone,
           StoreFrame i frameSrcAddr frameKeySequence frameCounter (GetNowInSecs aPlatTime) t2)
      | (None, t2) => (kErrorNoBufs, t2)
      end
  end.

(** The entry of an address, as [FindMatching] sees it. *)
Definition entryOf (t : Table) (a : Z) : option WakeupCoord :=
  snd <$> FindMatching t a.

(** A run of [DetectReplay] over frames, each with the platform time of its
    arrival; the errors are returned in order. *)
Fixpoint DetectReplayAll (fs : list (Z * RxFrame)) (t : Table) : list Error * Table :=
  match fs with
  | [] => ([], t)
  | (tm, f) :: fs' =>
      let '(e, t1) := DetectReplay tm f t in
      let '(es, t2) := DetectReplayAll fs' t1 in
      (e :: es, t2)
  end.

(** [newer ks fc c]: the frame's pair is strictly above the pair stored in
    [c], key sequence first. *)
Definition newer (ks fc : Z) (c : WakeupCoord) : Prop :=
  mKeySequence c < ks \/ (ks = mKeySequence c /\ mFrameCounter c < fc).

(** Pairs [(key sequence, frame counter)] and their lexicographic order. *)
Definition lexLe (p q : Z * Z) : Prop :=
  p.1 < q.1 \/ (p.1 = q.1 /\ p.2 <= q.2).

Definition pairOf (c : WakeupCoord) : Z * Z := (mKeySequence c, mFrameCounter c).

Definition framePair (f : RxFrame) : Z * Z := (ReadUint32 (rxKeySource f), rxFrameCounter f).

(** The pairs of the frames that [DetectReplay] accepted, in order. *)
Fixpoint accepted (fs : list (Z * RxFrame)) (es : list Error) : list (Z * Z) :=
  match fs, es with
  | (_, f) :: fs', e :: es' =>
      if decide (e = kErrorNone) then framePair f :: accepted fs' es' else accepted fs' es'
  | _, _ => []
  end.

Definition absent (t : Table) (a : Z) : Prop := Forall (fun c => Matches a c = false) t.



(** *** Facts about the array operations *)

Lemma FindMatchingFrom_None k t a :
  FindMatchingFrom k t a = None <-> absent t a.
Proof.
  revert k; induction t as [|c t IH]; intros k; simpl.
  - split; [constructor | reflexivity].
  - destruct (Matches a c) eqn:Hm.
    + split; [discriminate | intros H; inversion H; congruence].
    + rewrite IH. split; [now constructor | intros H; now inversion H].
Qed.

Lemma FindMatchingFrom_Some k t a i c :
  FindMatchingFrom k t a = Some (i, c) <->
  exists j, i = (k + j)%nat /\ t !! j = Some c /\ Matches a c = true /\ absent (take j t) a.
Proof.
  revert k; induction t as [|d t IH]; intros k; simpl.
  - split; [discriminate | intros (j & _ & H & _); destruct j; discriminate].
  - destruct (Matches a d) eqn:Hm.
    + split.
      * intros [= <- <-]. exists 0%nat. repeat split; [lia | assumption | constructor].
      * intros (j & -> & Hj & Hc & Habs). destruct j as [|j].
        -- simpl in Hj. injection Hj as <-. do 2 f_equal. lia.
        -- simpl in Habs. inversion Habs; congruence.
    + rewrite IH. split.
      * intros (j & -> & Hj & Hc & Habs). exists (S j).
        repeat split; [lia | assumption | assumption | simpl; now constructor].
      * intros (j & -> & Hj & Hc & Habs). destruct j as [|j].
        -- simpl in Hj. congruence.
        -- exists j. simpl in Hj, Habs. inversion Habs; subst.
           repeat split; [lia | assumption | assumption | assumption].
Qed.


(** Writing the frame of [a] into the cell that matched [a] leaves it the
    first match. *)
Lemma FindMatching_StoreFrame t a i c ks fc now :
  FindMatching t a = Some (i, c) ->
  FindMatching (StoreFrame i a ks fc now t) a = Some (i, mkWakeupCoord a ks fc now).
Proof.
  unfold FindMatching. rewrite !FindMatchingFrom_Some.
  intros (j & -> & Hj & Hc & Habs). exists j. simpl. unfold StoreFrame.
  repeat split.
  - rewrite list_lookup_alter_eq, Hj. reflexivity.
  - unfold Matches. simpl. apply Z.eqb_refl.
  - rewrite take_alter_ge by lia. assumption.
Qed.

(** A new cell for [a] at the end of a table that has none is its match. *)
Lemma FindMatching_snoc t a c :
  absent t a -> Matches a c = true ->
  FindMatching (t ++ [c]) a = Some (length t, c).
Proof.
  intros Habs Hc. unfold FindMatching. rewrite FindMatchingFrom_Some.
  exists (length t). repeat split.
  - rewrite lookup_app_r by lia. now rewrite Nat.sub_diag.
  - assumption.
  - now rewrite take_app_length.
Qed.

Lemma absent_Remove t a i : absent t a -> absent (Remove i t) a.
Proof.
  intros Habs. unfold Remove. destruct (list.last t) as [l|] eqn:Hl; [|assumption].
  apply last_Some in Hl as [t' ->]. rewrite removelast_last.
  apply Forall_app in Habs as [Ht' Hl]. inversion Hl; subst.
  destruct (i =? length t')%nat; [assumption|].
  now apply Forall_insert.
Qed.

Lemma absent_Evict t a tm : absent t a -> absent (Evict tm t) a.
Proof.
  intros Habs. unfold Evict.
  destruct (GetNowInSecs tm >? kWakeupCoordinatorEvictAge); [|assumption].
  destruct (EvictScan 0 t None _).1; [now apply absent_Remove | assumption].
Qed.

(** *** [DetectReplay] on a known source address *)

Lemma DetectReplay_present tm f t i c :
  FindMatching t (rxSrcAddr f) = Some (i, c) ->
  let ks := ReadUint32 (rxKeySource f) in
  let fc := rxFrameCounter f in
  (newer ks fc c ->
   DetectReplay tm f t = (kErrorNone, StoreFrame i (rxSrcAddr f) ks fc (GetNowInSecs tm) t)) /\
  (~ newer ks fc c -> DetectReplay tm f t = (kErrorSecurity, t)).
Proof.
  intros Hfind ks fc. unfold DetectReplay, newer. rewrite Hfind. fold ks fc.
  destruct (Z.leb_spec (mKeySequence c) ks) as [Hle|Hlt]; simpl.
  - destruct (Z.eqb_spec ks (mKeySequence c)) as [Heq|Hne]; simpl.
    + destruct (Z.ltb_spec (mFrameCounter c) fc) as [Hfc|Hfc]; simpl.
      * split; [reflexivity | intros H; exfalso; apply H; right; lia].
      * split; [intros [H|[_ H]]; lia | reflexivity].
    + split; [reflexivity | intros H; exfalso; apply H; left; lia].
  - split; [intros [H|[H _]]; lia | reflexivity].
Qed.

(** *** [DetectReplay] on an unknown source address *)

Lemma DetectReplay_absent tm f t :
  absent t (rxSrcAddr f) ->
  let ks := ReadUint32 (rxKeySource f) in
  let fc := rxFrameCounter f in
  let t1 := Evict tm t in
  (DetectReplay tm f t = (kErrorNoBufs, t1) /\ (kMaxWakeupCoords <= length t1)%nat) \/
  (DetectReplay tm f t =
     (kErrorNone, t1 ++ [mkWakeupCoord (rxSrcAddr f) ks fc (GetNowInSecs tm)]) /\
   (length t1 < kMaxWakeupCoords)%nat).
Proof.
  intros Habs ks fc t1. unfold DetectReplay.
  apply FindMatchingFrom_None with (k := 0%nat) in Habs. unfold FindMatching. rewrite Habs.
  fold t1. unfold PushBack.
  destruct (Nat.ltb_spec (length t1) kMaxWakeupCoords) as [Hlt|Hge].
  - right. split; [|assumption]. f_equal. unfold StoreFrame.
    rewrite alter_app_r_alt by lia. rewrite Nat.sub_diag. reflexivity.
  - left. split; [reflexivity | assumption].
Qed.

(** *** Runs of frames from one source address *)

Definition allFrom (a : Z) (fs : list (Z * RxFrame)) : Prop :=
  Forall (fun x => rxSrcAddr x.2 = a) fs.

Lemma lexLe_refl p : lexLe p p.
Proof. unfold lexLe. lia. Qed.

Lemma lexLe_trans p q r : lexLe p q -> lexLe q r -> lexLe p r.
Proof. unfold lexLe. lia. Qed.

Lemma newer_lexLe ks fc c : newer ks fc c -> lexLe (pairOf c) (ks, fc).
Proof. unfold newer, lexLe, pairOf. simpl. lia. Qed.

Lemma newer_dec ks fc c : newer ks fc c \/ ~ newer ks fc c.
Proof.
  unfold newer.
  destruct (Z.lt_ge_cases (mKeySequence c) ks); [now left; left|].
  destruct (Z.eq_dec ks (mKeySequence c)); [|right; lia].
  destruct (Z.lt_ge_cases (mFrameCounter c) fc); [now left; right | right; lia].
Qed.

Lemma last_cons_default {A} (d x : A) l :
  default d (list.last (x :: l)) = default x (list.last l).
Proof.
  destruct l as [|y l]; [reflexivity|]. rewrite last_cons_cons.
  destruct (list.last (y :: l)) eqn:Hl; [reflexivity|].
  apply last_None in Hl. discriminate.
Qed.

Lemma DetectReplayAll_cons tm f fs t :
  DetectReplayAll ((tm, f) :: fs) t =
  ((DetectReplay tm f t).1 :: (DetectReplayAll fs (DetectReplay tm f t).2).1,
   (DetectReplayAll fs (DetectReplay tm f t).2).2).
Proof.
  simpl. destruct (DetectReplay tm f t) as [e t1]. simpl.
  destruct (DetectReplayAll fs t1) as [es t2]. reflexivity.
Qed.

(** Once the address has an entry, the entry follows the accepted frames:
    it holds the pair of the last one, which is above all the others. *)
Lemma DetectReplayAll_present a fs :
  forall t i c, allFrom a fs -> FindMatching t a = Some (i, c) ->
  let r := DetectReplayAll fs t in
  exists i' c', FindMatching r.2 a = Some (i', c') /\
    pairOf c' = default (pairOf c) (list.last (accepted fs r.1)) /\
    Forall (fun q => lexLe q (pairOf c')) (pairOf c :: accepted fs r.1).
Proof.
  induction fs as [|[tm f] fs IH]; intros t i c Hall Hfind.
  - simpl. exists i, c. repeat split; [assumption|].
    constructor; [apply lexLe_refl | constructor].
  - apply Forall_cons_1 in Hall as [Hsrc Hall']. simpl in Hsrc. subst a.
    rewrite DetectReplayAll_cons. cbv zeta.
    destruct (DetectReplay_present tm f t i c Hfind) as [Hacc Hrej].
    destruct (newer_dec (ReadUint32 (rxKeySource f)) (rxFrameCounter f) c) as [Hn|Hn].
    + rewrite (Hacc Hn). simpl.
      apply (FindMatching_StoreFrame _ _ _ _ (ReadUint32 (rxKeySource f))
               (rxFrameCounter f) (GetNowInSecs tm)) in Hfind.
      destruct (IH _ _ _ Hall' Hfind) as (i' & c' & Hf' & Hp' & Hle').
      exists i', c'. split; [assumption|]. split.
      * rewrite last_cons_default. exact Hp'.
      * inversion Hle' as [|? ? Hhead Htail]; subst.
        constructor; [|now constructor].
        eapply lexLe_trans; [apply newer_lexLe; exact Hn | exact Hhead].
    + rewrite (Hrej Hn). simpl.
      destruct (IH _ _ _ Hall' Hfind) as (i' & c' & Hf' & Hp' & Hle').
      exists i', c'. repeat split; assumption.
Qed.

(** Before the address has an entry, either nothing was accepted yet and
    the address is still unknown, or the first accepted frame created the
    entry and [DetectReplayAll_present] applies from there. *)
Lemma DetectReplayAll_absent a fs :
  forall t, allFrom a fs -> absent t a ->
  let r := DetectReplayAll fs t in
  (accepted fs r.1 = [] /\ absent r.2 a) \/
  (exists i' c' p, list.last (accepted fs r.1) = Some p /\
     FindMatching r.2 a = Some (i', c') /\ pairOf c' = p /\
     Forall (fun q => lexLe q p) (accepted fs r.1)).
Proof.
  induction fs as [|[tm f] fs IH]; intros t Hall Habs.
  - left. split; [reflexivity | assumption].
  - apply Forall_cons_1 in Hall as [Hsrc Hall']. simpl in Hsrc. subst a.
    rewrite DetectReplayAll_cons. cbv zeta.
    destruct (DetectReplay_absent tm f t Habs) as [[-> Hfull]|[-> Hfree]]; simpl.
    + apply IH; [assumption|]. now apply absent_Evict.
    + right.
      set (c1 := mkWakeupCoord _ _ _ _).
      assert (Hfind : FindMatching (Evict tm t ++ [c1]) (rxSrcAddr f)
                      = Some (length (Evict tm t), c1)).
      { apply FindMatching_snoc; [now apply absent_Evict|].
        unfold Matches, c1. simpl. apply Z.eqb_refl. }
      destruct (DetectReplayAll_present _ fs _ _ _ Hall' Hfind) as (i' & c' & Hf' & Hp' & Hle').
      exists i', c', (pairOf c'). repeat split.
      * change (framePair f) with (pairOf c1).
        destruct (accepted fs _) as [|q l] eqn:Hacc; [simpl in *; congruence|].
        rewrite last_cons_cons. simpl in Hp'.
        destruct (list.last (q :: l)) eqn:Hl; [simpl in Hp'; congruence|].
        apply last_None in Hl. discriminate.
      * assumption.
      * exact Hle'.
Qed.

(** *** [kErrorNoBufs] *)

Lemma EvictScan_Some i t j u : exists j' u', EvictScan i t (Some j) u = (Some j', u').
Proof.
  revert i j u. induction t as [|c t IH]; intros i j u; simpl; [eauto|].
  destruct (mLastUpdated c <? u); apply IH.
Qed.

Lemma EvictScan_None i t u :
  (EvictScan i t None u).1 = None -> Forall (fun c => u <= mLastUpdated c) t.
Proof.
  revert i. induction t as [|c t IH]; intros i; simpl; [constructor|].
  destruct (Z.ltb_spec (mLastUpdated c) u) as [Hlt|Hge].
  - destruct (EvictScan_Some (S i) t i (mLastUpdated c)) as (j' & u' & ->). discriminate.
  - intros H. constructor; [assumption | now apply (IH (S i))].
Qed.

Lemma length_Remove i t : t <> [] -> S (length (Remove i t)) = length t.
Proof.
  intros Hne. unfold Remove. destruct (list.last t) as [l|] eqn:Hl.
  - apply last_Some in Hl as [t' ->]. rewrite removelast_last, length_app. simpl.
    destruct (i =? length t')%nat; [lia | rewrite length_insert; lia].
  - apply last_None in Hl. contradiction.
Qed.

(** [kErrorNoBufs] is returned only for an unknown address, when the table
    is full and [Evict] found no entry older than the eviction age; the
    table is then left as it was. *)
Lemma DetectReplay_NoBufs tm f t :
  0 <= kWakeupCoordinatorEvictAge ->
  (length t <= kMaxWakeupCoords)%nat ->
  (DetectReplay tm f t).1 = kErrorNoBufs ->
  absent t (rxSrcAddr f) /\
  length t = kMaxWakeupCoords /\
  (DetectReplay tm f t).2 = t /\
  (GetNowInSecs tm > kWakeupCoordinatorEvictAge ->
   Forall (fun c => GetNowInSecs tm - kWakeupCoordinatorEvictAge <= mLastUpdated c) t).
Proof.
  intros Hage Hlen Herr.
  destruct (FindMatching t (rxSrcAddr f)) as [[i c]|] eqn:Hfind.
  - exfalso. destruct (DetectReplay_present tm f t i c Hfind) as [Hacc Hrej].
    destruct (newer_dec (ReadUint32 (rxKeySource f)) (rxFrameCounter f) c) as [Hn|Hn];
      [rewrite (Hacc Hn) in Herr | rewrite (Hrej Hn) in Herr]; discriminate.
  - apply FindMatchingFrom_None in Hfind.
    destruct (DetectReplay_absent tm f t Hfind) as [[Hrun Hfull]|[Hrun _]];
      [|rewrite Hrun in Herr; discriminate].
    rewrite Hrun. simpl. clear Hrun Herr. unfold Evict in *.
    destruct (Z.gtb_spec (GetNowInSecs tm) kWakeupCoordinatorEvictAge) as [Hgt|Hle].
    + destruct (EvictScan 0 t None _).1 as [i|] eqn:Hscan.
      * exfalso. destruct t as [|c t]; [discriminate|].
        pose proof (length_Remove i (c :: t) ltac:(discriminate)). lia.
      * repeat split; [assumption | lia |]. intros _.
        apply EvictScan_None in Hscan.
        assert (Hnow : 0 <= GetNowInSecs tm < 2^32)
          by (unfold GetNowInSecs, wrap32; apply Z.mod_pos_bound; lia).
        unfold wrap32 in Hscan at 1. rewrite Z.mod_small in Hscan by lia. exact Hscan.
    + repeat split; [assumption | lia | lia].
Qed.

End Table.

(** *** The replay check *)

(** Decides [newer] (or its negation) for a frame with concrete numbers. *)
Ltac decide_newer :=
  unfold newer;
  match goal with
  | |- context [ReadUint32 ?b] =>
      let v := eval vm_compute in (ReadUint32 b) in
      change (ReadUint32 b) with v
  end;
  simpl; lia.

(** C1.  For a frame whose source address has an entry [c], [DetectReplay]
    returns [kErrorNone] exactly when the frame's key sequence is above the
    entry's, or equal with a frame counter above the entry's; otherwise it
    returns [kErrorSecurity] and the table, hence the entry, is unchanged.
    Scenario S1 (capacity 2): once (5,10) is stored for [a], the frames
    (5,10), (5,9) and (4,9999) from [a] give [kErrorSecurity] and leave the
    table as it is; (5,11) and (6,0) give [kErrorNone]. *)
Theorem DetectReplay_known_source :
  (forall cap age tm f t i c,
     FindMatching t (rxSrcAddr f) = Some (i, c) ->
     let ks := ReadUint32 (rxKeySource f) in
     let fc := rxFrameCounter f in
     ((DetectReplay cap age tm f t).1 = kErrorNone <->
        (ks > mKeySequence c \/ (ks = mKeySequence c /\ fc > mFrameCounter c))) /\
     (~ (ks > mKeySequence c \/ (ks = mKeySequence c /\ fc > mFrameCounter c)) ->
        DetectReplay cap age tm f t = (kErrorSecurity, t) /\
        entryOf (DetectReplay cap age tm f t).2 (rxSrcAddr f) = Some c)) /\
  (forall age a tm0 tm,
     let t1 := (DetectReplay 2 age tm0 (frameOf a 5 10) []).2 in
     entryOf t1 a = Some (mkWakeupCoord a 5 10 (GetNowInSecs tm0)) /\
     DetectReplay 2 age tm (frameOf a 5 10) t1 = (kErrorSecurity, t1) /\
     DetectReplay 2 age tm (frameOf a 5 9) t1 = (kErrorSecurity, t1) /\
     DetectReplay 2 age tm (frameOf a 4 9999) t1 = (kErrorSecurity, t1) /\
     (DetectReplay 2 age tm (frameOf a 5 11) t1).1 = kErrorNone /\
     (DetectReplay 2 age tm (frameOf a 6 0) t1).1 = kErrorNone /\
     (DetectReplayAll 2 age
        [(tm, frameOf a 5 10); (tm, frameOf a 5 9); (tm, frameOf a 4 9999);
         (tm, frameOf a 5 11); (tm, frameOf a 6 0)] t1).1
     = [kErrorSecurity; kErrorSecurity; kErrorSecurity; kErrorNone; kErrorNone]).
Proof.
  split.
  - intros cap age tm f t i c Hfind ks fc.
    destruct (DetectReplay_present cap age tm f t i c Hfind) as [Hacc Hrej].
    fold ks fc in Hacc, Hrej. unfold newer in Hacc, Hrej.
    destruct (newer_dec ks fc c) as [Hn|Hn]; unfold newer in Hn.
    + rewrite (Hacc Hn). simpl. split; [split; [lia | reflexivity] | lia].
    + rewrite (Hrej Hn). simpl. split; [split; [discriminate | lia]|].
      intros _. split; [reflexivity|]. unfold entryOf. now rewrite Hfind.
  - intros age a tm0 tm t1.
    assert (Ht1 : t1 = [mkWakeupCoord a 5 10 (GetNowInSecs tm0)]).
    { unfold t1, DetectReplay, Evict. simpl.
      destruct (GetNowInSecs tm0 >? age); reflexivity. }
    assert (Hfind : forall ks fc,
              FindMatching t1 (rxSrcAddr (frameOf a ks fc))
              = Some (0%nat, mkWakeupCoord a 5 10 (GetNowInSecs tm0))).
    { intros ks fc. rewrite Ht1. unfold FindMatching. simpl.
      unfold Matches. simpl. now rewrite Z.eqb_refl. }
    split; [pose proof (Hfind 0 0) as H0; simpl in H0; unfold entryOf; now rewrite H0|].
    assert (H1 : DetectReplay 2 age tm (frameOf a 5 10) t1 = (kErrorSecurity, t1)).
    { apply (DetectReplay_present 2 age tm _ _ _ _ (Hfind 5 10)). decide_newer. }
    assert (H2 : DetectReplay 2 age tm (frameOf a 5 9) t1 = (kErrorSecurity, t1)).
    { apply (DetectReplay_present 2 age tm _ _ _ _ (Hfind 5 9)). decide_newer. }
    assert (H3 : DetectReplay 2 age tm (frameOf a 4 9999) t1 = (kErrorSecurity, t1)).
    { apply (DetectReplay_present 2 age tm _ _ _ _ (Hfind 4 9999)). decide_newer. }
    assert (H4 : DetectReplay 2 age tm (frameOf a 5 11) t1
                 = (kErrorNone, [mkWakeupCoord a 5 11 (GetNowInSecs tm)])).
    { destruct (DetectReplay_present 2 age tm _ _ _ _ (Hfind 5 11)) as [-> _];
        [now rewrite Ht1 | decide_newer]. }
    assert (H5 : (DetectReplay 2 age tm (frameOf a 6 0) t1).1 = kErrorNone).
    { destruct (DetectReplay_present 2 age tm _ _ _ _ (Hfind 6 0)) as [-> _];
        [reflexivity | decide_newer]. }
    assert (H6 : (DetectReplay 2 age tm (frameOf a 6 0)
                    [mkWakeupCoord a 5 11 (GetNowInSecs tm)]).1 = kErrorNone).
    { assert (Hf : FindMatching [mkWakeupCoord a 5 11 (GetNowInSecs tm)]
                     (rxSrcAddr (frameOf a 6 0))
                   = Some (0%nat, mkWakeupCoord a 5 11 (GetNowInSecs tm))).
      { unfold FindMatching. simpl. unfold Matches. simpl. now rewrite Z.eqb_refl. }
      destruct (DetectReplay_present 2 age tm _ _ _ _ Hf) as [-> _];
        [reflexivity | decide_newer]. }
    split; [exact H1|]. split; [exact H2|]. split; [exact H3|].
    split; [now rewrite H4|]. split; [exact H5|].
    rewrite !DetectReplayAll_cons.
    rewrite H1; cbn [fst snd]. rewrite H2; cbn [fst snd]. rewrite H3; cbn [fst snd].
    rewrite H4; cbn [fst snd]. rewrite H6. reflexivity.
Qed.

Lemma DetectReplay_known_source_witness :
  let t := [mkWakeupCoord 170 5 10 10] in
  let f := frameOf 170 5 11 in
  FindMatching t (rxSrcAddr f) = Some (0%nat, mkWakeupCoord 170 5 10 10) /\
  ((DetectReplay 2 60 11000000 f t).1 = kErrorNone <->
     (5 > 5 \/ (5 = 5 /\ 11 > 10))).
Proof.
  split; [reflexivity|].
  exact (proj1 (proj1 DetectReplay_known_source 2%nat 60 11000000
                  (frameOf 170 5 11) [mkWakeupCoord 170 5 10 10] 0%nat
                  (mkWakeupCoord 170 5 10 10) eq_refl)).
Defined.

(** *** The stored pair over a run of frames *)


(** *** Eviction *)

(** C6 at a table with a free slot.  Capacity 2, eviction age 60 s; the
    table holds one entry, for address 170, last updated at second 10.  A
    frame from the unknown address 187 arrives at second 80: [Evict] runs
    although a slot is free and removes the entry of 170. *)
Theorem DetectReplay_evicts_with_free_slot :
  let t := [mkWakeupCoord 170 5 10 10] in
  (length t < 2)%nat /\
  DetectReplay 2 60 80000000 (frameOf 187 1 1) t
    = (kErrorNone, [mkWakeupCoord 187 1 1 80]) /\
  entryOf t 170 = Some (mkWakeupCoord 170 5 10 10) /\
  entryOf (DetectReplay 2 60 80000000 (frameOf 187 1 1) t).2 170 = None.
Proof.
  cbv zeta. split; [simpl; lia|]. split; [vm_compute; reflexivity|].
  split; vm_compute; reflexivity.
Qed.

End WakeupCoordTable.

(** ** Radio and clock declarations shared by the scheduler and the sender *)

(** Modelled from the spec: mac/mac_types.hpp is not among the sources.  §6
    gives [TEN_SYMBOLS_US = 160], and enh_csl_sender.hpp says of the CSL
    period "units of 10 symbols (160 microseconds)". *)
Definition kUsPerTenSymbols : Z := 160.

(** Modelled from the spec: common/time.hpp is not among the sources.  §9:
    "Times are 32-bit microsecond quantities that wrap; comparisons must use
    wrap-safe arithmetic (treat as modulo 2^32)".  [Time_lt a b] holds when
    the 32-bit difference [a - b] has its top bit set. *)
Definition Time_add (t d : Z) : Z := wrap32 (t + d).
Definition Time_sub (a b : Z) : Z := wrap32 (a - b).
Definition Time_lt (a b : Z) : bool := 2^31 <=? wrap32 (a - b).
Definition Time_ge (a b : Z) : bool := negb (Time_lt a b).

(** Max() of common/num_utils.hpp on [Time]: [(a < b) ? b : a]. *)
Definition Time_Max (a b : Z) : Z := if Time_lt a b then b else a.

Lemma wrap32_small x : 0 <= x < 2^32 -> wrap32 x = x.
Proof. intros H. unfold wrap32. now apply Z.mod_small. Qed.

Lemma wrap32_idemp_add a b : wrap32 (wrap32 a + b) = wrap32 (a + b).
Proof. unfold wrap32. now rewrite Zplus_mod_idemp_l. Qed.

Lemma Time_lt_wrap a b : Time_lt (wrap32 a) (wrap32 b) = Time_lt a b.
Proof. unfold Time_lt, wrap32. now rewrite <- Zminus_mod. Qed.

Lemma Time_lt_before a b : - 2^31 <= a - b < 0 -> Time_lt a b = true.
Proof.
  intros H. unfold Time_lt, wrap32.
  rewrite <- (Z.mod_add (a - b) 1 (2^32)) by lia.
  rewrite Z.mod_small by lia. apply Z.leb_le. lia.
Qed.

Lemma Time_lt_not_before a b : 0 <= a - b < 2^31 -> Time_lt a b = false.
Proof.
  intros H. unfold Time_lt, wrap32.
  rewrite Z.mod_small by lia. apply Z.leb_gt. lia.
Qed.

(** ** WakeupTxScheduler *)

Module WakeupTxScheduler.

Definition kWakeupFrameLength : Z := 54.
Definition kParentRequestLength : Z := 78.
Definition kWakeupFrameDataLength : Z := 100.

(** What [PrepareWakeupFrame] writes into the frame it returns. *)
Record WakeupFrame : Type := mkWakeupFrame {
  wfPanId            : Z;
  wfTarget           : Z;
  wfSource           : Z;
  wfTxDelayBaseTime  : Z;
  wfTxDelay          : Z;
  wfCsmaCaEnabled    : bool;
  wfMaxCsmaBackoffs  : Z;
  wfMaxFrameRetries  : Z;
  wfRendezvousTime   : Z;   (* the argument of SetRendezvousTime *)
  wfRetryInterval    : Z;
  wfRetryCount       : Z
}.

(** class WakeupTxScheduler.  [mTimer] is the time the timer was last set
    to fire at, [None] after [Stop]. *)
Record Scheduler : Type := mkScheduler {
  mTarget               : Z;
  mTxTimeUs             : Z;      (* TimeMicro *)
  mTxEndTimeUs          : Z;      (* TimeMicro *)
  mTxRequestAheadTimeUs : Z;      (* const uint16_t *)
  mIntervalUs           : Z;      (* uint16_t *)
  mTimer                : option Z;
  mSequenceOngoing      : bool
}.

(** One frame request of the MAC layer: the two readings of
    [TimerMicro::GetNow()] ([PrepareWakeupFrame] reads the clock, and
    [ScheduleNext] reads it again), the reading of [otPlatRadioGetNow], and
    whether [GenerateWakeupFrame] succeeded. *)
Record Request : Type := mkRequest {
  rqNow       : Z;
  rqNowNext   : Z;
  rqRadioNow  : Z;     (* uint64_t *)
  rqGenerated : bool
}.

Section Scheduler.

(** Build-time configuration and declarations of other headers:
    OPENTHREAD_CONFIG_MAC_CSL_REQUEST_AHEAD_US, the connection retry
    parameters, and [kOctetDuration], the air time of one octet in
    microseconds. *)
Variable kCslRequestAheadUs : Z.
Variable kConnectionRetryInterval : Z.
Variable kConnectionRetryCount : Z.
Variable kOctetDuration : Z.

(** uint16_t CalcTxRequestAheadTimeUs(Instance &), from the bus speed. *)
Definition CalcTxRequestAheadTimeUs (busSpeedHz : Z) : Z :=
  let aheadTimeUs := wrap16 kCslRequestAheadUs in
  if busSpeedHz >? 0
  then wrap16 (aheadTimeUs
               + wrap16 (wrap32 (wrap32 (kWakeupFrameDataLength * 8 * 1000000) + busSpeedHz - 1)
                         / busSpeedHz))
  else aheadTimeUs.

(** The constructor.  [mTarget] and [mIntervalUs] are not initialised; they
    are written by [WakeUp] before anything reads them. *)
Definition init (busSpeedHz : Z) : Scheduler :=
  mkScheduler 0 0 0 (CalcTxRequestAheadTimeUs busSpeedHz) 0 None false.

(** void WakeupTxScheduler::ScheduleNext(bool aIsFirstFrame) *)
Definition ScheduleNext (aIsFirstFrame : bool) (aNow : Z) (s : Scheduler) : Scheduler :=
  let txTime :=
    if aIsFirstFrame then mTxTimeUs s
    else Time_Max (Time_add (mTxTimeUs s) (mIntervalUs s))
                  (Time_add aNow (mTxRequestAheadTimeUs s)) in
  if Time_ge txTime (mTxEndTimeUs s)
  then mkScheduler (mTarget s) txTime (mTxEndTimeUs s) (mTxRequestAheadTimeUs s)
                   (mIntervalUs s) (mTimer s) false
  else mkScheduler (mTarget s) txTime (mTxEndTimeUs s) (mTxRequestAheadTimeUs s)
                   (mIntervalUs s)
                   (Some (Time_sub txTime (mTxRequestAheadTimeUs s)))
                   (mSequenceOngoing s).

(** Error WakeupTxScheduler::WakeUp(aTarget, aIntervalUs, aDurationMs) *)
Definition WakeUp (aTarget aIntervalUs aDurationMs : Z) (aNow : Z) (s : Scheduler)
  : Error * Scheduler :=
  if mSequenceOngoing s then (kErrorInvalidState, s)
  else
    let txTime := Time_add aNow (mTxRequestAheadTimeUs s) in
    let txEnd := Time_add (Time_add txTime (aDurationMs * 1000)) aIntervalUs in
    (kErrorNone,
     ScheduleNext true aNow
       (mkScheduler aTarget txTime txEnd (mTxRequestAheadTimeUs s) aIntervalUs (mTimer s) true)).

(** The Rendezvous Time computed by [PrepareWakeupFrame], in [uint32_t]. *)
Definition rendezvousTime (aIntervalUs : Z) : Z :=
  let rendezvousTimeUs :=
    wrap32 (aIntervalUs - wrap32 ((kWakeupFrameLength + kParentRequestLength) * kOctetDuration)) / 2 in
  let rendezvousTimeUs := wrap32 (rendezvousTimeUs + aIntervalUs) in
  rendezvousTimeUs / kUsPerTenSymbols.

(** Mac::TxFrame *WakeupTxScheduler::PrepareWakeupFrame(Mac::TxFrames &).
    [aPanId] and [aExtAddress] are the PAN id and extended address of the
    MAC layer. *)
Definition PrepareWakeupFrame (aPanId aExtAddress : Z) (r : Request) (s : Scheduler)
  : option WakeupFrame * Scheduler :=
  if negb (mSequenceOngoing s) then (None, s)
  else
    let radioTxUs := Time_add (wrap32 (rqRadioNow r)) (Time_sub (mTxTimeUs s) (rqNow r)) in
    if negb (rqGenerated r) then (None, s)
    else
      (Some (mkWakeupFrame aPanId (mTarget s) aExtAddress 0 radioTxUs false 0 0
               (rendezvousTime (mIntervalUs s))
               kConnectionRetryInterval kConnectionRetryCount),
       ScheduleNext false (rqNowNext r) s).

(** void WakeupTxScheduler::Stop(void) *)
Definition Stop (s : Scheduler) : Scheduler :=
  mkScheduler (mTarget s) (mTxTimeUs s) (mTxEndTimeUs s) (mTxRequestAheadTimeUs s)
              (mIntervalUs s) None false.

(** A burst: the frame requests of the MAC layer, in order.  The result
    lists, for every frame that was prepared, the transmit time it was
    scheduled for ([mTxTimeUs] at the request). *)
Fixpoint burst (aPanId aExtAddress : Z) (reqs : list Request) (s : Scheduler)
  : list Z * Scheduler :=
  match reqs with
  | [] => ([], s)
  | r :: reqs' =>
      match PrepareWakeupFrame aPanId aExtAddress r s with
      | (Some _, s') =>
          let '(l, s'') := burst aPanId aExtAddress reqs' s' in (mTxTimeUs s :: l, s'')
      | (None, s') => burst aPanId aExtAddress reqs' s'
      end
  end.

(** No slip: at every request of the burst [ScheduleNext] runs before the
    next slot would be clamped forward, that is, the next slot is not
    earlier than "now + ahead", and the frame is generated. *)
Fixpoint noSlip (reqs : list Request) (s : Scheduler) : Prop :=
  match reqs with
  | [] => True
  | r :: reqs' =>
      rqGenerated r = true /\
      Time_lt (Time_add (mTxTimeUs s) (mIntervalUs s))
              (Time_add (rqNowNext r) (mTxRequestAheadTimeUs s)) = false /\
      noSlip reqs' (ScheduleNext false (rqNowNext r) s)
  end.

(** The slots [t, t + i, ..., t + (n-1) i], as 32-bit times. *)
Fixpoint slots (n : nat) (t i : Z) : list Z :=
  match n with
  | O => []
  | S n' => wrap32 t :: slots n' (t + i) i
  end.

(** *** One step of a burst *)

Lemma PrepareWakeupFrame_ongoing aPanId aExtAddress r s :
  mSequenceOngoing s = true -> rqGenerated r = true ->
  exists fr, PrepareWakeupFrame aPanId aExtAddress r s
             = (Some fr, ScheduleNext false (rqNowNext r) s) /\
             wfRendezvousTime fr = rendezvousTime (mIntervalUs s).
Proof.
  intros Hon Hgen. unfold PrepareWakeupFrame. rewrite Hon, Hgen. simpl.
  eexists. split; reflexivity.
Qed.

Lemma PrepareWakeupFrame_stopped aPanId aExtAddress r s :
  mSequenceOngoing s = false -> PrepareWakeupFrame aPanId aExtAddress r s = (None, s).
Proof. intros Hoff. unfold PrepareWakeupFrame. now rewrite Hoff. Qed.

(** A scheduler in a burst: the next frame is due at [T], the burst ends
    [R] microseconds later. *)
Definition inBurst (s : Scheduler) (T R : Z) : Prop :=
  mSequenceOngoing s = true /\ mTxTimeUs s = wrap32 T /\ mTxEndTimeUs s = wrap32 (T + R).

Lemma ScheduleNext_no_slip s T R now :
  inBurst s T R -> 0 < mIntervalUs s < 2^31 -> 0 < R < 2^31 ->
  Time_lt (Time_add (mTxTimeUs s) (mIntervalUs s))
          (Time_add now (mTxRequestAheadTimeUs s)) = false ->
  let s' := ScheduleNext false now s in
  mIntervalUs s' = mIntervalUs s /\
  mTxRequestAheadTimeUs s' = mTxRequestAheadTimeUs s /\
  (R <= mIntervalUs s -> mSequenceOngoing s' = false) /\
  (mIntervalUs s < R -> inBurst s' (T + mIntervalUs s) (R - mIntervalUs s)).
Proof.
  intros (Hon & Htx & Hend) HI HR Hslip s'.
  assert (Htime : Time_Max (Time_add (mTxTimeUs s) (mIntervalUs s))
                           (Time_add now (mTxRequestAheadTimeUs s))
                  = wrap32 (T + mIntervalUs s)).
  { unfold Time_Max. rewrite Hslip, Htx. unfold Time_add. apply wrap32_idemp_add. }
  unfold s', ScheduleNext. simpl. rewrite Htime, Hend. unfold Time_ge.
  rewrite Time_lt_wrap.
  destruct (Z_le_gt_dec R (mIntervalUs s)) as [Hle|Hgt].
  - rewrite Time_lt_not_before by lia. simpl.
    split; [reflexivity|]. split; [reflexivity|].
    split; [reflexivity | intros; lia].
  - rewrite Time_lt_before by lia. simpl.
    split; [reflexivity|]. split; [reflexivity|].
    split; [intros; lia|]. intros _. unfold inBurst. simpl.
    repeat split; [assumption | f_equal; lia].
Qed.

(** A burst without slip from a scheduler whose next frame is due at [T]
    and whose end is [R] later: the frames go out at [T], [T + I], ... as
    long as they are before the end, and the request of the last one clears
    [mSequenceOngoing]. *)
Lemma burst_no_slip aPanId aExtAddress reqs :
  forall s T R,
  inBurst s T R -> 0 < mIntervalUs s < 2^31 -> 0 < R < 2^31 ->
  (Z.of_nat (length reqs) - 1) * mIntervalUs s < R <= Z.of_nat (length reqs) * mIntervalUs s ->
  noSlip reqs s ->
  (burst aPanId aExtAddress reqs s).1 = slots (length reqs) T (mIntervalUs s) /\
  mSequenceOngoing (burst aPanId aExtAddress reqs s).2 = false.
Proof.
  induction reqs as [|r reqs IH]; intros s T R Hin HI HR Hlen Hns.
  - simpl in Hlen. lia.
  - destruct Hns as (Hgen & Hslip & Hns).
    destruct (PrepareWakeupFrame_ongoing aPanId aExtAddress r s (proj1 Hin) Hgen)
      as (fr & Hprep & _).
    destruct (ScheduleNext_no_slip s T R (rqNowNext r) Hin HI HR Hslip)
      as (HI' & _ & Hstop & Hgo).
    cbn [burst]. rewrite Hprep.
    destruct (Z_le_gt_dec R (mIntervalUs s)) as [Hle|Hgt].
    + assert (reqs = []) as ->.
      { destruct reqs; [reflexivity|]. cbn [length] in Hlen. nia. }
      simpl. split; [now rewrite (proj1 (proj2 Hin)) | now apply Hstop].
    + specialize (IH (ScheduleNext false (rqNowNext r) s)
                     (T + mIntervalUs s) (R - mIntervalUs s)).
      rewrite HI' in IH.
      destruct IH as [IHl IHs]; [apply Hgo; lia | lia | lia | | assumption |].
      * cbn [length] in Hlen. lia.
      * destruct (burst aPanId aExtAddress reqs _) as [l s'']. simpl in *.
        split; [|assumption]. rewrite (proj1 (proj2 Hin)). now f_equal.
Qed.

Lemma ceil_div_bounds D I :
  0 < I -> ((D + I - 1) / I - 1) * I < D <= (D + I - 1) / I * I.
Proof.
  intros HI.
  pose proof (Z.div_mod (D + I - 1) I ltac:(lia)) as Hdm.
  pose proof (Z.mod_pos_bound (D + I - 1) I HI) as Hb.
  nia.
Qed.

Lemma ceil_div_exact D I :
  0 < I -> D mod I = 0 -> (D + I - 1) / I = D / I.
Proof.
  intros HI Hmod.
  pose proof (Z.div_mod D I ltac:(lia)) as Hdm. rewrite Hmod in Hdm.
  symmetry. apply (Z.div_unique _ _ _ (I - 1)); lia.
Qed.

Lemma WakeUp_starts aTarget aIntervalUs aDurationMs now s0 :
  mSequenceOngoing s0 = false ->
  0 < aDurationMs * 1000 + aIntervalUs < 2^31 ->
  let r := WakeUp aTarget aIntervalUs aDurationMs now s0 in
  r.1 = kErrorNone /\
  inBurst r.2 (now + mTxRequestAheadTimeUs s0) (aDurationMs * 1000 + aIntervalUs) /\
  mIntervalUs r.2 = aIntervalUs /\
  mTxRequestAheadTimeUs r.2 = mTxRequestAheadTimeUs s0 /\
  mTimer r.2 = Some (Time_sub (Time_add now (mTxRequestAheadTimeUs s0))
                              (mTxRequestAheadTimeUs s0)).
Proof.
  intros Hoff HD r. unfold r, WakeUp. rewrite Hoff. unfold ScheduleNext. simpl.
  assert (Hend : Time_add (Time_add (Time_add now (mTxRequestAheadTimeUs s0))
                                    (aDurationMs * 1000)) aIntervalUs
                 = wrap32 (now + mTxRequestAheadTimeUs s0 + (aDurationMs * 1000 + aIntervalUs))).
  { unfold Time_add. rewrite wrap32_idemp_add, <- Z.add_assoc, wrap32_idemp_add.
    f_equal. }
  rewrite Hend.
  assert (Hge : Time_ge (Time_add now (mTxRequestAheadTimeUs s0))
                  (wrap32 (now + mTxRequestAheadTimeUs s0
                           + (aDurationMs * 1000 + aIntervalUs))) = false).
  { unfold Time_ge, Time_add. rewrite Time_lt_wrap.
    now rewrite Time_lt_before by lia. }
  rewrite Hge. unfold inBurst. simpl. repeat split.
Qed.

(** *** The length of a burst *)

(** C7, as the code has it.  A burst started by [WakeUp] with interval
    [aIntervalUs] and duration [aDurationMs], without slip, schedules
    exactly [ceil ((aDurationMs * 1000 + aIntervalUs) / aIntervalUs)] frames,
    at [start + ahead + k * aIntervalUs]; the call of [ScheduleNext] in the
    request of the last of them clears [mSequenceOngoing], and a later
    request gets no frame.  When the interval divides the duration, the
    number is [(aDurationMs * 1000 + aIntervalUs) / aIntervalUs]. *)
Theorem WakeUp_burst_frame_count
    aPanId aExtAddress aTarget aIntervalUs aDurationMs now s0 reqs :
  mSequenceOngoing s0 = false ->
  0 < aIntervalUs < 2^16 ->
  0 <= aDurationMs < 2^16 ->
  let s1 := (WakeUp aTarget aIntervalUs aDurationMs now s0).2 in
  let n := (aDurationMs * 1000 + aIntervalUs + aIntervalUs - 1) / aIntervalUs in
  Z.of_nat (length reqs) = n ->
  noSlip reqs s1 ->
  (WakeUp aTarget aIntervalUs aDurationMs now s0).1 = kErrorNone /\
  mSequenceOngoing s1 = true /\
  (burst aPanId aExtAddress reqs s1).1
    = slots (length reqs) (now + mTxRequestAheadTimeUs s0) aIntervalUs /\
  length (burst aPanId aExtAddress reqs s1).1 = Z.to_nat n /\
  mSequenceOngoing (burst aPanId aExtAddress reqs s1).2 = false /\
  (forall r, (PrepareWakeupFrame aPanId aExtAddress r
                (burst aPanId aExtAddress reqs s1).2).1 = None) /\
  ((aDurationMs * 1000) mod aIntervalUs = 0 ->
   n = (aDurationMs * 1000 + aIntervalUs) / aIntervalUs).
Proof.
  intros Hoff HI Hdur s1 n Hlen Hns.
  assert (HD : 0 < aDurationMs * 1000 + aIntervalUs < 2^31) by lia.
  destruct (WakeUp_starts aTarget aIntervalUs aDurationMs now s0 Hoff HD)
    as (Herr & Hin & HI1 & _ & _).
  fold s1 in Hin, HI1.
  pose proof (ceil_div_bounds (aDurationMs * 1000 + aIntervalUs) aIntervalUs ltac:(lia))
    as Hceil.
  destruct (burst_no_slip aPanId aExtAddress reqs s1 _ _ Hin) as [Hslots Hstop];
    try assumption.
  { rewrite HI1. lia. }
  { rewrite HI1, Hlen. unfold n. lia. }
  rewrite HI1 in Hslots.
  split; [assumption|]. split; [apply Hin|]. split; [assumption|].
  split.
  { rewrite Hslots. rewrite <- Hlen, Nat2Z.id.
    clear. generalize (now + mTxRequestAheadTimeUs s0).
    induction (length reqs); intros; simpl; [reflexivity | now rewrite IHn]. }
  split; [assumption|]. split.
  { intros r. now rewrite PrepareWakeupFrame_stopped. }
  intros Hdiv. unfold n.
  replace (aDurationMs * 1000 + aIntervalUs + aIntervalUs - 1)
    with ((aDurationMs * 1000 + aIntervalUs) + aIntervalUs - 1) by lia.
  apply ceil_div_exact; [lia|].
  rewrite <- Zplus_mod_idemp_l, Hdiv. simpl. apply Z.mod_same. lia.
Qed.

(** *** The Rendezvous Time *)

(** C8, as the code has it.  For a frame built by [PrepareWakeupFrame] with
    an interval of at least [(54 + 78) * kOctetDuration] microseconds, the
    Rendezvous Time handed to the IE is
    [(I + (I - (54 + 78) * kOctetDuration) / 2) / 160] in exact integer
    arithmetic: the factor of the frame lengths, which are in bytes, is the
    duration of an octet. *)
Theorem PrepareWakeupFrame_rendezvous_time aPanId aExtAddress r s fr s' :
  PrepareWakeupFrame aPanId aExtAddress r s = (Some fr, s') ->
  0 <= kOctetDuration ->
  (kWakeupFrameLength + kParentRequestLength) * kOctetDuration <= mIntervalUs s < 2^16 ->
  wfRendezvousTime fr
  = (mIntervalUs s
     + (mIntervalUs s - (kWakeupFrameLength + kParentRequestLength) * kOctetDuration) / 2)
    / kUsPerTenSymbols.
Proof.
  intros Hprep Hk HI. unfold PrepareWakeupFrame in Hprep.
  destruct (mSequenceOngoing s); [|discriminate]. simpl in Hprep.
  destruct (rqGenerated r); [|discriminate]. simpl in Hprep.
  injection Hprep as <- _. simpl. unfold rendezvousTime.
  unfold kWakeupFrameLength, kParentRequestLength in *.
  rewrite (wrap32_small (_ * kOctetDuration)) by lia.
  rewrite (wrap32_small (mIntervalUs s - _)) by lia.
  assert (0 <= (mIntervalUs s - (54 + 78) * kOctetDuration) / 2 < 2^16).
  { split; [apply Z.div_pos; lia | apply Z.div_lt_upper_bound; lia]. }
  rewrite wrap32_small by lia. f_equal. lia.
Qed.

End Scheduler.

(** *** Scenarios *)

(** A scheduler with a request-ahead time of 1500 us, as in scenario S4. *)
Definition idle1500 : Scheduler := mkScheduler 0 0 0 1500 0 None false.

(** [n] frame requests, the [k]-th at [start + k * i]: each request comes
    when the timer of its frame fires, 1500 us before the frame is due. *)
Definition timely (n : nat) (start i : Z) : list Request :=
  map (fun k => mkRequest (start + Z.of_nat k * i) (start + Z.of_nat k * i) 0 true) (seq 0 n).

(** Modelled from the spec: [SYMBOL_DURATION_US] of §6; ten symbols last
    [TEN_SYMBOLS_US = 160] microseconds. *)
Definition kSymbolDuration : Z := kUsPerTenSymbols / 10.

(** The Rendezvous Time as §4.2 words it, with the symbol duration as the
    factor of the frame lengths, in exact integer arithmetic. *)
Definition specRendezvousTime (aIntervalUs : Z) : Z :=
  (aIntervalUs
   + (aIntervalUs - (kWakeupFrameLength + kParentRequestLength) * kSymbolDuration) / 2)
  / kUsPerTenSymbols.

(** The number of frames of a burst as §8 words it. *)
Definition specFrameCount (aIntervalUs aDurationMs : Z) : Z :=
  (aDurationMs * 1000 + aIntervalUs) / aIntervalUs.

(** Scenario S4: interval 10000 us, duration 50 ms, ahead 1500 us, started
    at time 0. *)
Lemma WakeUp_burst_frame_count_witness :
  let s1 := (WakeUp 7 10000 50 0 idle1500).2 in
  let reqs := timely 6 0 10000 in
  noSlip reqs s1 /\
  (burst 1 2 32 4660 43981 reqs s1).1 = [1500; 11500; 21500; 31500; 41500; 51500] /\
  mSequenceOngoing (burst 1 2 32 4660 43981 reqs s1).2 = false /\
  (forall r, (PrepareWakeupFrame 1 2 32 4660 43981 r
                (burst 1 2 32 4660 43981 reqs s1).2).1 = None).
Proof.
  assert (Hns : noSlip (timely 6 0 10000) (WakeUp 7 10000 50 0 idle1500).2)
    by (vm_compute; repeat split; reflexivity).
  split; [exact Hns|].
  destruct (WakeUp_burst_frame_count 1 2 32 4660 43981 7 10000 50 0 idle1500
              (timely 6 0 10000) eq_refl ltac:(lia) ltac:(lia) eq_refl Hns)
    as (_ & _ & Hslots & _ & Hstop & Hnone & _).
  split; [exact Hslots|]. split; [exact Hstop | exact Hnone].
Defined.

(** C7 as stated fails: with interval 3000 us and duration 10 ms the burst
    has five frames, and the scheduler is still in its sequence after the
    fourth, while [(10 * 1000 + 3000) / 3000 = 4]. *)
Lemma burst_frame_count_not_floor :
  let s1 := (WakeUp 7 3000 10 0 idle1500).2 in
  let reqs := timely 5 0 3000 in
  noSlip reqs s1 /\
  (burst 1 2 32 4660 43981 reqs s1).1 = [1500; 4500; 7500; 10500; 13500] /\
  mSequenceOngoing (burst 1 2 32 4660 43981 (take 4 reqs) s1).2 = true /\
  mSequenceOngoing (burst 1 2 32 4660 43981 reqs s1).2 = false /\
  specFrameCount 3000 10 = 4.
Proof.
  cbv zeta. split; [vm_compute; repeat split; reflexivity|].
  repeat split; vm_compute; reflexivity.
Qed.

(** An octet takes 32 us on the air (two symbols); a frame in a burst of
    interval 10000 us. *)
Lemma PrepareWakeupFrame_rendezvous_time_witness :
  let s := (WakeUp 7 10000 50 0 idle1500).2 in
  exists fr s',
    PrepareWakeupFrame 1 2 32 4660 43981 (mkRequest 0 0 0 true) s = (Some fr, s') /\
    wfRendezvousTime fr = (10000 + (10000 - (54 + 78) * 32) / 2) / 160.
Proof.
  eexists _, _. split; [vm_compute; reflexivity|].
  apply (PrepareWakeupFrame_rendezvous_time 1 2 32 4660 43981 (mkRequest 0 0 0 true)
           (WakeUp 7 10000 50 0 idle1500).2 _ _ eq_refl);
    [lia | vm_compute; split; congruence].
Defined.

(** C8 as stated fails.  With the octet duration of 32 us and an interval of
    10000 us the frame carries Rendezvous Time 80, and the symbol duration
    as factor would give 87.  Nor is the arithmetic exact: were the factor
    16 us, an interval of 1000 us would wrap the unsigned subtraction and
    give 13421775 instead of 2. *)
Lemma rendezvous_time_not_by_symbol_duration :
  (exists fr s',
     PrepareWakeupFrame 1 2 32 4660 43981 (mkRequest 0 0 0 true)
       (WakeUp 7 10000 50 0 idle1500).2 = (Some fr, s') /\
     wfRendezvousTime fr = 80) /\
  specRendezvousTime 10000 = 87 /\
  rendezvousTime 16 1000 = 13421775 /\
  specRendezvousTime 1000 = 2.
Proof.
  split; [eexists _, _; split; vm_compute; reflexivity|].
  repeat split; vm_compute; reflexivity.
Qed.

End WakeupTxScheduler.

(** ** EnhCslSender *)

Module EnhCslSender.

Definition wrap6 (x : Z) : Z := x mod 2^6.

(** *** Results of methods that can go wrong

    A method either returns, or runs into undefined behaviour (a null
    pointer dereferenced, a remainder by zero), into a failed [OT_ASSERT],
    or its loop is still running when the fuel of the model is used up. *)
Inductive Fault : Type :=
| NullDereference
| DivisionByZero
| AssertionFailed
| OutOfFuel.

Inductive Result (A : Type) : Type :=
| Done (a : A)
| Faulted (f : Fault).
Arguments Done {A} a.
Arguments Faulted {A} f.

Definition andThen {A B} (r : Result A) (k : A -> Result B) : Result B :=
  match r with
  | Done a => k a
  | Faulted f => Faulted f
  end.

Notation "'let*' x ':=' r 'in' k" := (andThen r (fun x => k))
  (at level 10, x pattern, r at level 100, k at level 200).

(** *** Messages, frames, neighbors *)

Inductive MessageType : Type := kTypeIp6 | kTypeSupervision | kTypeOther.
Inductive MessageSubType : Type := kSubTypeNone | kSubTypeMleChildIdRequest | kSubTypeOther.

#[global] Instance MessageType_eq_dec : EqDecision MessageType.
Proof. solve_decision. Defined.
#[global] Instance MessageSubType_eq_dec : EqDecision MessageSubType.
Proof. solve_decision. Defined.

(** A [Message] of the send queue.  [msgId] stands for its address: two
    [Message *] are equal when the ids are. *)
Record Message : Type := mkMessage {
  msgId                  : nat;
  msgType                : MessageType;
  msgSubType             : MessageSubType;
  msgLinkSecurityEnabled : bool;
  msgDirectTransmission  : bool;
  msgLength              : Z;    (* uint16_t *)
  msgOffset              : Z;    (* uint16_t *)
  msgIp6Source           : Z;
  msgIp6Destination      : Z
}.

Definition SetOffset (o : Z) (m : Message) : Message :=
  mkMessage (msgId m) (msgType m) (msgSubType m) (msgLinkSecurityEnabled m)
            (msgDirectTransmission m) (msgLength m) o (msgIp6Source m) (msgIp6Destination m).

(** Equality of two [Message *]. *)
Definition samePointer (a b : option Message) : bool :=
  match a, b with
  | None, None => true
  | Some x, Some y => Nat.eqb (msgId x) (msgId y)
  | _, _ => false
  end.

Inductive MacAddress : Type :=
| AddrNone
| AddrShort (a : Z)
| AddrExtended (a : Z).

(** The part of [Mac::TxFrame] the sender reads and writes. *)
Record TxFrame : Type := mkTxFrame {
  txIsEmpty           : bool;
  txSequence          : Z;      (* uint8_t, the DSN *)
  txSecurityEnabled   : bool;
  txHeaderUpdated     : bool;
  txCslIePresent      : bool;
  txFrameCounter      : Z;      (* uint32_t *)
  txKeyId             : Z;      (* uint8_t *)
  txIsARetransmission : bool;
  txTxDelay           : Z;      (* uint32_t *)
  txTxDelayBaseTime   : Z;      (* uint32_t *)
  txCsmaCaEnabled     : bool
}.

Definition SetIsARetransmission (b : bool) (f : TxFrame) : TxFrame :=
  mkTxFrame (txIsEmpty f) (txSequence f) (txSecurityEnabled f) (txHeaderUpdated f)
            (txCslIePresent f) (txFrameCounter f) (txKeyId f) b (txTxDelay f)
            (txTxDelayBaseTime f) (txCsmaCaEnabled f).
Definition SetSequence (x : Z) (f : TxFrame) : TxFrame :=
  mkTxFrame (txIsEmpty f) x (txSecurityEnabled f) (txHeaderUpdated f)
            (txCslIePresent f) (txFrameCounter f) (txKeyId f) (txIsARetransmission f)
            (txTxDelay f) (txTxDelayBaseTime f) (txCsmaCaEnabled f).
Definition SetFrameCounter (x : Z) (f : TxFrame) : TxFrame :=
  mkTxFrame (txIsEmpty f) (txSequence f) (txSecurityEnabled f) (txHeaderUpdated f)
            (txCslIePresent f) x (txKeyId f) (txIsARetransmission f)
            (txTxDelay f) (txTxDelayBaseTime f) (txCsmaCaEnabled f).
Definition SetKeyId (x : Z) (f : TxFrame) : TxFrame :=
  mkTxFrame (txIsEmpty f) (txSequence f) (txSecurityEnabled f) (txHeaderUpdated f)
            (txCslIePresent f) (txFrameCounter f) x (txIsARetransmission f)
            (txTxDelay f) (txTxDelayBaseTime f) (txCsmaCaEnabled f).
Definition SetTxDelay (x : Z) (f : TxFrame) : TxFrame :=
  mkTxFrame (txIsEmpty f) (txSequence f) (txSecurityEnabled f) (txHeaderUpdated f)
            (txCslIePresent f) (txFrameCounter f) (txKeyId f) (txIsARetransmission f)
            x (txTxDelayBaseTime f) (txCsmaCaEnabled f).
Definition SetTxDelayBaseTime (x : Z) (f : TxFrame) : TxFrame :=
  mkTxFrame (txIsEmpty f) (txSequence f) (txSecurityEnabled f) (txHeaderUpdated f)
            (txCslIePresent f) (txFrameCounter f) (txKeyId f) (txIsARetransmission f)
            (txTxDelay f) x (txCsmaCaEnabled f).
Definition SetCsmaCaEnabled (b : bool) (f : TxFrame) : TxFrame :=
  mkTxFrame (txIsEmpty f) (txSequence f) (txSecurityEnabled f) (txHeaderUpdated f)
            (txCslIePresent f) (txFrameCounter f) (txKeyId f) (txIsARetransmission f)
            (txTxDelay f) (txTxDelayBaseTime f) b.

(** class EnhCslPeerInfo, as part of a [Neighbor], with the extended
    address of the neighbor.  [mCslPrevSnValid], [mCslPrevSn] and
    [mCslLastHeard] are left out: the sender does not touch them. *)
Record Neighbor : Type := mkNeighbor {
  mExtAddress             : Z;
  mCslTxAttempts          : Z;     (* uint8_t : 6 *)
  mCslSynchronized        : bool;
  mCslMaxTxAttempts       : Z;     (* uint8_t *)
  mCslPeriod              : Z;     (* uint16_t, units of 10 symbols *)
  mCslPhase               : Z;     (* uint16_t *)
  mLastRxTimestamp        : Z;     (* uint64_t, microseconds *)
  mIndirectDsn            : Z;     (* uint8_t *)
  mIndirectKeyId          : Z;     (* uint8_t *)
  mIndirectFrameCounter   : Z;     (* uint32_t *)
  mIndirectMessage        : option Message;
  mQueuedMessageCount     : Z;     (* uint16_t *)
  mIndirectFragmentOffset : Z      (* uint16_t *)
}.

Definition SetEnhCslTxAttempts (x : Z) (n : Neighbor) : Neighbor :=
  mkNeighbor (mExtAddress n) x (mCslSynchronized n) (mCslMaxTxAttempts n) (mCslPeriod n)
             (mCslPhase n) (mLastRxTimestamp n) (mIndirectDsn n) (mIndirectKeyId n)
             (mIndirectFrameCounter n) (mIndirectMessage n) (mQueuedMessageCount n)
             (mIndirectFragmentOffset n).
Definition IncrementEnhCslTxAttempts (n : Neighbor) : Neighbor :=
  SetEnhCslTxAttempts (wrap6 (mCslTxAttempts n + 1)) n.
Definition ResetEnhCslTxAttempts (n : Neighbor) : Neighbor := SetEnhCslTxAttempts 0 n.

Definition SetEnhCslSynchronized (b : bool) (n : Neighbor) : Neighbor :=
  mkNeighbor (mExtAddress n) (mCslTxAttempts n) b (mCslMaxTxAttempts n) (mCslPeriod n)
             (mCslPhase n) (mLastRxTimestamp n) (mIndirectDsn n) (mIndirectKeyId n)
             (mIndirectFrameCounter n) (mIndirectMessage n) (mQueuedMessageCount n)
             (mIndirectFragmentOffset n).
Definition IsEnhCslSynchronized (n : Neighbor) : bool :=
  mCslSynchronized n && (mCslPeriod n >? 0).

Definition SetIndirectDataSequenceNumber (x : Z) (n : Neighbor) : Neighbor :=
  mkNeighbor (mExtAddress n) (mCslTxAttempts n) (mCslSynchronized n) (mCslMaxTxAttempts n)
             (mCslPeriod n) (mCslPhase n) (mLastRxTimestamp n) x (mIndirectKeyId n)
             (mIndirectFrameCounter n) (mIndirectMessage n) (mQueuedMessageCount n)
             (mIndirectFragmentOffset n).
Definition SetIndirectKeyId (x : Z) (n : Neighbor) : Neighbor :=
  mkNeighbor (mExtAddress n) (mCslTxAttempts n) (mCslSynchronized n) (mCslMaxTxAttempts n)
             (mCslPeriod n) (mCslPhase n) (mLastRxTimestamp n) (mIndirectDsn n) x
             (mIndirectFrameCounter n) (mIndirectMessage n) (mQueuedMessageCount n)
             (mIndirectFragmentOffset n).
Definition SetIndirectFrameCounter (x : Z) (n : Neighbor) : Neighbor :=
  mkNeighbor (mExtAddress n) (mCslTxAttempts n) (mCslSynchronized n) (mCslMaxTxAttempts n)
             (mCslPeriod n) (mCslPhase n) (mLastRxTimestamp n) (mIndirectDsn n)
             (mIndirectKeyId n) x (mIndirectMessage n) (mQueuedMessageCount n)
             (mIndirectFragmentOffset n).
Definition SetIndirectMessage (m : option Message) (n : Neighbor) : Neighbor :=
  mkNeighbor (mExtAddress n) (mCslTxAttempts n) (mCslSynchronized n) (mCslMaxTxAttempts n)
             (mCslPeriod n) (mCslPhase n) (mLastRxTimestamp n) (mIndirectDsn n)
             (mIndirectKeyId n) (mIndirectFrameCounter n) m (mQueuedMessageCount n)
             (mIndirectFragmentOffset n).
Definition SetIndirectMessageCount (x : Z) (n : Neighbor) : Neighbor :=
  mkNeighbor (mExtAddress n) (mCslTxAttempts n) (mCslSynchronized n) (mCslMaxTxAttempts n)
             (mCslPeriod n) (mCslPhase n) (mLastRxTimestamp n) (mIndirectDsn n)
             (mIndirectKeyId n) (mIndirectFrameCounter n) (mIndirectMessage n) x
             (mIndirectFragmentOffset n).
Definition IncrementIndirectMessageCount (n : Neighbor) : Neighbor :=
  SetIndirectMessageCount (wrap16 (mQueuedMessageCount n + 1)) n.
Definition DecrementIndirectMessageCount (n : Neighbor) : Neighbor :=
  SetIndirectMessageCount (wrap16 (mQueuedMessageCount n - 1)) n.
Definition ResetIndirectMessageCount (n : Neighbor) : Neighbor := SetIndirectMessageCount 0 n.
Definition SetIndirectFragmentOffset (x : Z) (n : Neighbor) : Neighbor :=
  mkNeighbor (mExtAddress n) (mCslTxAttempts n) (mCslSynchronized n) (mCslMaxTxAttempts n)
             (mCslPeriod n) (mCslPhase n) (mLastRxTimestamp n) (mIndirectDsn n)
             (mIndirectKeyId n) (mIndirectFrameCounter n) (mIndirectMessage n)
             (mQueuedMessageCount n) x.

(** *** Slot arithmetic *)

(** The loop [while (nextTxWindow < radioNow + aAheadUs) nextTxWindow += periodInUs]
    of [GetNextCslTransmissionDelay], in [uint64_t]; [None] when the loop is
    still running after [fuel] additions. *)
Fixpoint advanceWindow (fuel : nat) (nextTxWindow bound periodInUs : Z) : option Z :=
  if nextTxWindow <? bound then
    match fuel with
    | O => None
    | S fuel' => advanceWindow fuel' (wrap64 (nextTxWindow + periodInUs)) bound periodInUs
    end
  else Some nextTxWindow.

(** [nextTxWindow] at the end of [GetNextCslTransmissionDelay].
    [aRadioNow] is the value of [otPlatRadioGetNow]. *)
Definition NextTxWindow (fuel : nat) (aRadioNow : Z) (aNeighbor : Neighbor) (aAheadUs : Z)
  : Result Z :=
  let radioNow := aRadioNow in
  let periodInUs := wrap32 (mCslPeriod aNeighbor * kUsPerTenSymbols) in
  let firstTxWindow :=
    wrap64 (mLastRxTimestamp aNeighbor + wrap32 (mCslPhase aNeighbor * kUsPerTenSymbols)) in
  if periodInUs =? 0 then Faulted DivisionByZero
  else
    let nextTxWindow :=
      wrap64 (wrap64 (radioNow - radioNow mod periodInUs) + firstTxWindow mod periodInUs) in
    match advanceWindow fuel nextTxWindow (wrap64 (radioNow + aAheadUs)) periodInUs with
    | Some t => Done t
    | None => Faulted OutOfFuel
    end.

(** uint32_t EnhCslSender::GetNextCslTransmissionDelay(aNeighbor, aDelayFromLastRx, aAheadUs):
    the returned delay and [aDelayFromLastRx]. *)
Definition GetNextCslTransmissionDelay (fuel : nat) (aRadioNow : Z) (aNeighbor : Neighbor)
    (aAheadUs : Z) : Result (Z * Z) :=
  let* nextTxWindow := NextTxWindow fuel aRadioNow aNeighbor aAheadUs in
  Done (wrap32 (wrap64 (wrap64 (nextTxWindow - aRadioNow) - aAheadUs)),
        wrap32 (wrap64 (nextTxWindow - mLastRxTimestamp aNeighbor))).

(** The loop adds the period until the window is not before [bound], and
    no further; nothing wraps while [bound + periodInUs] fits 64 bits. *)
Lemma advanceWindow_spec periodInUs bound :
  0 < periodInUs -> bound + periodInUs <= 2^64 ->
  forall fuel next,
    0 <= next < bound + periodInUs ->
    bound - next <= Z.of_nat fuel * periodInUs ->
    exists k, 0 <= k /\
      advanceWindow fuel next bound periodInUs = Some (next + k * periodInUs) /\
      bound <= next + k * periodInUs /\
      (next + k * periodInUs < bound + periodInUs).
Proof.
  intros HP Hbound. induction fuel as [|fuel IH]; intros next Hnext Hfuel.
  - exists 0. simpl in *. destruct (Z.ltb_spec next bound); [lia|].
    repeat split; try lia. f_equal. lia.
  - cbn [advanceWindow]. destruct (Z.ltb_spec next bound) as [Hlt|Hge].
    + assert (Hw : wrap64 (next + periodInUs) = next + periodInUs)
        by (unfold wrap64; apply Z.mod_small; lia).
      rewrite Hw.
      destruct (IH (next + periodInUs)) as (k & Hk & Hadv & Hlo & Hhi); [lia | lia |].
      exists (k + 1). repeat split; try lia.
      rewrite Hadv. f_equal. lia.
    + exists 0. repeat split; try lia. f_equal. lia.
Qed.

(** The inputs of the slot arithmetic for which nothing wraps and the loop
    ends within [fuel] additions: a period above 0 and a 64-bit radio clock
    far from its end. *)
Definition slotInputs (fuel : nat) (aRadioNow : Z) (aNeighbor : Neighbor) (aAheadUs : Z)
  : Prop :=
  let P := mCslPeriod aNeighbor * kUsPerTenSymbols in
  let T0 := mLastRxTimestamp aNeighbor + mCslPhase aNeighbor * kUsPerTenSymbols in
  0 < mCslPeriod aNeighbor < 2^16 /\
  0 <= mCslPhase aNeighbor < 2^16 /\
  0 <= mLastRxTimestamp aNeighbor /\
  T0 < 2^64 /\
  0 <= aRadioNow /\
  0 <= aAheadUs /\
  aRadioNow + aAheadUs + P <= 2^64 /\
  (Z.to_nat (aAheadUs / P) + 2 <= fuel)%nat.

Lemma NextTxWindow_slot fuel aRadioNow aNeighbor aAheadUs :
  slotInputs fuel aRadioNow aNeighbor aAheadUs ->
  let P := mCslPeriod aNeighbor * kUsPerTenSymbols in
  let T0 := mLastRxTimestamp aNeighbor + mCslPhase aNeighbor * kUsPerTenSymbols in
  exists t,
    NextTxWindow fuel aRadioNow aNeighbor aAheadUs = Done t /\
    t mod P = T0 mod P /\
    aRadioNow + aAheadUs <= t < aRadioNow + aAheadUs + P /\
    GetNextCslTransmissionDelay fuel aRadioNow aNeighbor aAheadUs
    = Done (t - aRadioNow - aAheadUs,
            wrap32 (wrap64 (t - mLastRxTimestamp aNeighbor))).
Proof.
  revert aRadioNow aNeighbor aAheadUs. intros rn n ahead.
  intros (Hper & Hph & Hrx & HT0 & Hrn & Hah & Hfit & Hfuel) P T0.
  fold P in Hfit, Hfuel. fold T0 in HT0.
  assert (HP : 0 < P < 2^32) by (unfold P, kUsPerTenSymbols; lia).
  assert (HT : 0 <= T0) by (unfold T0, kUsPerTenSymbols; lia).
  pose proof (Z.mod_pos_bound rn P ltac:(lia)) as Hr.
  pose proof (Z.mod_pos_bound T0 P ltac:(lia)) as Hf.
  pose proof (Z.mod_le rn P ltac:(lia) ltac:(lia)) as Hrle.
  set (t0 := rn - rn mod P + T0 mod P).
  destruct (advanceWindow_spec P (rn + ahead) ltac:(lia) ltac:(lia) fuel t0)
    as (k & Hk & Hadv & Hlo & Hhi).
  { unfold t0. lia. }
  { pose proof (Z.div_mod ahead P ltac:(lia)) as Hdm.
    pose proof (Z.mod_pos_bound ahead P ltac:(lia)) as Hm.
    assert (0 <= ahead / P) by (apply Z.div_pos; lia).
    assert (ahead / P + 2 <= Z.of_nat fuel) by lia.
    unfold t0. nia. }
  assert (Hnext : NextTxWindow fuel rn n ahead = Done (t0 + k * P)).
  { unfold NextTxWindow. fold P.
    rewrite (wrap32_small P) by lia.
    rewrite (wrap32_small (mCslPhase n * kUsPerTenSymbols))
      by (unfold kUsPerTenSymbols; lia).
    fold T0.
    destruct (Z.eqb_spec P 0); [lia|].
    unfold wrap64.
    rewrite (Z.mod_small T0) by lia.
    rewrite (Z.mod_small (rn - rn mod P)) by lia.
    rewrite (Z.mod_small (rn - rn mod P + T0 mod P)) by lia.
    rewrite (Z.mod_small (rn + ahead)) by lia.
    fold t0. now rewrite Hadv. }
  exists (t0 + k * P). split; [assumption|]. split.
  { unfold t0.
    replace (rn - rn mod P + T0 mod P + k * P) with (T0 mod P + (rn / P + k) * P)
      by (pose proof (Z.div_mod rn P ltac:(lia)); lia).
    rewrite Z.mod_add by lia. apply Z.mod_mod. lia. }
  split; [lia|].
  unfold GetNextCslTransmissionDelay. rewrite Hnext. simpl. do 2 f_equal.
  unfold wrap64. rewrite (Z.mod_small (t0 + k * P - rn)) by lia.
  rewrite Z.mod_small by lia. apply wrap32_small. lia.
Qed.

(** C3.  For a peer with [mCslPeriod > 0], while the 64-bit radio clock
    does not wrap, [GetNextCslTransmissionDelay] returns; the transmit time
    [t] it chose ([nextTxWindow]) satisfies [t = T0 (mod P)] with
    [T0 = mLastRxTimestamp + mCslPhase * 160] and [P = mCslPeriod * 160], and
    [t >= radioNow + aAheadUs] (it is the first such time); the value
    returned is [t - radioNow - aAheadUs].  Scenario S3: radio time 1000000,
    last rx 0, period 500, phase 100, ahead 0 give the delay 56000. *)
Theorem GetNextCslTransmissionDelay_slot :
  (forall fuel aRadioNow aNeighbor aAheadUs,
     let P := mCslPeriod aNeighbor * kUsPerTenSymbols in
     let T0 := mLastRxTimestamp aNeighbor + mCslPhase aNeighbor * kUsPerTenSymbols in
     0 < mCslPeriod aNeighbor < 2^16 ->
     0 <= mCslPhase aNeighbor < 2^16 ->
     0 <= mLastRxTimestamp aNeighbor ->
     T0 < 2^64 ->
     0 <= aRadioNow ->
     0 <= aAheadUs ->
     aRadioNow + aAheadUs + P <= 2^64 ->
     (Z.to_nat (aAheadUs / P) + 2 <= fuel)%nat ->
     exists t,
       NextTxWindow fuel aRadioNow aNeighbor aAheadUs = Done t /\
       t mod P = T0 mod P /\
       aRadioNow + aAheadUs <= t < aRadioNow + aAheadUs + P /\
       GetNextCslTransmissionDelay fuel aRadioNow aNeighbor aAheadUs
       = Done (t - aRadioNow - aAheadUs,
               wrap32 (wrap64 (t - mLastRxTimestamp aNeighbor)))) /\
  (forall fuel aNeighbor,
     mCslPeriod aNeighbor = 500 -> mCslPhase aNeighbor = 100 ->
     mLastRxTimestamp aNeighbor = 0 -> (2 <= fuel)%nat ->
     NextTxWindow fuel 1000000 aNeighbor 0 = Done 1056000 /\
     GetNextCslTransmissionDelay fuel 1000000 aNeighbor 0 = Done (56000, 1056000)).
Proof.
  split.
  - intros fuel rn n ahead P T0 Hper Hph Hrx HT0 Hrn Hah Hfit Hfuel.
    apply NextTxWindow_slot. unfold slotInputs. fold P T0. tauto.
  - intros fuel n Hper Hph Hrx Hfuel.
    unfold GetNextCslTransmissionDelay, NextTxWindow. rewrite Hper, Hph, Hrx.
    destruct fuel as [|[|fuel]]; [lia | lia |].
    split; vm_compute; reflexivity.
Qed.

Lemma GetNextCslTransmissionDelay_slot_witness :
  let peer := mkNeighbor 1 0 true 0 500 100 0 0 0 0 None 0 0 in
  exists t,
    NextTxWindow 2 1000000 peer 0 = Done t /\
    t mod (500 * 160) = (0 + 100 * 160) mod (500 * 160) /\
    1000000 + 0 <= t < 1000000 + 0 + 500 * 160 /\
    GetNextCslTransmissionDelay 2 1000000 peer 0
    = Done (t - 1000000 - 0, wrap32 (wrap64 (t - 0))).
Proof.
  apply (proj1 GetNextCslTransmissionDelay_slot 2%nat 1000000
           (mkNeighbor 1 0 true 0 500 100 0 0 0 0 None 0 0) 0);
    unfold kUsPerTenSymbols; simpl; lia.
Defined.

(** *** The sender and what surrounds it *)

(** A [Neighbor *] that is not null: the parent, the parent candidate, or
    another entry of the neighbor table. *)
Inductive NeighborRef : Type :=
| TheParent
| TheParentCandidate
| OtherNeighbor (i : nat).

#[global] Instance NeighborRef_eq_dec : EqDecision NeighborRef.
Proof. solve_decision. Defined.

(** Calls into the collaborators ([Mac], [MeshForwarder], [Mle], the link
    info of a neighbor), as they are made. *)
Inductive Event : Type :=
| RequestEnhCslFrameTransmission (aDelayMs : Z)
| RemoveMessageIfNoPendingTx (m : Message)
| BecomeDetached
| RequestShorterChildIdRequest
| LogMessage (m : Message) (e : Error)
| AddMessageTxStatus (n : NeighborRef) (ok : bool).

(** class EnhCslSender *)
Record Sender : Type := mkSender {
  mCslTxNeigh             : option NeighborRef;
  mCslTxMessage           : option Message;
  mCslFrameRequestAheadUs : Z;             (* uint32_t *)
  mMessageNextOffset      : Z              (* mFrameContext.mMessageNextOffset, uint16_t *)
}.

(** The sender with the objects it reaches through [Get<...>()]: the
    neighbors, the state of [Mle], the send queue and the IP counters of the
    [MeshForwarder], and the calls made so far, the latest first. *)
Record World : Type := mkWorld {
  sender             : Sender;
  neighbors          : NeighborRef -> Neighbor;
  parentIsStateValid : bool;
  cslCentralPresent  : bool;
  mSendQueue         : list Message;
  mTxSuccess         : Z;    (* mIpCounters.mTxSuccess, uint32_t *)
  mTxFailure         : Z;    (* mIpCounters.mTxFailure, uint32_t *)
  calls              : list Event
}.

Definition withSender (f : Sender -> Sender) (w : World) : World :=
  mkWorld (f (sender w)) (neighbors w) (parentIsStateValid w) (cslCentralPresent w)
          (mSendQueue w) (mTxSuccess w) (mTxFailure w) (calls w).

Definition SetCslTxNeigh (p : option NeighborRef) (s : Sender) : Sender :=
  mkSender p (mCslTxMessage s) (mCslFrameRequestAheadUs s) (mMessageNextOffset s).
Definition SetCslTxMessage (m : option Message) (s : Sender) : Sender :=
  mkSender (mCslTxNeigh s) m (mCslFrameRequestAheadUs s) (mMessageNextOffset s).
Definition SetMessageNextOffset (o : Z) (s : Sender) : Sender :=
  mkSender (mCslTxNeigh s) (mCslTxMessage s) (mCslFrameRequestAheadUs s) o.

(** Writing through a [Neighbor &]. *)
Definition onNeighbor (p : NeighborRef) (f : Neighbor -> Neighbor) (w : World) : World :=
  mkWorld (sender w)
          (fun q => if decide (q = p) then f (neighbors w p) else neighbors w q)
          (parentIsStateValid w) (cslCentralPresent w)
          (mSendQueue w) (mTxSuccess w) (mTxFailure w) (calls w).

Definition call (e : Event) (w : World) : World :=
  mkWorld (sender w) (neighbors w) (parentIsStateValid w) (cslCentralPresent w)
          (mSendQueue w) (mTxSuccess w) (mTxFailure w) (e :: calls w).

Definition withSendQueue (q : list Message) (w : World) : World :=
  mkWorld (sender w) (neighbors w) (parentIsStateValid w) (cslCentralPresent w)
          q (mTxSuccess w) (mTxFailure w) (calls w).

Definition IncrementTxSuccess (w : World) : World :=
  mkWorld (sender w) (neighbors w) (parentIsStateValid w) (cslCentralPresent w)
          (mSendQueue w) (wrap32 (mTxSuccess w + 1)) (mTxFailure w) (calls w).
Definition IncrementTxFailure (w : World) : World :=
  mkWorld (sender w) (neighbors w) (parentIsStateValid w) (cslCentralPresent w)
          (mSendQueue w) (mTxSuccess w) (wrap32 (mTxFailure w + 1)) (calls w).

Section Sender.

(** Build-time configuration. *)
Variable kCslRequestAheadUs : Z.             (* OPENTHREAD_CONFIG_MAC_CSL_REQUEST_AHEAD_US *)
Variable kMaxEnhCslTriggeredTxAttempts : Z.  (* OPENTHREAD_CONFIG_MAC_ENH_CSL_TX_ATTEMPTS *)
Variable kCslReceiverEnable : bool.          (* OPENTHREAD_CONFIG_MAC_CSL_RECEIVER_ENABLE *)

(** Methods of [MeshForwarder]: the MAC addresses of an IPv6 address, the
    builder of a data frame from a message at its offset (the frame and the
    next offset), and what removing a message does to the send queue. *)
Variable GetMacSourceAddress : Z -> MacAddress.
Variable GetMacDestinationAddress : Z -> MacAddress.
Variable IsLinkLocal : Z -> bool.
Variable PrepareDataFrameWithNoMeshHeader :
  TxFrame -> Message -> MacAddress * MacAddress -> TxFrame * Z.
Variable sendQueueWithout : Message -> list Message -> list Message.

(** The fuel of the loop of [GetNextCslTransmissionDelay]. *)
Variable loopFuel : nat.

Definition kFramePreparationGuardInterval : Z := 1500.

(** MeshForwarder::RemoveMessageIfNoPendingTx(aMessage) *)
Definition doRemoveMessageIfNoPendingTx (m : Message) (w : World) : World :=
  call (RemoveMessageIfNoPendingTx m) (withSendQueue (sendQueueWithout m (mSendQueue w)) w).

(** uint8_t EnhCslPeerInfo::GetEnhCslMaxTxAttempts() *)
Definition GetEnhCslMaxTxAttempts (n : Neighbor) : Z :=
  if negb (mCslMaxTxAttempts n =? 0) then mCslMaxTxAttempts n
  else kMaxEnhCslTriggeredTxAttempts.

(** void EnhCslSender::InitFrameRequestAhead(void) *)
Definition InitFrameRequestAhead (busSpeedHz : Z) : Z :=
  let busTxTimeUs :=
    if busSpeedHz =? 0 then 0
    else wrap32 (wrap32 (150 * 8 * 1000000) + busSpeedHz - 1) / busSpeedHz in
  wrap32 (kCslRequestAheadUs + busTxTimeUs).

(** The constructor: [mCslTxNeigh(nullptr)], [mFrameContext()], and
    [InitFrameRequestAhead()].  [mCslTxMessage] is not in the initialiser
    list; [aTxMessage] is what the member holds. *)
Definition init (busSpeedHz : Z) (aTxMessage : option Message) : Sender :=
  mkSender None aTxMessage (InitFrameRequestAhead busSpeedHz) 0.

(** Neighbor *EnhCslSender::GetParent(void) const *)
Definition GetParent (w : World) : option NeighborRef :=
  if parentIsStateValid w then Some TheParent
  else if cslCentralPresent w then Some TheParentCandidate
  else None.

(** void EnhCslSender::RescheduleCslTx(void) *)
Definition RescheduleCslTx (aRadioNow : Z) (w : World) : Result World :=
  let w := withSender (SetCslTxNeigh (GetParent w)) w in
  match mCslTxNeigh (sender w) with
  | None => Faulted NullDereference
  | Some p =>
      if negb (mQueuedMessageCount (neighbors w p) >? 0) then Done w
      else
        let w :=
          match mIndirectMessage (neighbors w p) with
          | None =>
              match List.find (fun m => negb (msgDirectTransmission m)) (mSendQueue w) with
              | Some m =>
                  onNeighbor p (SetIndirectFragmentOffset 0)
                    (onNeighbor p (SetIndirectMessage (Some m)) w)
              | None => w
              end
          | Some _ => w
          end in
        match mIndirectMessage (neighbors w p) with
        | None => Done (onNeighbor p ResetIndirectMessageCount w)
        | Some _ =>
            let* (delay, cslTxDelay) :=
              GetNextCslTransmissionDelay loopFuel aRadioNow (neighbors w p)
                (mCslFrameRequestAheadUs (sender w)) in
            Done (call (RequestEnhCslFrameTransmission (delay / 1000)) w)
        end
  end.

(** The body of [AddMessageForCslPeer] before its call of
    [RescheduleCslTx]. *)
Definition enqueue (aMessage : Message) (aNeighbor : NeighborRef) (w : World) : Result World :=
  match mCslTxNeigh (sender w) with
  | None => Faulted NullDereference
  | Some q =>
      let w :=
        match mIndirectMessage (neighbors w q) with
        | None =>
            onNeighbor aNeighbor (SetIndirectFragmentOffset 0)
              (onNeighbor aNeighbor (SetIndirectMessage (Some aMessage)) w)
        | Some _ => w
        end in
      Done (onNeighbor aNeighbor IncrementIndirectMessageCount w)
  end.

(** void EnhCslSender::AddMessageForCslPeer(Message &aMessage, Neighbor &aNeighbor) *)
Definition AddMessageForCslPeer (aMessage : Message) (aNeighbor : NeighborRef)
    (aRadioNow : Z) (w : World) : Result World :=
  let* w := enqueue aMessage aNeighbor w in
  RescheduleCslTx aRadioNow w.

(** void EnhCslSender::Update(void) *)
Definition Update (aRadioNow : Z) (w : World) : Result World :=
  match mCslTxMessage (sender w) with
  | None => RescheduleCslTx aRadioNow w
  | Some _ =>
      match mCslTxNeigh (sender w) with
      | Some q =>
          if negb (samePointer (mIndirectMessage (neighbors w q)) (mCslTxMessage (sender w)))
          then Done (withSender (SetMessageNextOffset 0) (withSender (SetCslTxNeigh None) w))
          else Done w
      | None => Done w
      end
  end.

(** void EnhCslSender::ClearAllMessagesForCslPeer(Neighbor &aNeighbor) *)
Definition ClearAllMessagesForCslPeer (aNeighbor : NeighborRef) (aRadioNow : Z) (w : World)
  : Result World :=
  if negb (mQueuedMessageCount (neighbors w aNeighbor) >? 0) then Done w
  else
    let w := fold_left (fun w m => doRemoveMessageIfNoPendingTx m w) (mSendQueue w) w in
    let w := onNeighbor aNeighbor (SetIndirectMessage None) w in
    let w := onNeighbor aNeighbor ResetIndirectMessageCount w in
    let w := onNeighbor aNeighbor ResetEnhCslTxAttempts w in
    Update aRadioNow w.

(** uint16_t EnhCslSender::PrepareDataFrame(aFrame, aNeighbor, aMessage):
    the frame and the next offset.  The offset of the message is put back
    before the method returns. *)
Definition PrepareDataFrame (aFrame : TxFrame) (aNeighbor : Neighbor) (aMessage : Message)
  : TxFrame * Z :=
  let macSource := GetMacSourceAddress (msgIp6Source aMessage) in
  let macDestination :=
    if IsLinkLocal (msgIp6Destination aMessage)
    then GetMacDestinationAddress (msgIp6Destination aMessage)
    else AddrExtended (mExtAddress aNeighbor) in
  PrepareDataFrameWithNoMeshHeader aFrame
    (SetOffset (mIndirectFragmentOffset aNeighbor) aMessage) (macSource, macDestination).

(** Error EnhCslSender::PrepareFrameForNeighbor(aFrame, aContext, aNeighbor):
    the error, the frame and [aContext.mMessageNextOffset]. *)
Definition PrepareFrameForNeighbor (aFrame : TxFrame) (aNextOffset : Z) (aNeighbor : Neighbor)
  : Error * TxFrame * Z :=
  match mIndirectMessage aNeighbor with
  | None => (kErrorInvalidState, aFrame, aNextOffset)
  | Some message =>
      match msgType message with
      | kTypeIp6 =>
          let '(frame, nextOffset) := PrepareDataFrame aFrame aNeighbor message in
          if bool_decide (msgSubType message = kSubTypeMleChildIdRequest)
             && msgLinkSecurityEnabled message
          then (kErrorAbort, frame, msgLength message)
          else (kErrorNone, frame, nextOffset)
      | _ => (kErrorNotImplemented, aFrame, aNextOffset)
      end
  end.

(** [isCsl] of [HandleFrameRequest]: [frame->IsCslIePresent()] in a build
    with OPENTHREAD_CONFIG_MAC_CSL_RECEIVER_ENABLE, the only one in which a
    frame is marked as carrying a CSL IE, and [false] otherwise. *)
Definition carriesCslIe (frame : TxFrame) : bool :=
  if kCslReceiverEnable then txCslIePresent frame else false.

(** The branch of [HandleFrameRequest] on the attempts of the neighbor. *)
Definition markRetransmission (aNeighbor : Neighbor) (frame : TxFrame) : TxFrame :=
  if mCslTxAttempts aNeighbor >? 0 then
    let frame := SetIsARetransmission true frame in
    let frame := SetSequence (mIndirectDsn aNeighbor) frame in
    let isCsl := carriesCslIe frame in
    if txSecurityEnabled frame && negb isCsl
    then SetKeyId (mIndirectKeyId aNeighbor)
           (SetFrameCounter (mIndirectFrameCounter aNeighbor) frame)
    else frame
  else SetIsARetransmission false frame.

(** Mac::TxFrame *EnhCslSender::HandleFrameRequest(Mac::TxFrames &aTxFrames),
    in a build with the IEEE 802.15.4 radio link (without it the method
    returns [nullptr]).  [aTxFrame] is the frame of [aTxFrames] as the MAC
    layer hands it over. *)
Definition HandleFrameRequest (aTxFrame : TxFrame) (aRadioNow : Z) (w : World)
  : Result (option TxFrame * World) :=
  match mCslTxNeigh (sender w) with
  | None => Done (None, w)
  | Some p =>
      let neigh := neighbors w p in
      if negb (IsEnhCslSynchronized neigh) then Done (None, w)
      else
        let '(error, frame, nextOffset) :=
          PrepareFrameForNeighbor aTxFrame (mMessageNextOffset (sender w)) neigh in
        let w := withSender (SetMessageNextOffset nextOffset) w in
        if negb (bool_decide (error = kErrorNone)) then Done (None, w)
        else
          let w := withSender (SetCslTxMessage (mIndirectMessage neigh)) w in
          match mCslTxMessage (sender w) with
          | None => Done (None, w)
          | Some _ =>
              let frame := markRetransmission neigh frame in
              let* (delay, txDelay) := GetNextCslTransmissionDelay loopFuel aRadioNow neigh 0 in
              if negb (delay <=? wrap32 (mCslFrameRequestAheadUs (sender w)
                                         + kFramePreparationGuardInterval))
              then Done (None, w)
              else
                Done (Some (SetCsmaCaEnabled false
                              (SetTxDelayBaseTime (wrap32 (mLastRxTimestamp neigh))
                                 (SetTxDelay txDelay frame))),
                      w)
          end
  end.

(** void EnhCslSender::HandleSentFrameToNeighbor(aFrame, aContext, aError, aNeighbor) *)
Definition HandleSentFrameToNeighbor (aFrame : TxFrame) (aError : Error)
    (aNeighbor : NeighborRef) (aRadioNow : Z) (w : World) : Result World :=
  let nextOffset := mMessageNextOffset (sender w) in
  match mIndirectMessage (neighbors w aNeighbor) with
  | Some message =>
      if nextOffset <? msgLength message then
        RescheduleCslTx aRadioNow (onNeighbor aNeighbor (SetIndirectFragmentOffset nextOffset) w)
      else
        let w := onNeighbor aNeighbor (SetIndirectMessage None) w in
        let w := call (AddMessageTxStatus aNeighbor true) w in
        if negb (mQueuedMessageCount (neighbors w aNeighbor) >? 0) then Faulted AssertionFailed
        else
          let w := onNeighbor aNeighbor DecrementIndirectMessageCount w in
          let w := if negb (txIsEmpty aFrame) then call (LogMessage message aError) w else w in
          let w :=
            match msgType message with
            | kTypeIp6 =>
                if bool_decide (aError = kErrorNone) then IncrementTxSuccess w
                else IncrementTxFailure w
            | _ => w
            end in
          RescheduleCslTx aRadioNow (doRemoveMessageIfNoPendingTx message w)
  | None => RescheduleCslTx aRadioNow w
  end.

(** The cases [kErrorChannelAccessFailure] and [kErrorAbort] of
    [HandleSentFrame], which [kErrorNoAck] falls through to. *)
Definition retryLater (aFrame : TxFrame) (aError : Error) (aNeighbor : NeighborRef)
    (aRadioNow : Z) (w : World) : Result World :=
  let w :=
    if negb (txIsEmpty aFrame) then
      let w := onNeighbor aNeighbor (SetIndirectDataSequenceNumber (txSequence aFrame)) w in
      if txSecurityEnabled aFrame && txHeaderUpdated aFrame
      then onNeighbor aNeighbor (SetIndirectKeyId (txKeyId aFrame))
             (onNeighbor aNeighbor (SetIndirectFrameCounter (txFrameCounter aFrame)) w)
      else w
    else w in
  match mIndirectMessage (neighbors w aNeighbor) with
  | None => Faulted NullDereference
  | Some message =>
      let* w :=
        if bool_decide (msgType message = kTypeIp6)
           && bool_decide (msgSubType message = kSubTypeMleChildIdRequest)
           && msgLinkSecurityEnabled message
        then
          let* w := HandleSentFrameToNeighbor aFrame aError aNeighbor aRadioNow w in
          Done (call RequestShorterChildIdRequest w)
        else Done w in
      RescheduleCslTx aRadioNow w
  end.

(** void EnhCslSender::HandleSentFrame(aFrame, aError, aNeighbor) *)
Definition HandleSentFrameFor (aFrame : TxFrame) (aError : Error) (aNeighbor : NeighborRef)
    (aRadioNow : Z) (w : World) : Result World :=
  match aError with
  | kErrorNone =>
      HandleSentFrameToNeighbor aFrame kErrorNone aNeighbor aRadioNow
        (onNeighbor aNeighbor ResetEnhCslTxAttempts w)
  | kErrorNoAck =>
      if negb (negb (txSecurityEnabled aFrame) || txHeaderUpdated aFrame)
      then Faulted AssertionFailed
      else
        let w := onNeighbor aNeighbor IncrementEnhCslTxAttempts w in
        if GetEnhCslMaxTxAttempts (neighbors w aNeighbor) <=? mCslTxAttempts (neighbors w aNeighbor)
        then
          let w := onNeighbor aNeighbor (SetEnhCslSynchronized false) w in
          let w := onNeighbor aNeighbor ResetEnhCslTxAttempts w in
          match mIndirectMessage (neighbors w aNeighbor) with
          | None => Faulted NullDereference
          | Some message =>
              let w :=
                if bool_decide (msgType message = kTypeIp6) then IncrementTxFailure w else w in
              let w := doRemoveMessageIfNoPendingTx message w in
              Done (call BecomeDetached w)
          end
        else retryLater aFrame aError aNeighbor aRadioNow w
  | kErrorChannelAccessFailure | kErrorAbort =>
      retryLater aFrame aError aNeighbor aRadioNow w
  | _ => Faulted AssertionFailed
  end.

(** void EnhCslSender::HandleSentFrame(const Mac::TxFrame &aFrame, Error aError) *)
Definition HandleSentFrame (aFrame : TxFrame) (aError : Error) (aRadioNow : Z) (w : World)
  : Result World :=
  let neighbor := mCslTxNeigh (sender w) in
  let w := withSender (SetCslTxMessage None) w in
  match neighbor with
  | None => Done w
  | Some p =>
      HandleSentFrameFor aFrame aError p aRadioNow (withSender (SetCslTxNeigh None) w)
  end.

(** *** Writes through a neighbor reference *)

Lemma neighbors_onNeighbor_same p f w :
  neighbors (onNeighbor p f w) p = f (neighbors w p).
Proof. simpl. destruct (decide (p = p)); [reflexivity | congruence]. Qed.

Lemma neighbors_onNeighbor_other p q f w :
  q <> p -> neighbors (onNeighbor p f w) q = neighbors w q.
Proof. intros Hne. simpl. destruct (decide (q = p)); [congruence | reflexivity]. Qed.

(** What a retransmission reuses, and the attempts that gate it. *)
Definition retxInfo (n : Neighbor) : Z * Z * Z * Z :=
  (mIndirectDsn n, mIndirectFrameCounter n, mIndirectKeyId n, mCslTxAttempts n).

Lemma retxInfo_onNeighbor p f w q :
  (forall n, retxInfo (f n) = retxInfo n) ->
  retxInfo (neighbors (onNeighbor p f w) q) = retxInfo (neighbors w q).
Proof.
  intros Hf. simpl. destruct (decide (q = p)) as [->|]; [apply Hf | reflexivity].
Qed.

Lemma RescheduleCslTx_retxInfo now w w' q :
  RescheduleCslTx now w = Done w' ->
  retxInfo (neighbors w' q) = retxInfo (neighbors w q).
Proof.
  unfold RescheduleCslTx. cbn [sender withSender mCslTxNeigh SetCslTxNeigh].
  destruct (GetParent w) as [p|]; [|discriminate].
  cbn [neighbors withSender].
  destruct (negb (mQueuedMessageCount (neighbors w p) >? 0)).
  { intros [= <-]. reflexivity. }
  set (w1 := match mIndirectMessage (neighbors w p) with
             | None => _ | Some _ => _ end).
  assert (H1 : retxInfo (neighbors w1 q) = retxInfo (neighbors w q)).
  { unfold w1. destruct (mIndirectMessage (neighbors w p)); [reflexivity|].
    cbn [mSendQueue withSender].
    destruct (List.find _ _); [|reflexivity].
    rewrite !retxInfo_onNeighbor by reflexivity. reflexivity. }
  destruct (mIndirectMessage (neighbors w1 p)).
  - destruct (GetNextCslTransmissionDelay _ _ _ _) as [[d c]|]; [|discriminate].
    simpl. intros [= <-]. exact H1.
  - intros [= <-]. rewrite retxInfo_onNeighbor by reflexivity. exact H1.
Qed.

Lemma doRemoveMessageIfNoPendingTx_neighbors m w :
  neighbors (doRemoveMessageIfNoPendingTx m w) = neighbors w.
Proof. reflexivity. Qed.

Lemma HandleSentFrameToNeighbor_retxInfo fr e p now w w' q :
  HandleSentFrameToNeighbor fr e p now w = Done w' ->
  retxInfo (neighbors w' q) = retxInfo (neighbors w q).
Proof.
  unfold HandleSentFrameToNeighbor.
  destruct (mIndirectMessage (neighbors w p)) as [m|].
  - destruct (mMessageNextOffset (sender w) <? msgLength m).
    + intros H. apply RescheduleCslTx_retxInfo with (q := q) in H.
      rewrite H. now apply retxInfo_onNeighbor.
    + destruct (negb (mQueuedMessageCount _ >? 0)); [discriminate|].
      intros H. apply RescheduleCslTx_retxInfo with (q := q) in H.
      rewrite H. clear H.
      destruct (msgType m), (bool_decide (e = kErrorNone)), (negb (txIsEmpty fr));
        simpl; destruct (decide (q = p)) as [->|]; try reflexivity;
        destruct (decide (p = p)); try congruence; reflexivity.
  - apply RescheduleCslTx_retxInfo.
Qed.

(** A frame request for a neighbor that is not synchronized, or with no
    neighbor at all, gets no frame and changes nothing. *)
Lemma HandleFrameRequest_unsynchronized fr now w :
  match mCslTxNeigh (sender w) with
  | Some p => IsEnhCslSynchronized (neighbors w p) = false
  | None => True
  end ->
  HandleFrameRequest fr now w = Done (None, w).
Proof.
  unfold HandleFrameRequest. destruct (mCslTxNeigh (sender w)) as [p|]; [|reflexivity].
  intros ->. reflexivity.
Qed.

(** *** Giving up after the last attempt *)

(** C5.  A [kErrorNoAck] completion that raises the attempts of the peer
    to its maximum returns, and in that one completion the peer is marked
    unsynchronized, its attempts are reset to 0, [mTxFailure] goes up by one
    when the message in flight is an IPv6 message, the message is released
    ([RemoveMessageIfNoPendingTx], once) and [BecomeDetached] is called,
    once; these are the only calls made.  A frame request after it, for the
    state left behind or for any state whose neighbor is this peer as left
    behind, returns no frame. *)
Theorem HandleSentFrame_NoAck_max_attempts aFrame aRadioNow w p m :
  mCslTxNeigh (sender w) = Some p ->
  mIndirectMessage (neighbors w p) = Some m ->
  (txSecurityEnabled aFrame = true -> txHeaderUpdated aFrame = true) ->
  GetEnhCslMaxTxAttempts (neighbors w p) <= wrap6 (mCslTxAttempts (neighbors w p) + 1) ->
  exists w',
    HandleSentFrame aFrame kErrorNoAck aRadioNow w = Done w' /\
    mCslSynchronized (neighbors w' p) = false /\
    mCslTxAttempts (neighbors w' p) = 0 /\
    (msgType m = kTypeIp6 -> mTxFailure w' = wrap32 (mTxFailure w + 1)) /\
    (msgType m <> kTypeIp6 -> mTxFailure w' = mTxFailure w) /\
    calls w' = BecomeDetached :: RemoveMessageIfNoPendingTx m :: calls w /\
    mSendQueue w' = sendQueueWithout m (mSendQueue w) /\
    (forall fr now, HandleFrameRequest fr now w' = Done (None, w')) /\
    (forall fr now w'',
       mCslTxNeigh (sender w'') = Some p -> neighbors w'' p = neighbors w' p ->
       HandleFrameRequest fr now w'' = Done (None, w'')).
Proof.
  intros Hneigh Hmsg Hassert Hmax.
  unfold HandleSentFrame, HandleSentFrameFor.
  cbn [sender withSender mCslTxNeigh SetCslTxMessage]. rewrite Hneigh.
  assert (Hok : negb (negb (txSecurityEnabled aFrame) || txHeaderUpdated aFrame) = false).
  { destruct (txSecurityEnabled aFrame); [now rewrite Hassert | reflexivity]. }
  rewrite Hok.
  set (w0 := withSender (SetCslTxNeigh None) (withSender (SetCslTxMessage None) w)).
  rewrite neighbors_onNeighbor_same.
  change (neighbors w0 p) with (neighbors w p).
  assert (Hge : (GetEnhCslMaxTxAttempts (IncrementEnhCslTxAttempts (neighbors w p))
                 <=? mCslTxAttempts (IncrementEnhCslTxAttempts (neighbors w p))) = true).
  { apply Z.leb_le. exact Hmax. }
  rewrite Hge. rewrite !neighbors_onNeighbor_same.
  change (neighbors w0 p) with (neighbors w p).
  cbn [mIndirectMessage ResetEnhCslTxAttempts SetEnhCslTxAttempts SetEnhCslSynchronized
       IncrementEnhCslTxAttempts].
  rewrite Hmsg.
  eexists. split; [reflexivity|].
  split.
  { destruct (bool_decide (msgType m = kTypeIp6)); simpl;
      destruct (decide (p = p)); try congruence; reflexivity. }
  split.
  { destruct (bool_decide (msgType m = kTypeIp6)); simpl;
      destruct (decide (p = p)); try congruence; reflexivity. }
  split.
  { intros Hip. rewrite bool_decide_eq_true_2 by assumption. reflexivity. }
  split.
  { intros Hip. rewrite bool_decide_eq_false_2 by assumption. reflexivity. }
  split.
  { destruct (bool_decide (msgType m = kTypeIp6)); reflexivity. }
  split.
  { destruct (bool_decide (msgType m = kTypeIp6)); reflexivity. }
  split.
  { intros fr now. apply HandleFrameRequest_unsynchronized.
    destruct (bool_decide (msgType m = kTypeIp6)); exact I. }
  intros fr now w'' Hn Heq. apply HandleFrameRequest_unsynchronized.
  rewrite Hn, Heq.
  destruct (bool_decide (msgType m = kTypeIp6)); simpl;
    destruct (decide (p = p)); try congruence; reflexivity.
Qed.

(** *** Retransmissions *)

(** The frame [PrepareFrameForNeighbor] builds in [HandleFrameRequest],
    before the retransmission fields are written. *)
Definition builtFrame (aTxFrame : TxFrame) (w : World) (p : NeighborRef) : TxFrame :=
  (PrepareFrameForNeighbor aTxFrame (mMessageNextOffset (sender w)) (neighbors w p)).1.2.

Lemma markRetransmission_retx n frame :
  mCslTxAttempts n > 0 ->
  let fr := markRetransmission n frame in
  txIsARetransmission fr = true /\
  txSequence fr = mIndirectDsn n /\
  txSecurityEnabled fr = txSecurityEnabled frame /\
  txCslIePresent fr = txCslIePresent frame /\
  (txSecurityEnabled frame = true -> carriesCslIe frame = false ->
   txFrameCounter fr = mIndirectFrameCounter n /\ txKeyId fr = mIndirectKeyId n) /\
  (carriesCslIe frame = true ->
   txFrameCounter fr = txFrameCounter frame /\ txKeyId fr = txKeyId frame).
Proof.
  intros Hatt. unfold markRetransmission.
  destruct (Z.gtb_spec (mCslTxAttempts n) 0) as [_|]; [|lia].
  assert (Hcsl : carriesCslIe (SetSequence (mIndirectDsn n) (SetIsARetransmission true frame))
                 = carriesCslIe frame) by reflexivity.
  cbv zeta. rewrite Hcsl.
  cbn [txSecurityEnabled SetSequence SetIsARetransmission].
  destruct (txSecurityEnabled frame) eqn:Hsec, (carriesCslIe frame) eqn:Hie; simpl;
    repeat split; intros; congruence.
Qed.

Lemma HandleFrameRequest_frame aTxFrame aRadioNow w p fr w' :
  mCslTxNeigh (sender w) = Some p ->
  HandleFrameRequest aTxFrame aRadioNow w = Done (Some fr, w') ->
  exists delay txDelay,
    GetNextCslTransmissionDelay loopFuel aRadioNow (neighbors w p) 0 = Done (delay, txDelay) /\
    fr = SetCsmaCaEnabled false
           (SetTxDelayBaseTime (wrap32 (mLastRxTimestamp (neighbors w p)))
              (SetTxDelay txDelay
                 (markRetransmission (neighbors w p) (builtFrame aTxFrame w p)))).
Proof.
  intros Hneigh. unfold HandleFrameRequest, builtFrame. rewrite Hneigh.
  destruct (negb (IsEnhCslSynchronized (neighbors w p))); [discriminate|].
  destruct (PrepareFrameForNeighbor _ _ _) as [[err frame] off]. simpl.
  destruct (negb (bool_decide (err = kErrorNone))); [discriminate|].
  destruct (mIndirectMessage (neighbors w p)); [|discriminate].
  destruct (GetNextCslTransmissionDelay _ _ _ _) as [[delay txDelay]|]; [|discriminate].
  simpl. destruct (negb (delay <=? _)); [discriminate|].
  intros [= <- _]. now exists delay, txDelay.
Qed.

Lemma retryLater_retxInfo fr e p now w w' :
  retryLater fr e p now w = Done w' ->
  txIsEmpty fr = false ->
  retxInfo (neighbors w' p)
  = (txSequence fr,
     if txSecurityEnabled fr && txHeaderUpdated fr
     then txFrameCounter fr else mIndirectFrameCounter (neighbors w p),
     if txSecurityEnabled fr && txHeaderUpdated fr
     then txKeyId fr else mIndirectKeyId (neighbors w p),
     mCslTxAttempts (neighbors w p)).
Proof.
  intros Hrun Hne. unfold retryLater in Hrun. rewrite Hne in Hrun. cbn [negb] in Hrun.
  set (w1 := if txSecurityEnabled fr && txHeaderUpdated fr then _ else _) in Hrun.
  assert (H1 : retxInfo (neighbors w1 p)
               = (txSequence fr,
                  if txSecurityEnabled fr && txHeaderUpdated fr
                  then txFrameCounter fr else mIndirectFrameCounter (neighbors w p),
                  if txSecurityEnabled fr && txHeaderUpdated fr
                  then txKeyId fr else mIndirectKeyId (neighbors w p),
                  mCslTxAttempts (neighbors w p))).
  { unfold w1. destruct (txSecurityEnabled fr && txHeaderUpdated fr);
      rewrite !neighbors_onNeighbor_same; reflexivity. }
  rewrite <- H1.
  destruct (mIndirectMessage (neighbors w1 p)) as [m|]; [|discriminate].
  destruct (_ && _ && _) in Hrun.
  - destruct (HandleSentFrameToNeighbor fr e p now w1) as [w2|] eqn:H2; [|discriminate].
    simpl in Hrun. apply RescheduleCslTx_retxInfo with (q := p) in Hrun.
    rewrite Hrun. simpl. now apply HandleSentFrameToNeighbor_retxInfo with (q := p) in H2.
  - simpl in Hrun. now apply RescheduleCslTx_retxInfo with (q := p) in Hrun.
Qed.

(** [RescheduleCslTx] returns when there is a parent whose slot arithmetic
    is in range. *)
Lemma RescheduleCslTx_returns now w p :
  GetParent w = Some p ->
  slotInputs loopFuel now (neighbors w p) (mCslFrameRequestAheadUs (sender w)) ->
  exists w', RescheduleCslTx now w = Done w'.
Proof.
  intros Hpar Hslot. unfold RescheduleCslTx.
  cbn [sender withSender mCslTxNeigh SetCslTxNeigh neighbors]. rewrite Hpar.
  destruct (negb (mQueuedMessageCount (neighbors w p) >? 0)); [eauto|].
  set (w1 := match mIndirectMessage (neighbors w p) with
             | None => _ | Some _ => _ end).
  assert (H1 : slotInputs loopFuel now (neighbors w1 p) (mCslFrameRequestAheadUs (sender w1))).
  { unfold w1. destruct (mIndirectMessage (neighbors w p)); [exact Hslot|].
    cbn [mSendQueue withSender].
    destruct (List.find _ _); [|exact Hslot].
    rewrite !neighbors_onNeighbor_same. exact Hslot. }
  destruct (mIndirectMessage (neighbors w1 p)); [|eauto].
  destruct (NextTxWindow_slot _ _ _ _ H1) as (t & _ & _ & _ & ->). simpl. eauto.
Qed.

Lemma retryLater_returns fr e p now w m :
  GetParent w = Some p ->
  mIndirectMessage (neighbors w p) = Some m ->
  msgSubType m <> kSubTypeMleChildIdRequest ->
  slotInputs loopFuel now (neighbors w p) (mCslFrameRequestAheadUs (sender w)) ->
  exists w', retryLater fr e p now w = Done w'.
Proof.
  intros Hpar Hmsg Hsub Hslot. unfold retryLater.
  set (w1 := if negb (txIsEmpty fr) then _ else w).
  assert (H1 : mIndirectMessage (neighbors w1 p) = Some m /\
               slotInputs loopFuel now (neighbors w1 p) (mCslFrameRequestAheadUs (sender w1)) /\
               GetParent w1 = Some p).
  { unfold w1. destruct (negb (txIsEmpty fr));
      [|split; [exact Hmsg | split; [exact Hslot | exact Hpar]]].
    destruct (txSecurityEnabled fr && txHeaderUpdated fr);
      rewrite !neighbors_onNeighbor_same;
      (split; [exact Hmsg | split; [exact Hslot | exact Hpar]]). }
  destruct H1 as (Hm1 & Hs1 & Hp1). rewrite Hm1.
  rewrite (bool_decide_eq_false_2 (msgSubType m = kSubTypeMleChildIdRequest)) by assumption.
  rewrite andb_false_r. simpl.
  now apply RescheduleCslTx_returns with (p := p).
Qed.

(** C4.  A frame that [HandleFrameRequest] prepares for a peer with
    attempts above 0 is marked as a retransmission and carries the DSN kept
    in the peer; with security enabled and no CSL IE it carries the kept
    frame counter and key id; with a CSL IE its frame counter and key id are
    those the frame was built with, not the kept ones.  The kept values are
    those [HandleSentFrame] recorded from the frame of the previous attempt
    on [kErrorChannelAccessFailure], [kErrorAbort] and [kErrorNoAck] (short of
    the last attempt): the DSN of a frame that is not empty, and its frame
    counter and key id when it was secured with its header updated; and
    [HandleSentFrame] does return on these errors when the peer is the
    parent, its slot arithmetic is in range and the message is not a Child
    ID Request. *)
Theorem HandleFrameRequest_retransmission :
  (forall aTxFrame aRadioNow w p fr w',
     mCslTxNeigh (sender w) = Some p ->
     mCslTxAttempts (neighbors w p) > 0 ->
     HandleFrameRequest aTxFrame aRadioNow w = Done (Some fr, w') ->
     txIsARetransmission fr = true /\
     txSequence fr = mIndirectDsn (neighbors w p) /\
     (txSecurityEnabled fr = true -> carriesCslIe fr = false ->
      txFrameCounter fr = mIndirectFrameCounter (neighbors w p) /\
      txKeyId fr = mIndirectKeyId (neighbors w p)) /\
     (carriesCslIe fr = true ->
      txFrameCounter fr = txFrameCounter (builtFrame aTxFrame w p) /\
      txKeyId fr = txKeyId (builtFrame aTxFrame w p))) /\
  (forall aFrame aError aRadioNow w p w',
     mCslTxNeigh (sender w) = Some p ->
     aError = kErrorChannelAccessFailure \/ aError = kErrorAbort \/
     (aError = kErrorNoAck /\
      wrap6 (mCslTxAttempts (neighbors w p) + 1) < GetEnhCslMaxTxAttempts (neighbors w p)) ->
     txIsEmpty aFrame = false ->
     HandleSentFrame aFrame aError aRadioNow w = Done w' ->
     mIndirectDsn (neighbors w' p) = txSequence aFrame /\
     (txSecurityEnabled aFrame = true -> txHeaderUpdated aFrame = true ->
      mIndirectFrameCounter (neighbors w' p) = txFrameCounter aFrame /\
      mIndirectKeyId (neighbors w' p) = txKeyId aFrame) /\
     (txSecurityEnabled aFrame && txHeaderUpdated aFrame = false ->
      mIndirectFrameCounter (neighbors w' p) = mIndirectFrameCounter (neighbors w p) /\
      mIndirectKeyId (neighbors w' p) = mIndirectKeyId (neighbors w p)) /\
     mCslTxAttempts (neighbors w' p)
     = (if bool_decide (aError = kErrorNoAck)
        then wrap6 (mCslTxAttempts (neighbors w p) + 1)
        else mCslTxAttempts (neighbors w p))) /\
  (forall aFrame aError aRadioNow w p m,
     mCslTxNeigh (sender w) = Some p ->
     GetParent w = Some p ->
     mIndirectMessage (neighbors w p) = Some m ->
     msgSubType m <> kSubTypeMleChildIdRequest ->
     aError = kErrorChannelAccessFailure \/ aError = kErrorAbort \/
     (aError = kErrorNoAck /\
      (txSecurityEnabled aFrame = true -> txHeaderUpdated aFrame = true) /\
      wrap6 (mCslTxAttempts (neighbors w p) + 1) < GetEnhCslMaxTxAttempts (neighbors w p)) ->
     slotInputs loopFuel aRadioNow (neighbors w p) (mCslFrameRequestAheadUs (sender w)) ->
     exists w', HandleSentFrame aFrame aError aRadioNow w = Done w').
Proof.
  split; [|split].
  - intros aTxFrame aRadioNow w p fr w' Hneigh Hatt Hrun.
    destruct (HandleFrameRequest_frame _ _ _ _ _ _ Hneigh Hrun) as (delay & txDelay & _ & ->).
    destruct (markRetransmission_retx (neighbors w p) (builtFrame aTxFrame w p) Hatt)
      as (Hre & Hseq & Hsec & Hie & Hreuse & Hkeep).
    assert (Hcsl : forall f d b c,
              carriesCslIe (SetCsmaCaEnabled c (SetTxDelayBaseTime b (SetTxDelay d f)))
              = carriesCslIe f) by reflexivity.
    rewrite Hcsl.
    cbn [txIsARetransmission txSequence txSecurityEnabled txFrameCounter txKeyId
         SetCsmaCaEnabled SetTxDelayBaseTime SetTxDelay].
    assert (Hcsl' : carriesCslIe (markRetransmission (neighbors w p) (builtFrame aTxFrame w p))
                    = carriesCslIe (builtFrame aTxFrame w p))
      by (unfold carriesCslIe; now rewrite Hie).
    rewrite Hcsl', Hsec.
    repeat split; try assumption; intros; try apply Hreuse; try apply Hkeep; assumption.
  - intros aFrame aError aRadioNow w p w' Hneigh Herr Hne Hrun.
    unfold HandleSentFrame in Hrun. rewrite Hneigh in Hrun.
    set (w0 := withSender (SetCslTxNeigh None) (withSender (SetCslTxMessage None) w)) in Hrun.
    assert (Hinfo : exists w1,
              retryLater aFrame aError p aRadioNow w1 = Done w' /\
              mIndirectFrameCounter (neighbors w1 p) = mIndirectFrameCounter (neighbors w p) /\
              mIndirectKeyId (neighbors w1 p) = mIndirectKeyId (neighbors w p) /\
              mCslTxAttempts (neighbors w1 p)
              = (if bool_decide (aError = kErrorNoAck)
                 then wrap6 (mCslTxAttempts (neighbors w p) + 1)
                 else mCslTxAttempts (neighbors w p))).
    { destruct Herr as [->|[->|[-> Hlt]]].
      - exists w0. repeat split. exact Hrun.
      - exists w0. repeat split. exact Hrun.
      - unfold HandleSentFrameFor in Hrun.
        destruct (negb (negb (txSecurityEnabled aFrame) || txHeaderUpdated aFrame));
          [discriminate|].
        rewrite neighbors_onNeighbor_same in Hrun.
        change (neighbors w0 p) with (neighbors w p) in Hrun.
        destruct (Z.leb_spec (GetEnhCslMaxTxAttempts (IncrementEnhCslTxAttempts (neighbors w p)))
                             (mCslTxAttempts (IncrementEnhCslTxAttempts (neighbors w p))))
          as [Hle|_].
        { exfalso. simpl in Hle. unfold GetEnhCslMaxTxAttempts in Hlt, Hle. simpl in Hle. lia. }
        exists (onNeighbor p IncrementEnhCslTxAttempts w0).
        rewrite neighbors_onNeighbor_same. repeat split. exact Hrun. }
    destruct Hinfo as (w1 & Hretry & Hfc & Hkey & Hattempts).
    pose proof (retryLater_retxInfo _ _ _ _ _ _ Hretry Hne) as Hinfo.
    unfold retxInfo in Hinfo. injection Hinfo as Hd Hf Hk Ha.
    rewrite Hd, Hf, Hk, Ha, Hfc, Hkey, Hattempts.
    split; [reflexivity|]. split.
    { intros -> ->. simpl. now split. }
    split; [|reflexivity].
    intros ->. now split.
  - intros aFrame aError aRadioNow w p m Hneigh Hpar Hmsg Hsub Herr Hslot.
    unfold HandleSentFrame. rewrite Hneigh.
    set (w0 := withSender (SetCslTxNeigh None) (withSender (SetCslTxMessage None) w)).
    destruct Herr as [->|[->|(-> & Hassert & Hlt)]].
    + now apply retryLater_returns with (m := m).
    + now apply retryLater_returns with (m := m).
    + unfold HandleSentFrameFor.
      assert (Hok : negb (negb (txSecurityEnabled aFrame) || txHeaderUpdated aFrame) = false).
      { destruct (txSecurityEnabled aFrame); [now rewrite Hassert | reflexivity]. }
      rewrite Hok. rewrite neighbors_onNeighbor_same.
      change (neighbors w0 p) with (neighbors w p).
      destruct (Z.leb_spec (GetEnhCslMaxTxAttempts (IncrementEnhCslTxAttempts (neighbors w p)))
                           (mCslTxAttempts (IncrementEnhCslTxAttempts (neighbors w p))))
        as [Hle|_].
      { exfalso. simpl in Hle. unfold GetEnhCslMaxTxAttempts in Hlt, Hle. simpl in Hle. lia. }
      apply retryLater_returns with (m := m); try assumption;
        rewrite neighbors_onNeighbor_same; assumption.
Qed.

(** *** Enqueueing *)

(** A neighbor as the neighbor table holds it before anything is known of
    its CSL schedule: period 0, not synchronized, nothing queued. *)
Definition freshNeighbor (aExtAddress : Z) : Neighbor :=
  mkNeighbor aExtAddress 0 false 0 0 0 0 0 0 0 None 0 0.

(** C9 at the first enqueue.  On the sender as constructed, whatever the
    message, the peer and the surroundings, [AddMessageForCslPeer] reads the
    indirect message through [mCslTxNeigh], which is still null: nothing is
    adopted, counted or rescheduled.  And once [mCslTxNeigh] is set, it is
    the message of that neighbor, not of the peer passed in, that decides
    the adoption: with a message in flight to the parent, a message for
    another peer whose own indirect message is null is counted but not
    adopted. *)
Theorem AddMessageForCslPeer_first_enqueue :
  (forall busSpeedHz aTxMessage nbrs valid central queue succ fail aMessage aNeighbor aRadioNow,
     AddMessageForCslPeer aMessage aNeighbor aRadioNow
       (mkWorld (init busSpeedHz aTxMessage) nbrs valid central queue succ fail [])
     = Faulted NullDereference) /\
  (forall m1 m2 : Message,
     let w :=
       mkWorld (mkSender (Some TheParent) None 0 0)
         (fun q => if decide (q = TheParent)
                   then SetIndirectMessageCount 1
                          (SetIndirectMessage (Some m1) (freshNeighbor 1))
                   else freshNeighbor 2)
         true false [m1; m2] 0 0 [] in
     mIndirectMessage (neighbors w (OtherNeighbor 0)) = None /\
     exists w', enqueue m2 (OtherNeighbor 0) w = Done w' /\
       mIndirectMessage (neighbors w' (OtherNeighbor 0)) = None /\
       mQueuedMessageCount (neighbors w' (OtherNeighbor 0)) = 1).
Proof.
  split.
  - reflexivity.
  - intros m1 m2 w. split; [reflexivity|].
    eexists. split; [reflexivity|]. split; reflexivity.
Qed.

(** *** The remainder by the period *)

Lemma GetNextCslTransmissionDelay_period_zero fuel now n ahead :
  mCslPeriod n = 0 ->
  GetNextCslTransmissionDelay fuel now n ahead = Faulted DivisionByZero.
Proof.
  intros Hper. unfold GetNextCslTransmissionDelay, NextTxWindow. now rewrite Hper.
Qed.

Lemma RescheduleCslTx_period_zero now w p :
  GetParent w = Some p ->
  mQueuedMessageCount (neighbors w p) > 0 ->
  mIndirectMessage (neighbors w p) <> None \/
  List.find (fun m => negb (msgDirectTransmission m)) (mSendQueue w) <> None ->
  mCslPeriod (neighbors w p) = 0 ->
  RescheduleCslTx now w = Faulted DivisionByZero.
Proof.
  intros Hpar Hcount Hmsg Hper. unfold RescheduleCslTx.
  cbn [sender withSender mCslTxNeigh SetCslTxNeigh neighbors]. rewrite Hpar.
  destruct (Z.gtb_spec (mQueuedMessageCount (neighbors w p)) 0) as [_|]; [|lia].
  cbn [negb].
  destruct (mIndirectMessage (neighbors w p)) as [m|] eqn:Hm.
  - cbn [neighbors withSender]. rewrite Hm.
    now rewrite GetNextCslTransmissionDelay_period_zero.
  - destruct Hmsg as [Hmsg|Hmsg]; [congruence|].
    cbn [mSendQueue withSender].
    destruct (List.find _ (mSendQueue w)) as [m|]; [|congruence].
    rewrite !neighbors_onNeighbor_same. cbn [neighbors withSender].
    cbn [mIndirectMessage SetIndirectFragmentOffset SetIndirectMessage].
    now rewrite GetNextCslTransmissionDelay_period_zero.
Qed.

(** C10.  [GetNextCslTransmissionDelay] takes a remainder by
    [mCslPeriod * 160]: with [mCslPeriod = 0] it divides by zero, whatever
    its other inputs.  [RescheduleCslTx] calls it for the parent as soon as
    a message is queued and an indirect message is set or found in the send
    queue, whether or not the parent is CSL-synchronized; so with period 0
    it divides by zero.  The sender's own methods lead there: on the sender
    as constructed (with [mCslTxMessage] null), whatever the bus speed, the
    send queue and the counters, with a valid parent and a neighbor table in
    which nothing is queued and no CSL schedule is known, [Update] returns
    and leaves the neighbors as they are; [AddMessageForCslPeer] for the
    parent then queues the message (count 1, the message as indirect message)
    for a parent with period 0 that is not synchronized, and its
    [RescheduleCslTx] runs into the division. *)
Theorem RescheduleCslTx_divides_by_zero :
  (forall fuel aRadioNow aNeighbor aAheadUs,
     mCslPeriod aNeighbor = 0 ->
     GetNextCslTransmissionDelay fuel aRadioNow aNeighbor aAheadUs = Faulted DivisionByZero) /\
  (forall aRadioNow w p,
     GetParent w = Some p ->
     mQueuedMessageCount (neighbors w p) > 0 ->
     mIndirectMessage (neighbors w p) <> None \/
     List.find (fun m => negb (msgDirectTransmission m)) (mSendQueue w) <> None ->
     mCslPeriod (neighbors w p) = 0 ->
     RescheduleCslTx aRadioNow w = Faulted DivisionByZero) /\
  (forall busSpeedHz aExtAddress central queue succ fail aMessage aNow aRadioNow,
     let w0 := mkWorld (init busSpeedHz None) (fun q => freshNeighbor (aExtAddress q))
                 true central queue succ fail [] in
     exists w w1,
       Update aNow w0 = Done w /\
       neighbors w = neighbors w0 /\
       enqueue aMessage TheParent w = Done w1 /\
       mQueuedMessageCount (neighbors w1 TheParent) = 1 /\
       mIndirectMessage (neighbors w1 TheParent) = Some aMessage /\
       mCslPeriod (neighbors w1 TheParent) = 0 /\
       IsEnhCslSynchronized (neighbors w1 TheParent) = false /\
       (forall q, q <> TheParent -> neighbors w1 q = neighbors w0 q) /\
       RescheduleCslTx aRadioNow w1 = Faulted DivisionByZero /\
       AddMessageForCslPeer aMessage TheParent aRadioNow w = Faulted DivisionByZero).
Proof.
  split; [exact GetNextCslTransmissionDelay_period_zero|].
  split; [exact RescheduleCslTx_period_zero|].
  intros busSpeedHz aExtAddress central queue succ fail aMessage aNow aRadioNow w0.
  assert (Hupd : exists w, Update aNow w0 = Done w /\
                   mCslTxNeigh (sender w) = Some TheParent /\
                   neighbors w = neighbors w0 /\ GetParent w = Some TheParent).
  { eexists. split; [reflexivity|]. repeat split. }
  destruct Hupd as (w & Hupd & Hneigh & Hnbrs & Hpar).
  assert (Henq : exists w1, enqueue aMessage TheParent w = Done w1 /\
                   neighbors w1 TheParent
                   = IncrementIndirectMessageCount
                       (SetIndirectFragmentOffset 0
                          (SetIndirectMessage (Some aMessage)
                             (freshNeighbor (aExtAddress TheParent)))) /\
                   (forall q, q <> TheParent -> neighbors w1 q = neighbors w0 q) /\
                   GetParent w1 = Some TheParent).
  { unfold enqueue. rewrite Hneigh, Hnbrs. simpl.
    eexists. split; [reflexivity|]. split; [|split; [|exact Hpar]].
    - simpl. rewrite Hnbrs. reflexivity.
    - intros q Hne. rewrite !neighbors_onNeighbor_other by assumption.
      now rewrite Hnbrs. }
  destruct Henq as (w1 & Henq & Hn1 & Hothers & Hpar1).
  assert (Hdiv : RescheduleCslTx aRadioNow w1 = Faulted DivisionByZero).
  { apply (RescheduleCslTx_period_zero aRadioNow w1 TheParent Hpar1); rewrite Hn1.
    - vm_compute. reflexivity.
    - left. discriminate.
    - reflexivity. }
  exists w, w1. split; [exact Hupd|]. split; [exact Hnbrs|]. split; [exact Henq|].
  rewrite Hn1. split; [vm_compute; reflexivity|]. split; [reflexivity|].
  split; [reflexivity|]. split; [reflexivity|]. split; [exact Hothers|].
  split; [exact Hdiv|].
  unfold AddMessageForCslPeer. rewrite Henq. exact Hdiv.
Qed.

End Sender.

(** *** Scenarios *)

(** An IPv6 message of 80 bytes with link security, and surroundings in
    which it is in flight to the parent: period 500, phase 100, maximum of 3
    attempts; the parent keeps DSN 42, frame counter 100 and key id 3.  The
    frame builder hands out DSN 50, frame counter 200 and key id 4, with or
    without a CSL IE. *)
Definition exMessage : Message := mkMessage 7 kTypeIp6 kSubTypeNone true false 80 0 1 2.

Definition exBuild (csl : bool) (fr : TxFrame) (m : Message) (a : MacAddress * MacAddress)
  : TxFrame * Z :=
  (mkTxFrame false 50 (msgLinkSecurityEnabled m) false csl 200 4 false 0 0 true, msgLength m).

Definition exWithout (m : Message) (q : list Message) : list Message :=
  filter (fun x => msgId x <> msgId m) q.

Definition exParent (attempts : Z) : Neighbor :=
  mkNeighbor 1 attempts true 3 500 100 0 42 3 100 (Some exMessage) 1 0.

Definition exWorld (attempts : Z) : World :=
  mkWorld (mkSender (Some TheParent) (Some exMessage) 2000 80)
    (fun q => if decide (q = TheParent) then exParent attempts else freshNeighbor 2)
    true false [exMessage] 0 0 [].

(** The frame of the previous attempt as the MAC layer reports it, and the
    frame buffer it hands over for the next one. *)
Definition exSent : TxFrame := mkTxFrame false 42 true true false 100 3 false 0 0 false.
Definition exBuffer : TxFrame := mkTxFrame true 0 false false false 0 0 false 0 0 true.

Definition isBecomeDetached (e : Event) : bool :=
  match e with BecomeDetached => true | _ => false end.

Definition exFrameRequest (csl : bool) (w : World) : Result (option TxFrame * World) :=
  HandleFrameRequest true (fun _ => AddrShort 1) (fun _ => AddrShort 2) (fun _ => true)
    (exBuild csl) 4 exBuffer 1055000 w.

Definition exSentFrame (e : Error) (w : World) : Result World :=
  HandleSentFrame 3 exWithout 4 exSent e 1055000 w.

(** The division of C10: a parent with period 0, never synchronized, with
    one message queued and in flight; and the way there from the constructed
    sender, by [Update] and [AddMessageForCslPeer]. *)
Lemma RescheduleCslTx_divides_by_zero_witness :
  let parent := SetIndirectMessageCount 1 (SetIndirectMessage (Some exMessage) (freshNeighbor 1)) in
  let w := mkWorld (mkSender None None 2000 0) (fun _ => parent) true false [exMessage] 0 0 [] in
  let w0 := mkWorld (init 2000 0 None) (fun _ => freshNeighbor 1) true false [exMessage] 0 0 [] in
  mCslPeriod parent = 0 /\
  mQueuedMessageCount (neighbors w TheParent) > 0 /\
  GetNextCslTransmissionDelay 4 1055000 parent 2000 = Faulted DivisionByZero /\
  RescheduleCslTx 4 1055000 w = Faulted DivisionByZero /\
  exists w1,
    Update 4 1000000 w0 = Done w1 /\
    AddMessageForCslPeer 4 exMessage TheParent 1055000 w1 = Faulted DivisionByZero.
Proof.
  pose proof (RescheduleCslTx_divides_by_zero 2000 4) as (Hdelay & Hresched & Htrace).
  cbv zeta. split; [reflexivity|]. split; [reflexivity|]. split; [|split].
  - apply Hdelay. reflexivity.
  - apply (Hresched 1055000 _ TheParent); [reflexivity | reflexivity | | reflexivity].
    left. discriminate.
  - destruct (Htrace 0 (fun _ => 1) false [exMessage] 0 0 exMessage 1000000 1055000)
      as (w1 & w2 & Hupd & _ & _ & _ & _ & _ & _ & _ & _ & Hadd).
    exists w1. split; [exact Hupd | exact Hadd].
Defined.

(** Scenario S5 after one [kErrorNoAck]: the next frame is a retransmission
    with DSN 42, frame counter 100 and key id 3; built with a CSL IE it keeps
    the frame counter 200 and key id 4 it was built with. *)
Lemma HandleFrameRequest_retransmission_witness :
  (exists fr w', exFrameRequest false (exWorld 1) = Done (Some fr, w') /\
     txIsARetransmission fr = true /\ txSequence fr = 42 /\
     txFrameCounter fr = 100 /\ txKeyId fr = 3) /\
  (exists fr w', exFrameRequest true (exWorld 1) = Done (Some fr, w') /\
     txIsARetransmission fr = true /\ txSequence fr = 42 /\
     txFrameCounter fr = 200 /\ txKeyId fr = 4) /\
  (exists w', exSentFrame kErrorNoAck (exWorld 0) = Done w' /\
     mCslTxAttempts (neighbors w' TheParent) = 1 /\
     mIndirectDsn (neighbors w' TheParent) = 42 /\
     mIndirectFrameCounter (neighbors w' TheParent) = 100 /\
     mIndirectKeyId (neighbors w' TheParent) = 3).
Proof.
  pose proof (HandleFrameRequest_retransmission 3 true (fun _ => AddrShort 1)
                (fun _ => AddrShort 2) (fun _ => true) (exBuild false) exWithout 4)
    as (HA & HB & HT).
  pose proof (HandleFrameRequest_retransmission 3 true (fun _ => AddrShort 1)
                (fun _ => AddrShort 2) (fun _ => true) (exBuild true) exWithout 4) as [HC _].
  split; [|split].
  - eexists _, _. split; [vm_compute; reflexivity|].
    destruct (HA exBuffer 1055000 (exWorld 1) TheParent _ _ eq_refl ltac:(vm_compute; reflexivity)
                eq_refl) as (H1 & H2 & H3 & _).
    destruct (H3 eq_refl eq_refl) as [H4 H5].
    repeat split; assumption.
  - eexists _, _. split; [vm_compute; reflexivity|].
    destruct (HC exBuffer 1055000 (exWorld 1) TheParent _ _ eq_refl ltac:(vm_compute; reflexivity)
                eq_refl) as (H1 & H2 & _ & H3).
    destruct (H3 eq_refl) as [H4 H5].
    repeat split; assumption.
  - destruct (HT exSent kErrorNoAck 1055000 (exWorld 0) TheParent exMessage
                eq_refl eq_refl eq_refl ltac:(discriminate)) as [w' Hrun].
    { right; right. split; [reflexivity|]. split; [reflexivity | vm_compute; reflexivity]. }
    { unfold slotInputs, kUsPerTenSymbols. simpl. repeat split; lia. }
    exists w'. split; [exact Hrun|].
    destruct (HB exSent kErrorNoAck 1055000 (exWorld 0) TheParent w' eq_refl
                ltac:(right; right; split; [reflexivity | vm_compute; reflexivity])
                eq_refl Hrun) as (H1 & H2 & _ & H3).
    destruct (H2 eq_refl eq_refl) as [H4 H5].
    repeat split; assumption.
Defined.

(** A [kErrorChannelAccessFailure] alone records the DSN, the frame counter
    and the key id but leaves the attempts at 0, so the frame prepared next
    is not marked as a retransmission and carries the DSN it was built
    with. *)
Example channel_access_failure_alone :
  exists w' fr w'',
    exSentFrame kErrorChannelAccessFailure
      (onNeighbor TheParent (SetIndirectDataSequenceNumber 0) (exWorld 0)) = Done w' /\
    mIndirectDsn (neighbors w' TheParent) = 42 /\
    mCslTxAttempts (neighbors w' TheParent) = 0 /\
    exFrameRequest false w' = Done (Some fr, w'') /\
    txIsARetransmission fr = false /\ txSequence fr = 50.
Proof.
  eexists _, _, _. split; [vm_compute; reflexivity|].
  split; [reflexivity|]. split; [reflexivity|].
  split; [vm_compute; reflexivity|]. split; reflexivity.
Qed.

(** The third [kErrorNoAck] of scenario S6 (maximum 3, two attempts made). *)
Lemma HandleSentFrame_NoAck_max_attempts_witness :
  exists w',
    exSentFrame kErrorNoAck (exWorld 2) = Done w' /\
    mCslSynchronized (neighbors w' TheParent) = false /\
    mCslTxAttempts (neighbors w' TheParent) = 0 /\
    mTxFailure w' = 1 /\
    calls w' = [BecomeDetached; RemoveMessageIfNoPendingTx exMessage] /\
    exFrameRequest false w' = Done (None, w').
Proof.
  destruct (HandleSentFrame_NoAck_max_attempts 3 true (fun _ => AddrShort 1)
              (fun _ => AddrShort 2) (fun _ => true) (exBuild false) exWithout 4
              exSent 1055000 (exWorld 2) TheParent exMessage eq_refl eq_refl
              (fun _ => eq_refl) ltac:(vm_compute; discriminate))
    as (w' & Hrun & Hsync & Hatt & Hfail & _ & Hcalls & _ & Hnone & _).
  exists w'. split; [exact Hrun|]. split; [exact Hsync|]. split; [exact Hatt|].
  split; [exact (Hfail eq_refl)|]. split; [exact Hcalls|]. apply Hnone.
Defined.

(** Scenario S6 in full: three [kErrorNoAck] completions, each after a frame
    request; the fourth frame request gets no frame, [mTxFailure] is 1 and
    [BecomeDetached] was called once. *)
Example three_NoAck_completions :
  exists w,
    (let* w1 := exSentFrame kErrorNoAck (exWorld 0) in
     let* (_, w1) := exFrameRequest false w1 in
     let* w2 := exSentFrame kErrorNoAck w1 in
     let* (_, w2) := exFrameRequest false w2 in
     let* w3 := exSentFrame kErrorNoAck w2 in
     exFrameRequest false w3) = Done (None, w) /\
    IsEnhCslSynchronized (neighbors w TheParent) = false /\
    mTxFailure w = 1 /\
    length (List.filter isBecomeDetached (calls w)) = 1%nat.
Proof.
  eexists. split; [vm_compute; reflexivity|]. repeat split.
Qed.

End EnhCslSender.

(** ** Mac::WakeupCoordTable: what the table keeps *)

Module WakeupCoordTableFacts.

Import WakeupCoordTable.

(** void WakeupCoordTable::Clear(void): [mWakeupCoords.Clear()] *)
Definition Clear (t : list WakeupCoord) : list WakeupCoord := [].

(** The addresses of a table are unique. *)
Definition uniqueAddresses (t : list WakeupCoord) : Prop := NoDup (mExtAddr <$> t).





(** Whether the address has an entry. *)
Definition known (t : list WakeupCoord) (a : Z) : bool :=
  match entryOf t a with Some _ => true | None => false end.

Section Facts.

Variable kMaxWakeupCoords : nat.
Variable kWakeupCoordinatorEvictAge : Z.

(** The entry of [a] is not evicted during the run: at every call of
    [DetectReplay], an address that has an entry before the call has one
    after it. *)
Fixpoint notEvicted (a : Z) (fs : list (Z * RxFrame)) (t : list WakeupCoord) : bool :=
  match fs with
  | [] => true
  | (tm, f) :: fs' =>
      let t1 := (DetectReplay kMaxWakeupCoords kWakeupCoordinatorEvictAge tm f t).2 in
      implb (known t a) (known t1 a) && notEvicted a fs' t1
  end.

(** *** The scan of [Evict] *)

(** The scan either keeps the candidate it started with, and then no cell
    is older than the bound it started with, or it ends on the first of the
    oldest cells, older than that bound. *)
Lemma EvictScan_spec t :
  forall k o u,
    let r := EvictScan k t o u in
    Forall (fun c => r.2 <= mLastUpdated c) t /\
    ((r = (o, u) /\ Forall (fun c => u <= mLastUpdated c) t) \/
     (exists j c, r = (Some (k + j)%nat, mLastUpdated c) /\ t !! j = Some c /\
        mLastUpdated c < u /\
        Forall (fun c' => mLastUpdated c < mLastUpdated c') (take j t))).
Proof.
  induction t as [|d t IH]; intros k o u; cbn [EvictScan].
  - cbv zeta. split; [constructor|]. left. split; [reflexivity | constructor].
  - destruct (Z.ltb_spec (mLastUpdated d) u) as [Hlt|Hge].
    + specialize (IH (S k) (Some k) (mLastUpdated d)). cbv zeta in IH.
      destruct IH as [Hall [[Hr Hrest]|(j & c & Hr & Hj & Hc & Htake)]]; cbv zeta.
      * rewrite Hr in *. simpl in Hall. split; [constructor; [simpl; lia | exact Hall]|].
        right. exists 0%nat, d. rewrite Nat.add_0_r.
        repeat split; [assumption | constructor].
      * rewrite Hr in *. simpl in Hall. split; [constructor; [simpl; lia | exact Hall]|].
        right. exists (S j), c. replace (k + S j)%nat with (S k + j)%nat by lia.
        repeat split; [assumption | lia |].
        simpl. constructor; [lia | assumption].
    + specialize (IH (S k) o u). cbv zeta in IH.
      destruct IH as [Hall [[Hr Hrest]|(j & c & Hr & Hj & Hc & Htake)]]; cbv zeta.
      * rewrite Hr in *. simpl in Hall. split; [constructor; [simpl; lia | exact Hall]|].
        left. split; [reflexivity | now constructor].
      * rewrite Hr in *. simpl in Hall. split; [constructor; [simpl; lia | exact Hall]|].
        right. exists (S j), c. replace (k + S j)%nat with (S k + j)%nat by lia.
        repeat split; [assumption | assumption |].
        simpl. constructor; [lia | assumption].
Qed.

(** Array::Remove keeps all the other cells. *)
Lemma Remove_Permutation i t c :
  t !! i = Some c -> t ≡ₚ c :: Remove i t.
Proof.
  intros Hi. unfold Remove.
  destruct (list.last t) as [l|] eqn:Hl.
  - apply last_Some in Hl as [t' ->]. rewrite removelast_last.
    destruct (Nat.eqb_spec i (length t')) as [->|Hne].
    + rewrite lookup_app_r, Nat.sub_diag in Hi by lia. injection Hi as <-.
      symmetry. apply Permutation_cons_append.
    + assert (Hlt : (i < length t')%nat).
      { apply lookup_lt_Some in Hi. rewrite length_app in Hi. simpl in Hi. lia. }
      rewrite lookup_app_l in Hi by assumption.
      rewrite insert_take_drop by assumption.
      rewrite <- (take_drop_middle t' i c Hi) at 1.
      rewrite <- !app_assoc. simpl.
      rewrite <- Permutation_middle. rewrite <- (Permutation_middle (take i t')).
      f_equiv. rewrite app_assoc. symmetry. apply Permutation_cons_append.
  - apply last_None in Hl. subst t. discriminate.
Qed.

Lemma length_Remove_le i t : (length (Remove i t) <= length t)%nat.
Proof.
  unfold Remove. destruct (list.last t) as [l|] eqn:Hl; [|lia].
  apply last_Some in Hl as [t' ->]. rewrite removelast_last, length_app. simpl.
  destruct (i =? length t')%nat; [lia | rewrite length_insert; lia].
Qed.

(** [Evict] leaves the table as it is or removes one of its cells. *)
Lemma Evict_removes_a_cell tm t :
  Evict kWakeupCoordinatorEvictAge tm t = t \/
  exists i c, t !! i = Some c /\ Evict kWakeupCoordinatorEvictAge tm t = Remove i t.
Proof.
  unfold Evict. destruct (GetNowInSecs tm >? kWakeupCoordinatorEvictAge); [|now left].
  destruct (EvictScan_spec t 0 None
              (wrap32 (GetNowInSecs tm - kWakeupCoordinatorEvictAge)))
    as [_ [[-> _]|(j & c & -> & Hj & _)]]; simpl; [now left|].
  right. eauto.
Qed.

(** Which cell [Evict] removes. *)
Lemma Evict_cases tm t :
  0 <= kWakeupCoordinatorEvictAge ->
  let now := GetNowInSecs tm in
  (Evict kWakeupCoordinatorEvictAge tm t = t /\
   (now <= kWakeupCoordinatorEvictAge \/
    Forall (fun c => now - kWakeupCoordinatorEvictAge <= mLastUpdated c) t)) \/
  (exists i c, t !! i = Some c /\
     kWakeupCoordinatorEvictAge < now /\
     mLastUpdated c < now - kWakeupCoordinatorEvictAge /\
     Forall (fun c' => mLastUpdated c <= mLastUpdated c') t /\
     Forall (fun c' => mLastUpdated c < mLastUpdated c') (take i t) /\
     Evict kWakeupCoordinatorEvictAge tm t = Remove i t).
Proof.
  intros Hage now. unfold Evict. fold now.
  assert (Hnow : 0 <= now < 2^32)
    by (unfold now, GetNowInSecs, wrap32; apply Z.mod_pos_bound; lia).
  destruct (Z.gtb_spec now kWakeupCoordinatorEvictAge) as [Hgt|Hle];
    [|left; split; [reflexivity | left; lia]].
  rewrite (wrap32_small (now - kWakeupCoordinatorEvictAge)) by lia.
  destruct (EvictScan_spec t 0 None (now - kWakeupCoordinatorEvictAge))
    as [Hall [[-> Hfresh]|(j & c & Heq & Hj & Hc & Htake)]]; simpl.
  - left. split; [reflexivity | now right].
  - right. exists j, c. rewrite Heq in Hall |- *. simpl in Hall.
    split; [exact Hj|]. split; [lia|]. split; [lia|].
    split; [exact Hall|split; [exact Htake | reflexivity]].
Qed.

Lemma length_Evict_le tm t :
  (length (Evict kWakeupCoordinatorEvictAge tm t) <= length t)%nat.
Proof.
  destruct (Evict_removes_a_cell tm t) as [->|(i & c & _ & ->)];
    [lia | apply length_Remove_le].
Qed.

Lemma uniqueAddresses_Evict tm t :
  uniqueAddresses t -> uniqueAddresses (Evict kWakeupCoordinatorEvictAge tm t).
Proof.
  intros Hu. destruct (Evict_removes_a_cell tm t) as [->|(i & c & Hi & ->)]; [assumption|].
  unfold uniqueAddresses in *.
  rewrite (Remove_Permutation i t c Hi) in Hu. rewrite fmap_cons in Hu.
  now apply NoDup_cons_1_2 in Hu.
Qed.

Lemma absent_not_elem t a : absent t a <-> a ∉ mExtAddr <$> t.
Proof.
  unfold absent. rewrite Forall_forall. split.
  - intros H Hin. apply list_elem_of_fmap in Hin as (c & -> & Hc).
    apply list_elem_of_In in Hc.
    specialize (H c Hc). unfold Matches in H. rewrite Z.eqb_refl in H. discriminate.
  - intros H c Hc. unfold Matches. apply Z.eqb_neq. intros Heq. apply H.
    apply list_elem_of_fmap. exists c. split; [now symmetry|]. now apply list_elem_of_In.
Qed.

(** Writing a frame of [a] into a cell of [a] changes no address. *)
Lemma addresses_StoreFrame t a i c ks fc now :
  FindMatching t a = Some (i, c) ->
  mExtAddr <$> StoreFrame i a ks fc now t = mExtAddr <$> t.
Proof.
  unfold FindMatching. rewrite FindMatchingFrom_Some.
  intros (j & -> & Hj & Hc & _). simpl. unfold StoreFrame.
  apply list_eq. intros k. rewrite !list_lookup_fmap, list_lookup_alter.
  destruct (decide (j = k)) as [->|]; [|reflexivity].
  rewrite Hj. simpl. unfold Matches in Hc. apply Z.eqb_eq in Hc. now rewrite Hc.
Qed.

(** What an accepted frame leaves in the table. *)
Lemma DetectReplay_accepted_find tm f t :
  (DetectReplay kMaxWakeupCoords kWakeupCoordinatorEvictAge tm f t).1 = kErrorNone ->
  exists i,
    FindMatching (DetectReplay kMaxWakeupCoords kWakeupCoordinatorEvictAge tm f t).2
                 (rxSrcAddr f)
    = Some (i, mkWakeupCoord (rxSrcAddr f) (ReadUint32 (rxKeySource f))
                 (rxFrameCounter f) (GetNowInSecs tm)).
Proof.
  intros Herr.
  destruct (FindMatching t (rxSrcAddr f)) as [[i c]|] eqn:Hfind.
  - destruct (DetectReplay_present kMaxWakeupCoords kWakeupCoordinatorEvictAge tm f t i c Hfind)
      as [Hacc Hrej].
    destruct (newer_dec (ReadUint32 (rxKeySource f)) (rxFrameCounter f) c) as [Hn|Hn].
    + rewrite (Hacc Hn). simpl. exists i. now apply FindMatching_StoreFrame with c.
    + rewrite (Hrej Hn) in Herr. discriminate.
  - apply FindMatchingFrom_None in Hfind.
    destruct (DetectReplay_absent kMaxWakeupCoords kWakeupCoordinatorEvictAge tm f t Hfind)
      as [[Hrun _]|[Hrun _]]; rewrite Hrun in *; [discriminate|].
    simpl. eexists. apply FindMatching_snoc; [now apply absent_Evict|].
    unfold Matches. simpl. apply Z.eqb_refl.
Qed.

Lemma DetectReplay_length_le tm f t :
  (length t <= kMaxWakeupCoords)%nat ->
  (length (DetectReplay kMaxWakeupCoords kWakeupCoordinatorEvictAge tm f t).2
   <= kMaxWakeupCoords)%nat.
Proof.
  intros Hlen.
  destruct (FindMatching t (rxSrcAddr f)) as [[i c]|] eqn:Hfind.
  - destruct (DetectReplay_present kMaxWakeupCoords kWakeupCoordinatorEvictAge tm f t i c Hfind)
      as [Hacc Hrej].
    destruct (newer_dec (ReadUint32 (rxKeySource f)) (rxFrameCounter f) c) as [Hn|Hn].
    + rewrite (Hacc Hn). simpl. unfold StoreFrame. now rewrite length_alter.
    + now rewrite (Hrej Hn).
  - apply FindMatchingFrom_None in Hfind.
    destruct (DetectReplay_absent kMaxWakeupCoords kWakeupCoordinatorEvictAge tm f t Hfind)
      as [[Hrun _]|[Hrun Hlt]]; rewrite Hrun; simpl.
    + pose proof (length_Evict_le tm t). lia.
    + rewrite length_app. simpl. lia.
Qed.

Lemma DetectReplay_unique tm f t :
  uniqueAddresses t ->
  uniqueAddresses (DetectReplay kMaxWakeupCoords kWakeupCoordinatorEvictAge tm f t).2.
Proof.
  intros Hu.
  destruct (FindMatching t (rxSrcAddr f)) as [[i c]|] eqn:Hfind.
  - destruct (DetectReplay_present kMaxWakeupCoords kWakeupCoordinatorEvictAge tm f t i c Hfind)
      as [Hacc Hrej].
    destruct (newer_dec (ReadUint32 (rxKeySource f)) (rxFrameCounter f) c) as [Hn|Hn].
    + rewrite (Hacc Hn). simpl. unfold uniqueAddresses.
      now rewrite (addresses_StoreFrame t _ i c).
    + now rewrite (Hrej Hn).
  - apply FindMatchingFrom_None in Hfind.
    destruct (DetectReplay_absent kMaxWakeupCoords kWakeupCoordinatorEvictAge tm f t Hfind)
      as [[Hrun _]|[Hrun _]]; rewrite Hrun; simpl.
    + now apply uniqueAddresses_Evict.
    + unfold uniqueAddresses. rewrite fmap_app. simpl.
      apply list.NoDup_app. split; [now apply uniqueAddresses_Evict|]. split.
      * intros x Hx Hx'. apply list_elem_of_singleton in Hx'. subst x.
        revert Hx. apply absent_not_elem. now apply absent_Evict.
      * apply NoDup_singleton.
Qed.

(** *** The entry of an address over a run of frames from any sources *)














(** X1. The table never outgrows its array: from a table of at most
    [kMaxWakeupCoords] cells, any run of [DetectReplay] over any frames at
    any times leaves a table of at most [kMaxWakeupCoords] cells. *)
Theorem DetectReplayAll_within_capacity fs :
  forall t,
    (length t <= kMaxWakeupCoords)%nat ->
    (length (DetectReplayAll kMaxWakeupCoords kWakeupCoordinatorEvictAge fs t).2
     <= kMaxWakeupCoords)%nat.
Proof.
  induction fs as [|[tm f] fs IH]; intros t Hlen; [exact Hlen|].
  rewrite DetectReplayAll_cons. cbn [snd]. apply IH. now apply DetectReplay_length_le.
Qed.

(** X2. No address gets two entries: when the addresses of the table are
    pairwise different, they still are after any run of [DetectReplay],
    through acceptance, rejection, eviction and a full table alike. *)
Theorem DetectReplayAll_unique_addresses fs :
  forall t,
    uniqueAddresses t ->
    uniqueAddresses (DetectReplayAll kMaxWakeupCoords kWakeupCoordinatorEvictAge fs t).2.
Proof.
  induction fs as [|[tm f] fs IH]; intros t Hu; [exact Hu|].
  rewrite DetectReplayAll_cons. cbn [snd]. apply IH. now apply DetectReplay_unique.
Qed.

(** X3. An accepted frame is the entry of its source: when [DetectReplay]
    returns [kErrorNone], looking the source address up in the new table
    gives the frame's key sequence and frame counter and the second of the
    call, whether the entry existed or was created. *)
Theorem DetectReplay_accepted_is_stored tm f t :
  (DetectReplay kMaxWakeupCoords kWakeupCoordinatorEvictAge tm f t).1 = kErrorNone ->
  entryOf (DetectReplay kMaxWakeupCoords kWakeupCoordinatorEvictAge tm f t).2 (rxSrcAddr f)
  = Some (mkWakeupCoord (rxSrcAddr f) (ReadUint32 (rxKeySource f)) (rxFrameCounter f)
            (GetNowInSecs tm)).
Proof.
  intros Herr. destruct (DetectReplay_accepted_find tm f t Herr) as [i Hi].
  unfold entryOf. now rewrite Hi.
Qed.



(** X5. When the table has no room: for a table within its capacity,
    [DetectReplay] returns [kErrorNoBufs] exactly when the source address has
    no entry, the table is full, and no entry can be evicted (the clock is
    not past the evict age, or every entry was updated within it); the table
    is then left as it was. *)
Theorem DetectReplay_NoBufs_iff tm f t :
  0 <= kWakeupCoordinatorEvictAge ->
  (length t <= kMaxWakeupCoords)%nat ->
  ((DetectReplay kMaxWakeupCoords kWakeupCoordinatorEvictAge tm f t).1 = kErrorNoBufs <->
   absent t (rxSrcAddr f) /\
   length t = kMaxWakeupCoords /\
   (GetNowInSecs tm <= kWakeupCoordinatorEvictAge \/
    Forall (fun c => GetNowInSecs tm - kWakeupCoordinatorEvictAge <= mLastUpdated c) t)) /\
  ((DetectReplay kMaxWakeupCoords kWakeupCoordinatorEvictAge tm f t).1 = kErrorNoBufs ->
   (DetectReplay kMaxWakeupCoords kWakeupCoordinatorEvictAge tm f t).2 = t).
Proof.
  intros Hage Hlen. split; [split|].
  - intros Herr.
    destruct (DetectReplay_NoBufs kMaxWakeupCoords kWakeupCoordinatorEvictAge tm f t
                Hage Hlen Herr) as (Habs & Hfull & _ & Hfresh).
    split; [exact Habs|]. split; [exact Hfull|].
    destruct (Z_le_gt_dec (GetNowInSecs tm) kWakeupCoordinatorEvictAge) as [Hle|Hgt];
      [now left | right; now apply Hfresh].
  - intros (Habs & Hfull & Hkeep).
    destruct (DetectReplay_absent kMaxWakeupCoords kWakeupCoordinatorEvictAge tm f t Habs)
      as [[Hrun _]|[_ Hlt]]; [now rewrite Hrun|].
    exfalso.
    destruct (Evict_cases tm t Hage) as [[Heq _]|(i & c & Hi & Hgt & Hstale & _)].
    + rewrite Heq in Hlt. lia.
    + destruct Hkeep as [Hle|Hfresh]; [lia|].
      rewrite Forall_lookup in Hfresh. specialize (Hfresh i c Hi). simpl in Hfresh. lia.
  - intros Herr.
    now destruct (DetectReplay_NoBufs kMaxWakeupCoords kWakeupCoordinatorEvictAge tm f t
                    Hage Hlen Herr) as (_ & _ & Hsame & _).
Qed.

(** X6. What [Evict] removes: either the table is left as it is, and then the
    clock is not past the evict age or every entry was updated within it; or
    exactly one entry goes, one that is older than the evict age, as old as
    any entry of the table, and the first of these in the array, and the
    other entries are all kept. *)
Theorem Evict_removes_first_oldest_stale tm t :
  0 <= kWakeupCoordinatorEvictAge ->
  (Evict kWakeupCoordinatorEvictAge tm t = t /\
   (GetNowInSecs tm <= kWakeupCoordinatorEvictAge \/
    Forall (fun c => GetNowInSecs tm - kWakeupCoordinatorEvictAge <= mLastUpdated c) t)) \/
  (exists i c, t !! i = Some c /\
     mLastUpdated c < GetNowInSecs tm - kWakeupCoordinatorEvictAge /\
     Forall (fun c' => mLastUpdated c <= mLastUpdated c') t /\
     Forall (fun c' => mLastUpdated c < mLastUpdated c') (take i t) /\
     t ≡ₚ c :: Evict kWakeupCoordinatorEvictAge tm t).
Proof.
  intros Hage.
  destruct (Evict_cases tm t Hage)
    as [H|(i & c & Hi & _ & Hstale & Hold & Hfirst & Heq)]; [now left|].
  right. exists i, c. rewrite Heq.
  split; [exact Hi|]. split; [exact Hstale|]. split; [exact Hold|]. split; [exact Hfirst|].
  now apply Remove_Permutation.
Qed.

(** X7. A frame of a known source touches its own cell only: when the source
    address has an entry at index [i], [DetectReplay] evicts nothing and
    adds nothing, the table keeps its length and every cell but [i], also
    when other entries are older than the evict age. *)
Theorem DetectReplay_known_source_keeps_others tm f t i c :
  FindMatching t (rxSrcAddr f) = Some (i, c) ->
  length (DetectReplay kMaxWakeupCoords kWakeupCoordinatorEvictAge tm f t).2 = length t /\
  forall j, j <> i ->
    (DetectReplay kMaxWakeupCoords kWakeupCoordinatorEvictAge tm f t).2 !! j = t !! j.
Proof.
  intros Hfind.
  destruct (DetectReplay_present kMaxWakeupCoords kWakeupCoordinatorEvictAge tm f t i c Hfind)
    as [Hacc Hrej].
  destruct (newer_dec (ReadUint32 (rxKeySource f)) (rxFrameCounter f) c) as [Hn|Hn].
  - rewrite (Hacc Hn). simpl. unfold StoreFrame. split; [apply length_alter|].
    intros j Hj. rewrite list_lookup_alter.
    destruct (decide (i = j)); [congruence | reflexivity].
  - rewrite (Hrej Hn). now split.
Qed.

(** X8. The cleared table: after [Clear], the frame of any source is
    accepted whatever its counters, and the table holds that one entry,
    unless the array has no cell at all, where the answer is [kErrorNoBufs]. *)
Theorem DetectReplay_after_Clear tm f t :
  DetectReplay kMaxWakeupCoords kWakeupCoordinatorEvictAge tm f (Clear t) =
  if decide (kMaxWakeupCoords = 0%nat)
  then (kErrorNoBufs, [])
  else (kErrorNone,
        [mkWakeupCoord (rxSrcAddr f) (ReadUint32 (rxKeySource f)) (rxFrameCounter f)
           (GetNowInSecs tm)]).
Proof.
  unfold Clear, DetectReplay, FindMatching, PushBack, Evict. simpl.
  assert (Hev : (if GetNowInSecs tm >? kWakeupCoordinatorEvictAge
                 then @nil WakeupCoord else []) = [])
    by (destruct (_ >? _); reflexivity).
  rewrite Hev. simpl.
  destruct (decide (kMaxWakeupCoords = 0%nat)) as [->|Hne]; [reflexivity|].
  destruct (Nat.ltb_spec 0 kMaxWakeupCoords); [reflexivity | lia].
Qed.

End Facts.

(** A table of two entries, the first updated in second 10,
    the second in second 70. *)
Definition twoEntries : list WakeupCoord :=
  [mkWakeupCoord 170 5 10 10; mkWakeupCoord 187 1 1 70].

(** Two frames of unknown sources, in seconds 80 and 81. *)
Definition twoFrames : list (Z * RxFrame) :=
  [(80000000, frameOf 204 1 1); (81000000, frameOf 221 1 1)].

Lemma DetectReplayAll_within_capacity_witness :
  (length (DetectReplayAll 2 60 twoFrames twoEntries).2 <= 2)%nat.
Proof.
  apply (DetectReplayAll_within_capacity 2 60). simpl. lia.
Defined.

Lemma DetectReplayAll_unique_addresses_witness :
  uniqueAddresses
    (DetectReplayAll 2 60
       [(80000000, frameOf 204 1 1); (81000000, frameOf 187 1 2)] twoEntries).2.
Proof.
  apply (DetectReplayAll_unique_addresses 2 60).
  unfold uniqueAddresses, twoEntries. simpl.
  apply NoDup_cons_2; [|apply NoDup_singleton].
  intros H. apply list_elem_of_singleton in H. discriminate.
Defined.

Lemma DetectReplay_accepted_is_stored_witness :
  entryOf (DetectReplay 2 60 80000000 (frameOf 204 1 1) twoEntries).2 204
  = Some (mkWakeupCoord 204 1 1 80).
Proof.
  apply (DetectReplay_accepted_is_stored 2 60 80000000 (frameOf 204 1 1) twoEntries).
  vm_compute. reflexivity.
Defined.





(** Why the entry must not be evicted in between: the frame (5,10) of 170 is
    accepted in second 10; in second 80 a frame of 187 evicts the entry of
    170; in second 81 the frame (1,1) of 170, below the pair accepted
    before, is accepted and makes a new entry, and so would be (5,10)
    again. *)
Example entry_recreated_after_eviction :
  let fs := [(10000000, frameOf 170 5 10); (80000000, frameOf 187 1 1)] in
  let t := (DetectReplayAll 2 60 fs []).2 in
  (DetectReplayAll 2 60 fs []).1 = [kErrorNone; kErrorNone] /\
  notEvicted 2 60 170 fs [] = false /\
  entryOf t 170 = None /\
  DetectReplay 2 60 81000000 (frameOf 170 1 1) t
  = (kErrorNone, [mkWakeupCoord 187 1 1 80; mkWakeupCoord 170 1 1 81]) /\
  (DetectReplay 2 60 81000000 (frameOf 170 5 10) t).1 = kErrorNone.
Proof. vm_compute. repeat split. Qed.

Lemma DetectReplay_NoBufs_iff_witness :
  (DetectReplay 2 60 50000000 (frameOf 204 1 1) twoEntries).1 = kErrorNoBufs /\
  (DetectReplay 2 60 50000000 (frameOf 204 1 1) twoEntries).2 = twoEntries.
Proof.
  assert (H := DetectReplay_NoBufs_iff 2 60 50000000 (frameOf 204 1 1) twoEntries
                 ltac:(lia) ltac:(simpl; lia)).
  destruct H as [Hiff Hsame].
  assert (Herr : (DetectReplay 2 60 50000000 (frameOf 204 1 1) twoEntries).1 = kErrorNoBufs).
  { apply Hiff. split; [|split; [reflexivity | left; vm_compute; discriminate]].
    repeat constructor. }
  split; [exact Herr | exact (Hsame Herr)].
Defined.

Lemma Evict_removes_first_oldest_stale_witness :
  (Evict 60 80000000 twoEntries = twoEntries /\
   (GetNowInSecs 80000000 <= 60 \/
    Forall (fun c => GetNowInSecs 80000000 - 60 <= mLastUpdated c) twoEntries)) \/
  (exists i c, twoEntries !! i = Some c /\
     mLastUpdated c < GetNowInSecs 80000000 - 60 /\
     Forall (fun c' => mLastUpdated c <= mLastUpdated c') twoEntries /\
     Forall (fun c' => mLastUpdated c < mLastUpdated c') (take i twoEntries) /\
     twoEntries ≡ₚ c :: Evict 60 80000000 twoEntries).
Proof.
  apply (Evict_removes_first_oldest_stale 60 80000000 twoEntries). lia.
Defined.

Lemma DetectReplay_known_source_keeps_others_witness :
  length (DetectReplay 2 60 80000000 (frameOf 187 1 2) twoEntries).2 = length twoEntries /\
  forall j, j <> 1%nat ->
    (DetectReplay 2 60 80000000 (frameOf 187 1 2) twoEntries).2 !! j = twoEntries !! j.
Proof.
  apply (DetectReplay_known_source_keeps_others 2 60 80000000 (frameOf 187 1 2) twoEntries
           1%nat (mkWakeupCoord 187 1 1 70)).
  reflexivity.
Defined.

End WakeupCoordTableFacts.

(** ** WakeupTxScheduler: what a sequence keeps *)

Module WakeupTxSchedulerFacts.

Import WakeupTxScheduler.

(** The calls made on the scheduler.  A frame request is what follows the
    expiry of the timer: the timer, a one-shot timer, is no longer running,
    its handler [Mac::RequestWakeupFrameTransmission] asks the MAC layer for
    the transmission, and the MAC layer calls [PrepareWakeupFrame].  While
    the timer is not running no frame is requested. *)
Inductive Op : Type :=
| OpWakeUp (aTarget aIntervalUs aDurationMs aNow : Z)
| OpFrameRequest (aPanId aExtAddress : Z) (r : Request)
| OpStop.

(** The scheduler after its timer has expired. *)
Definition expired (s : Scheduler) : Scheduler :=
  mkScheduler (mTarget s) (mTxTimeUs s) (mTxEndTimeUs s) (mTxRequestAheadTimeUs s)
              (mIntervalUs s) None (mSequenceOngoing s).


(** The timer of an ongoing sequence is running. *)
Definition armed (s : Scheduler) : Prop :=
  mSequenceOngoing s = true ->
  mTimer s = Some (Time_sub (mTxTimeUs s) (mTxRequestAheadTimeUs s)).



Section Facts.

Variable kCslRequestAheadUs : Z.
Variable kConnectionRetryInterval : Z.
Variable kConnectionRetryCount : Z.
Variable kOctetDuration : Z.

Definition step (op : Op) (s : Scheduler) : Scheduler :=
  match op with
  | OpWakeUp aTarget aIntervalUs aDurationMs aNow =>
      (WakeUp aTarget aIntervalUs aDurationMs aNow s).2
  | OpFrameRequest aPanId aExtAddress r =>
      match mTimer s with
      | Some _ =>
          (PrepareWakeupFrame kConnectionRetryInterval kConnectionRetryCount kOctetDuration
             aPanId aExtAddress r (expired s)).2
      | None => s
      end
  | OpStop => Stop s
  end.

Definition run (ops : list Op) (s : Scheduler) : Scheduler :=
  fold_left (fun s op => step op s) ops s.

Lemma wrap32_sub_sub a b c : wrap32 (wrap32 (a - b) - c) = wrap32 (a - wrap32 (c + b)).
Proof.
  unfold wrap32. rewrite Zminus_mod_idemp_l, Zminus_mod_idemp_r. f_equal. lia.
Qed.

Lemma Time_lt_irrefl a : Time_lt a a = false.
Proof. unfold Time_lt. now rewrite Z.sub_diag. Qed.

Lemma Time_Max_not_before a b : Time_lt (Time_Max a b) b = false.
Proof.
  unfold Time_Max. destruct (Time_lt a b) eqn:H; [apply Time_lt_irrefl | exact H].
Qed.







(** X10. [ScheduleNext] is never late: after a frame, the next transmit time
    is the previous one plus the interval when that is not before "now plus
    the request-ahead time" (in the wrap-safe order), and "now plus the
    request-ahead time" when it is.  So it is never before "now plus
    request-ahead", never before the previous transmit time plus the interval
    (unless the two candidates are exactly 2^31 apart, where the wrap-safe
    order puts each before the other), and the time the timer is set to is
    not before now.  The timer is set, and the sequence goes on, exactly when
    the new transmit time is before the end of the sequence. *)
Theorem ScheduleNext_never_late now s :
  let s' := ScheduleNext false now s in
  let next := Time_add (mTxTimeUs s) (mIntervalUs s) in
  let due := Time_add now (mTxRequestAheadTimeUs s) in
  (Time_lt next due = false -> mTxTimeUs s' = next) /\
  (Time_lt next due = true -> mTxTimeUs s' = due) /\
  Time_lt (mTxTimeUs s') due = false /\
  (wrap32 (next - due) <> 2^31 -> Time_lt (mTxTimeUs s') next = false) /\
  Time_lt (Time_sub (mTxTimeUs s') (mTxRequestAheadTimeUs s)) now = false /\
  mTimer s' = (if Time_ge (mTxTimeUs s') (mTxEndTimeUs s) then mTimer s
               else Some (Time_sub (mTxTimeUs s') (mTxRequestAheadTimeUs s))) /\
  mSequenceOngoing s' = (if Time_ge (mTxTimeUs s') (mTxEndTimeUs s) then false
                         else mSequenceOngoing s).
Proof.
  intros s' next due.
  assert (Htx : mTxTimeUs s' = Time_Max next due).
  { unfold s', ScheduleNext. cbn [negb]. fold next due.
    destruct (Time_ge _ _); reflexivity. }
  assert (Hlate : Time_lt (mTxTimeUs s') due = false)
    by (rewrite Htx; apply Time_Max_not_before).
  split; [|split; [|split; [exact Hlate|split; [|split; [|split]]]]].
  - intros Hcmp. rewrite Htx. unfold Time_Max. now rewrite Hcmp.
  - intros Hcmp. rewrite Htx. unfold Time_Max. now rewrite Hcmp.
  - intros Hapart. rewrite Htx. unfold Time_Max.
    destruct (Time_lt next due) eqn:Hcmp; [|apply Time_lt_irrefl].
    unfold Time_lt in *. apply Z.leb_le in Hcmp. apply Z.leb_gt.
    assert (Hrange : 0 <= wrap32 (next - due) < 2^32)
      by (unfold wrap32; apply Z.mod_pos_bound; lia).
    replace (due - next) with (- (next - due)) by lia.
    unfold wrap32 in *. rewrite Z.mod_opp_l_nz by lia. lia.
  - unfold Time_lt, Time_sub in *. unfold due, Time_add in Hlate.
    now rewrite wrap32_sub_sub.
  - rewrite Htx. unfold s', ScheduleNext. cbn [negb]. fold next due.
    destruct (Time_ge _ _); reflexivity.
  - rewrite Htx. unfold s', ScheduleNext. cbn [negb]. fold next due.
    destruct (Time_ge _ _); reflexivity.
Qed.

(** X11. One sequence at a time: while the sequence started by a [WakeUp] is
    ongoing, another [WakeUp], for any target, interval, duration and time,
    returns [kErrorInvalidState] and changes nothing; after [Stop] no frame
    is prepared any more and the state stays as it is, and [WakeUp] is
    accepted again. *)
Theorem WakeUp_one_sequence_at_a_time aTarget aIntervalUs aDurationMs aNow s0 :
  mSequenceOngoing s0 = false ->
  0 < aDurationMs * 1000 + aIntervalUs < 2^31 ->
  let s1 := (WakeUp aTarget aIntervalUs aDurationMs aNow s0).2 in
  (forall aTarget' aIntervalUs' aDurationMs' aNow',
     WakeUp aTarget' aIntervalUs' aDurationMs' aNow' s1 = (kErrorInvalidState, s1)) /\
  (forall aPanId aExtAddress r,
     PrepareWakeupFrame kConnectionRetryInterval kConnectionRetryCount kOctetDuration
       aPanId aExtAddress r (Stop s1) = (None, Stop s1)) /\
  (forall aTarget' aIntervalUs' aDurationMs' aNow',
     (WakeUp aTarget' aIntervalUs' aDurationMs' aNow' (Stop s1)).1 = kErrorNone).
Proof.
  intros Hoff HD s1.
  destruct (WakeUp_starts aTarget aIntervalUs aDurationMs aNow s0 Hoff HD)
    as (_ & (Hon & _) & _).
  fold s1 in Hon.
  split; [|split].
  - intros. unfold WakeUp. now rewrite Hon.
  - intros. now apply PrepareWakeupFrame_stopped.
  - intros. reflexivity.
Qed.

(** X12. [WakeUp] on an idle scheduler always returns [kErrorNone], but a
    sequence is ongoing afterwards only when the interval or the duration is
    above 0: with both 0 the first transmit time is the end of the sequence,
    no timer is set and no frame will be sent. *)
Theorem WakeUp_zero_length aTarget aIntervalUs aDurationMs aNow s0 :
  mSequenceOngoing s0 = false ->
  0 <= aIntervalUs < 2^16 ->
  0 <= aDurationMs < 2^16 ->
  let r := WakeUp aTarget aIntervalUs aDurationMs aNow s0 in
  r.1 = kErrorNone /\
  (mSequenceOngoing r.2 = true <-> 0 < aDurationMs * 1000 + aIntervalUs) /\
  (aDurationMs * 1000 + aIntervalUs = 0 -> mTimer r.2 = mTimer s0).
Proof.
  intros Hoff HI HD r.
  destruct (Z_lt_le_dec 0 (aDurationMs * 1000 + aIntervalUs)) as [Hpos|Hzero].
  - destruct (WakeUp_starts aTarget aIntervalUs aDurationMs aNow s0 Hoff ltac:(lia))
      as (Herr & (Hon & _) & _).
    fold r in Herr, Hon. split; [exact Herr|]. split; [now split | lia].
  - assert (aIntervalUs = 0) as -> by lia. assert (aDurationMs = 0) as -> by lia.
    unfold r, WakeUp. rewrite Hoff. unfold ScheduleNext. cbn [mTxTimeUs mTxEndTimeUs].
    assert (Hend : Time_add (Time_add (Time_add aNow (mTxRequestAheadTimeUs s0)) (0 * 1000)) 0
                   = Time_add aNow (mTxRequestAheadTimeUs s0)).
    { unfold Time_add. rewrite !Z.add_0_r. unfold wrap32. now rewrite !Z.mod_mod by lia. }
    rewrite Hend. unfold Time_ge. rewrite Time_lt_irrefl. simpl.
    split; [reflexivity|]. split; [split; [discriminate | lia] | reflexivity].
Qed.

(** X13. An interval shorter than the air time of the wake-up frame and the
    Parent Request ((54 + 78) octets): the [uint32_t] subtraction wraps, and
    the value passed to [SetRendezvousTime] is
    [((2^32 + interval - 132 * kOctetDuration) / 2 + interval) / 160], which
    is 2^16 or more. *)
Theorem rendezvousTime_short_interval aIntervalUs :
  0 < kOctetDuration ->
  132 * kOctetDuration <= 2^31 ->
  0 <= aIntervalUs < 132 * kOctetDuration ->
  rendezvousTime kOctetDuration aIntervalUs
  = ((2^32 + aIntervalUs - 132 * kOctetDuration) / 2 + aIntervalUs) / 160 /\
  2^16 <= rendezvousTime kOctetDuration aIntervalUs.
Proof.
  intros Hoct Hair HI.
  assert (Hval : rendezvousTime kOctetDuration aIntervalUs
                 = ((2^32 + aIntervalUs - 132 * kOctetDuration) / 2 + aIntervalUs) / 160).
  { unfold rendezvousTime, kWakeupFrameLength, kParentRequestLength, kUsPerTenSymbols.
    change (54 + 78) with 132.
    rewrite (wrap32_small (132 * kOctetDuration)) by lia.
    assert (Hsub : wrap32 (aIntervalUs - 132 * kOctetDuration)
                   = 2^32 + aIntervalUs - 132 * kOctetDuration).
    { unfold wrap32.
      rewrite <- (Z.mod_add (aIntervalUs - 132 * kOctetDuration) 1 (2^32)) by lia.
      rewrite Z.mod_small by lia. lia. }
    rewrite Hsub.
    assert (Hhalf : 2^30 <= (2^32 + aIntervalUs - 132 * kOctetDuration) / 2 < 2^31).
    { split; [apply Z.div_le_lower_bound; lia | apply Z.div_lt_upper_bound; lia]. }
    rewrite wrap32_small by lia. reflexivity. }
  split; [exact Hval|]. rewrite Hval.
  apply Z.div_le_lower_bound; [lia|].
  assert (2^30 <= (2^32 + aIntervalUs - 132 * kOctetDuration) / 2)
    by (apply Z.div_le_lower_bound; lia).
  lia.
Qed.

(** X14. The request-ahead time of the constructor: without a bus speed it
    is the configured value; with a bus speed of at most 2^32 - 8 * 10^8 Hz
    it is the configured value plus the time 100 bytes take on the bus in
    microseconds, rounded up, the sum cut to 16 bits; from 800 MHz on, that
    is one more microsecond. *)
Theorem CalcTxRequestAheadTimeUs_bus_time busSpeedHz :
  0 <= kCslRequestAheadUs < 2^16 ->
  0 <= busSpeedHz <= 2^32 - 800000000 ->
  let q := (800000000 + busSpeedHz - 1) / busSpeedHz in
  (busSpeedHz = 0 ->
   CalcTxRequestAheadTimeUs kCslRequestAheadUs busSpeedHz = kCslRequestAheadUs) /\
  (0 < busSpeedHz ->
   CalcTxRequestAheadTimeUs kCslRequestAheadUs busSpeedHz = wrap16 (kCslRequestAheadUs + q) /\
   (q - 1) * busSpeedHz < 800000000 <= q * busSpeedHz) /\
  (800000000 <= busSpeedHz ->
   CalcTxRequestAheadTimeUs kCslRequestAheadUs busSpeedHz = wrap16 (kCslRequestAheadUs + 1)).
Proof.
  intros Hcfg Hbus q.
  assert (Hcfg' : wrap16 kCslRequestAheadUs = kCslRequestAheadUs)
    by (unfold wrap16; apply Z.mod_small; lia).
  assert (Hpos : 0 < busSpeedHz ->
                 CalcTxRequestAheadTimeUs kCslRequestAheadUs busSpeedHz
                 = wrap16 (kCslRequestAheadUs + q)).
  { intros Hb. unfold CalcTxRequestAheadTimeUs, kWakeupFrameDataLength.
    destruct (Z.gtb_spec busSpeedHz 0) as [_|]; [|lia].
    rewrite Hcfg'. change (100 * 8 * 1000000) with 800000000.
    rewrite (wrap32_small 800000000) by lia.
    rewrite (wrap32_small (800000000 + busSpeedHz - 1)) by lia.
    fold q. unfold wrap16. now rewrite Zplus_mod_idemp_r. }
  split; [|split].
  - intros ->. unfold CalcTxRequestAheadTimeUs. simpl. exact Hcfg'.
  - intros Hb. split; [now apply Hpos|].
    apply (ceil_div_bounds 800000000 busSpeedHz Hb).
  - intros Hb. rewrite Hpos by lia. do 2 f_equal. unfold q.
    symmetry. apply (Z.div_unique _ _ _ (800000000 - 1)); lia.
Qed.

(** X15. The transmit time of a wake-up frame is moved from the clock of
    the timer to the clock of the radio: the frame [PrepareWakeupFrame]
    returns is sent with base time 0 and a delay that is past the radio
    clock by what [mTxTimeUs] is past the timer clock, modulo 2^32, whatever
    the offset between the two clocks; CSMA-CA, back-offs and retries are
    off, the target is the one of the sequence, and the scheduler has moved
    on to the next frame. *)
Theorem PrepareWakeupFrame_tx_delay aPanId aExtAddress r s fr :
  (PrepareWakeupFrame kConnectionRetryInterval kConnectionRetryCount kOctetDuration
     aPanId aExtAddress r s).1 = Some fr ->
  Time_sub (wfTxDelay fr) (rqRadioNow r) = Time_sub (mTxTimeUs s) (rqNow r) /\
  wfTxDelayBaseTime fr = 0 /\
  wfCsmaCaEnabled fr = false /\ wfMaxCsmaBackoffs fr = 0 /\ wfMaxFrameRetries fr = 0 /\
  wfTarget fr = mTarget s /\
  mSequenceOngoing s = true /\
  (PrepareWakeupFrame kConnectionRetryInterval kConnectionRetryCount kOctetDuration
     aPanId aExtAddress r s).2 = ScheduleNext false (rqNowNext r) s.
Proof.
  unfold PrepareWakeupFrame.
  destruct (mSequenceOngoing s); [|discriminate].
  destruct (rqGenerated r); [|discriminate]. cbn [negb fst snd].
  intros [= <-]. cbn.
  split; [|repeat split].
  unfold Time_sub, Time_add, wrap32.
  rewrite Zplus_mod_idemp_l, Zplus_mod_idemp_r, Zminus_mod_idemp_l. f_equal. lia.
Qed.

(** uint32_t GetConnectionWindowUs() const.  The operands, a [uint16_t] and
    two [uint8_t], are promoted to [int]; [None] when a product does not fit
    [int] (signed overflow, undefined behaviour). *)
Definition GetConnectionWindowUs (s : Scheduler) : option Z :=
  let window := mIntervalUs s * kConnectionRetryInterval in
  if negb (window <? 2^31) then None
  else
    let window := window * kConnectionRetryCount in
    if negb (window <? 2^31) then None else Some (wrap32 window).

(** TimeMicro GetTxEndTime() const *)
Definition GetTxEndTime (s : Scheduler) : Z := mTxEndTimeUs s.

(** X27. The getters after [WakeUp]: the end of the sequence is the time of
    the call plus the request-ahead time, the duration and one interval,
    modulo 2^32; the connection window is interval times retry interval
    times retry count when that product is below 2^31, which it is whenever
    retry interval times retry count is at most 32768, and otherwise the
    [int] multiplication overflows. *)
Theorem GetConnectionWindowUs_after_WakeUp aTarget aIntervalUs aDurationMs aNow s0 :
  mSequenceOngoing s0 = false ->
  0 <= aIntervalUs < 2^16 ->
  0 <= kConnectionRetryInterval < 2^8 ->
  0 <= kConnectionRetryCount < 2^8 ->
  let s1 := (WakeUp aTarget aIntervalUs aDurationMs aNow s0).2 in
  let window := aIntervalUs * kConnectionRetryInterval * kConnectionRetryCount in
  GetTxEndTime s1
  = wrap32 (aNow + mTxRequestAheadTimeUs s0 + aDurationMs * 1000 + aIntervalUs) /\
  (window < 2^31 -> GetConnectionWindowUs s1 = Some window) /\
  (2^31 <= window -> GetConnectionWindowUs s1 = None) /\
  (kConnectionRetryInterval * kConnectionRetryCount <= 32768 -> window < 2^31).
Proof.
  intros Hoff HI Hri Hrc s1 window.
  assert (Hs1 : mIntervalUs s1 = aIntervalUs /\
                mTxEndTimeUs s1
                = Time_add (Time_add (Time_add aNow (mTxRequestAheadTimeUs s0))
                              (aDurationMs * 1000)) aIntervalUs).
  { unfold s1, WakeUp. rewrite Hoff. unfold ScheduleNext. cbn [snd].
    destruct (Time_ge _ _); split; reflexivity. }
  destruct Hs1 as [Hint Hend].
  assert (Hfirst : 0 <= aIntervalUs * kConnectionRetryInterval < 2^31) by nia.
  split; [|split; [|split]].
  - unfold GetTxEndTime. rewrite Hend. unfold Time_add.
    rewrite wrap32_idemp_add, <- Z.add_assoc, wrap32_idemp_add. f_equal. lia.
  - intros Hfit. unfold GetConnectionWindowUs. rewrite Hint.
    destruct (Z.ltb_spec (aIntervalUs * kConnectionRetryInterval) (2^31)); [|lia].
    cbn [negb]. fold window.
    destruct (Z.ltb_spec window (2^31)); [|lia].
    cbn [negb]. f_equal. apply wrap32_small. unfold window. nia.
  - intros Hover. unfold GetConnectionWindowUs. rewrite Hint.
    destruct (Z.ltb_spec (aIntervalUs * kConnectionRetryInterval) (2^31)); [|lia].
    cbn [negb]. fold window.
    destruct (Z.ltb_spec window (2^31)); [lia | reflexivity].
  - intros Hsmall. unfold window. nia.
Qed.

End Facts.

(** A sequence of 50 ms with a frame every 10 ms, started at time 1000000
    with 1500 us of request-ahead. *)
Definition started : Scheduler := (WakeUp 99 10000 50 1000000 (init 1500 0)).2.


Lemma WakeUp_one_sequence_at_a_time_witness :
  (forall aTarget' aIntervalUs' aDurationMs' aNow',
     WakeUp aTarget' aIntervalUs' aDurationMs' aNow' started = (kErrorInvalidState, started)) /\
  (forall aPanId aExtAddress r,
     PrepareWakeupFrame 1 2 32 aPanId aExtAddress r (Stop started) = (None, Stop started)) /\
  (forall aTarget' aIntervalUs' aDurationMs' aNow',
     (WakeUp aTarget' aIntervalUs' aDurationMs' aNow' (Stop started)).1 = kErrorNone).
Proof.
  apply (WakeUp_one_sequence_at_a_time 1 2 32 99 10000 50 1000000 (init 1500 0));
    [reflexivity | lia].
Defined.

Lemma WakeUp_zero_length_witness :
  (WakeUp 99 0 0 1000000 (init 1500 0)).1 = kErrorNone /\
  (mSequenceOngoing (WakeUp 99 0 0 1000000 (init 1500 0)).2 = true <-> 0 < 0 * 1000 + 0) /\
  (0 * 1000 + 0 = 0 -> mTimer (WakeUp 99 0 0 1000000 (init 1500 0)).2 = mTimer (init 1500 0)).
Proof.
  apply (WakeUp_zero_length 99 0 0 1000000 (init 1500 0)); [reflexivity | lia | lia].
Defined.

Lemma rendezvousTime_short_interval_witness :
  rendezvousTime 32 4000 = ((2^32 + 4000 - 132 * 32) / 2 + 4000) / 160 /\
  2^16 <= rendezvousTime 32 4000.
Proof.
  apply (rendezvousTime_short_interval 32 4000); lia.
Defined.

Lemma CalcTxRequestAheadTimeUs_bus_time_witness :
  CalcTxRequestAheadTimeUs 2000 1000000 = 2800.
Proof.
  destruct (CalcTxRequestAheadTimeUs_bus_time 2000 1000000 ltac:(lia) ltac:(lia))
    as (_ & Hpos & _).
  destruct (Hpos ltac:(lia)) as [-> _]. reflexivity.
Defined.

Lemma PrepareWakeupFrame_tx_delay_witness :
  exists fr,
    (PrepareWakeupFrame 1 2 32 4660 43981 (mkRequest 1000000 1000100 777000 true) started).1
    = Some fr /\
    Time_sub (wfTxDelay fr) 777000 = 1500.
Proof.
  eexists. split; [reflexivity|].
  refine (eq_trans (proj1 (PrepareWakeupFrame_tx_delay 1 2 32 4660 43981
                             (mkRequest 1000000 1000100 777000 true) started _ eq_refl)) _).
  reflexivity.
Defined.

Lemma GetConnectionWindowUs_after_WakeUp_witness :
  GetTxEndTime started = 1061500 /\ GetConnectionWindowUs 1 2 started = Some 20000.
Proof.
  destruct (GetConnectionWindowUs_after_WakeUp 1 2 99 10000 50 1000000 (init 1500 0)
              eq_refl ltac:(lia) ltac:(lia) ltac:(lia)) as (Hend & Hfit & _).
  split; [exact Hend | apply Hfit; lia].
Defined.

End WakeupTxSchedulerFacts.

(** ** EnhCslSender: scheduling, completion and clearing *)

Module EnhCslSenderFacts.

Import EnhCslSender.

(** The slot [t] of a peer: congruent to its first window modulo its period,
    and the first one not before [aRadioNow + aAheadUs]. *)
Definition slotOf (aRadioNow : Z) (aNeighbor : Neighbor) (aAheadUs t : Z) : Prop :=
  let P := mCslPeriod aNeighbor * kUsPerTenSymbols in
  let T0 := mLastRxTimestamp aNeighbor + mCslPhase aNeighbor * kUsPerTenSymbols in
  t mod P = T0 mod P /\ aRadioNow + aAheadUs <= t < aRadioNow + aAheadUs + P.

(** What the sender never writes: the CSL parameters of a neighbor. *)
Definition cslInfo (n : Neighbor) : Z * bool * Z * Z * Z * Z :=
  (mExtAddress n, mCslSynchronized n, mCslMaxTxAttempts n, mCslPeriod n, mCslPhase n,
   mLastRxTimestamp n).

(** The first message of the send queue that is not marked for direct
    transmission. *)
Definition firstIndirect (q : list Message) : option Message :=
  List.find (fun m => negb (msgDirectTransmission m)) q.

Section Facts.

Variable kCslRequestAheadUs : Z.
Variable kMaxEnhCslTriggeredTxAttempts : Z.
Variable kCslReceiverEnable : bool.
Variable GetMacSourceAddress : Z -> MacAddress.
Variable GetMacDestinationAddress : Z -> MacAddress.
Variable IsLinkLocal : Z -> bool.
Variable PrepareDataFrameWithNoMeshHeader :
  TxFrame -> Message -> MacAddress * MacAddress -> TxFrame * Z.
Variable sendQueueWithout : Message -> list Message -> list Message.
Variable loopFuel : nat.

(** *** The three ways out of [RescheduleCslTx] *)

Lemma RescheduleCslTx_idle now w p :
  GetParent w = Some p ->
  mQueuedMessageCount (neighbors w p) <= 0 ->
  RescheduleCslTx loopFuel now w = Done (withSender (SetCslTxNeigh (Some p)) w).
Proof.
  intros Hpar Hc. unfold RescheduleCslTx.
  cbn [sender withSender mCslTxNeigh SetCslTxNeigh neighbors]. rewrite Hpar.
  destruct (Z.gtb_spec (mQueuedMessageCount (neighbors w p)) 0); [lia | reflexivity].
Qed.

Lemma RescheduleCslTx_recover now w p :
  GetParent w = Some p ->
  0 < mQueuedMessageCount (neighbors w p) ->
  mIndirectMessage (neighbors w p) = None ->
  firstIndirect (mSendQueue w) = None ->
  RescheduleCslTx loopFuel now w
  = Done (onNeighbor p ResetIndirectMessageCount (withSender (SetCslTxNeigh (Some p)) w)).
Proof.
  intros Hpar Hc Hmsg Hq. unfold RescheduleCslTx, firstIndirect in *.
  cbn [sender withSender mCslTxNeigh SetCslTxNeigh neighbors mSendQueue]. rewrite Hpar.
  destruct (Z.gtb_spec (mQueuedMessageCount (neighbors w p)) 0); [|lia].
  cbn [negb]. rewrite Hmsg, Hq.
  cbn [sender withSender mCslTxNeigh SetCslTxNeigh neighbors mSendQueue].
  now rewrite Hmsg.
Qed.

Lemma RescheduleCslTx_request now w p m :
  GetParent w = Some p ->
  0 < mQueuedMessageCount (neighbors w p) ->
  mIndirectMessage (neighbors w p) = Some m ->
  slotInputs loopFuel now (neighbors w p) (mCslFrameRequestAheadUs (sender w)) ->
  exists t,
    slotOf now (neighbors w p) (mCslFrameRequestAheadUs (sender w)) t /\
    RescheduleCslTx loopFuel now w
    = Done (call (RequestEnhCslFrameTransmission
                    ((t - now - mCslFrameRequestAheadUs (sender w)) / 1000))
              (withSender (SetCslTxNeigh (Some p)) w)).
Proof.
  intros Hpar Hc Hmsg Hslot.
  destruct (NextTxWindow_slot _ _ _ _ Hslot) as (t & _ & Hmod & Hrange & Hdelay).
  exists t. split; [now split|].
  unfold RescheduleCslTx.
  cbn [sender withSender mCslTxNeigh SetCslTxNeigh neighbors mSendQueue]. rewrite Hpar.
  destruct (Z.gtb_spec (mQueuedMessageCount (neighbors w p)) 0); [|lia].
  cbn [negb]. rewrite Hmsg.
  cbn [sender withSender mCslTxNeigh SetCslTxNeigh neighbors mSendQueue
       mCslFrameRequestAheadUs].
  rewrite Hmsg, Hdelay. reflexivity.
Qed.

Lemma RescheduleCslTx_adopt now w p m :
  GetParent w = Some p ->
  0 < mQueuedMessageCount (neighbors w p) ->
  mIndirectMessage (neighbors w p) = None ->
  firstIndirect (mSendQueue w) = Some m ->
  slotInputs loopFuel now (neighbors w p) (mCslFrameRequestAheadUs (sender w)) ->
  exists t,
    slotOf now (neighbors w p) (mCslFrameRequestAheadUs (sender w)) t /\
    RescheduleCslTx loopFuel now w
    = Done (call (RequestEnhCslFrameTransmission
                    ((t - now - mCslFrameRequestAheadUs (sender w)) / 1000))
              (onNeighbor p (SetIndirectFragmentOffset 0)
                 (onNeighbor p (SetIndirectMessage (Some m))
                    (withSender (SetCslTxNeigh (Some p)) w)))).
Proof.
  intros Hpar Hc Hmsg Hq Hslot.
  destruct (NextTxWindow_slot _ _ _ _ Hslot) as (t & _ & Hmod & Hrange & Hdelay).
  exists t. split; [now split|].
  unfold RescheduleCslTx, firstIndirect in *.
  cbn [sender withSender mCslTxNeigh SetCslTxNeigh neighbors mSendQueue]. rewrite Hpar.
  destruct (Z.gtb_spec (mQueuedMessageCount (neighbors w p)) 0); [|lia].
  cbn [negb]. rewrite Hmsg, Hq.
  rewrite !neighbors_onNeighbor_same.
  cbn [mIndirectMessage SetIndirectFragmentOffset SetIndirectMessage].
  assert (Hd : GetNextCslTransmissionDelay loopFuel now
                 (SetIndirectFragmentOffset 0 (SetIndirectMessage (Some m) (neighbors w p)))
                 (mCslFrameRequestAheadUs (sender w))
               = GetNextCslTransmissionDelay loopFuel now (neighbors w p)
                   (mCslFrameRequestAheadUs (sender w))) by reflexivity.
  cbn [sender onNeighbor withSender mCslFrameRequestAheadUs SetCslTxNeigh].
  change (neighbors (withSender (SetCslTxNeigh (Some p)) w) p) with (neighbors w p).
  rewrite Hd, Hdelay. reflexivity.
Qed.

(** The slot arithmetic reads the CSL parameters only. *)
Lemma slotInputs_cslInfo fuel now n n' ahead :
  cslInfo n' = cslInfo n -> slotInputs fuel now n ahead -> slotInputs fuel now n' ahead.
Proof.
  unfold cslInfo, slotInputs. intros [= _ _ _ -> -> ->]. exact id.
Qed.

Lemma slotOf_cslInfo now n n' ahead t :
  cslInfo n' = cslInfo n -> slotOf now n ahead t -> slotOf now n' ahead t.
Proof.
  unfold cslInfo, slotOf. intros [= _ _ _ -> -> ->]. exact id.
Qed.

Lemma wrap16_small x : 0 <= x < 2^16 -> wrap16 x = x.
Proof. intros H. unfold wrap16. now apply Z.mod_small. Qed.

(** The delay in milliseconds asked of the MAC layer is less than a period. *)
Lemma slotOf_delay now n ahead t :
  slotOf now n ahead t ->
  0 <= (t - now - ahead) / 1000 /\
  (t - now - ahead) / 1000 * 1000 < mCslPeriod n * kUsPerTenSymbols.
Proof.
  intros [_ Hr].
  pose proof (Z.mul_div_le (t - now - ahead) 1000 ltac:(lia)).
  split; [apply Z.div_pos; lia | lia].
Qed.

(** X16. Recovery from a lost message: when the parent's count of queued
    messages is above 0 but it has no indirect message and the send queue has
    no message for indirect transmission, [RescheduleCslTx] resets the count
    to 0 and asks nothing of the MAC layer; no other neighbor is touched, and
    rescheduling again, at any time, changes nothing. *)
Theorem RescheduleCslTx_recovers_count now w p :
  GetParent w = Some p ->
  0 < mQueuedMessageCount (neighbors w p) ->
  mIndirectMessage (neighbors w p) = None ->
  firstIndirect (mSendQueue w) = None ->
  exists w',
    RescheduleCslTx loopFuel now w = Done w' /\
    mQueuedMessageCount (neighbors w' p) = 0 /\
    mIndirectMessage (neighbors w' p) = None /\
    calls w' = calls w /\
    mCslTxNeigh (sender w') = Some p /\
    (forall q, q <> p -> neighbors w' q = neighbors w q) /\
    (forall now', RescheduleCslTx loopFuel now' w' = Done w').
Proof.
  intros Hpar Hc Hmsg Hq. rewrite (RescheduleCslTx_recover now w p Hpar Hc Hmsg Hq).
  eexists. split; [reflexivity|].
  rewrite neighbors_onNeighbor_same. cbn [neighbors withSender].
  split; [reflexivity|]. split; [exact Hmsg|]. split; [reflexivity|].
  split; [reflexivity|]. split.
  - intros q Hne. now rewrite neighbors_onNeighbor_other.
  - intros now'. rewrite (RescheduleCslTx_idle now' _ p).
    + reflexivity.
    + exact Hpar.
    + rewrite neighbors_onNeighbor_same. simpl. lia.
Qed.

(** X17. What [RescheduleCslTx] asks of the MAC layer: for a parent with a
    count above 0 that has an indirect message, or for which the send queue
    has a message for indirect transmission (the first one is then adopted,
    from offset 0), it requests a CSL frame transmission after
    [(t - now - ahead) / 1000] milliseconds, where [t] is the next slot of
    the parent at or after [now + ahead]; the delay is less than one CSL
    period, and the count is left as it is. *)
Theorem RescheduleCslTx_requests_next_slot now w p m :
  GetParent w = Some p ->
  0 < mQueuedMessageCount (neighbors w p) ->
  mIndirectMessage (neighbors w p) = Some m \/
  (mIndirectMessage (neighbors w p) = None /\ firstIndirect (mSendQueue w) = Some m) ->
  slotInputs loopFuel now (neighbors w p) (mCslFrameRequestAheadUs (sender w)) ->
  exists w' t,
    RescheduleCslTx loopFuel now w = Done w' /\
    slotOf now (neighbors w p) (mCslFrameRequestAheadUs (sender w)) t /\
    calls w' = RequestEnhCslFrameTransmission
                 ((t - now - mCslFrameRequestAheadUs (sender w)) / 1000) :: calls w /\
    0 <= (t - now - mCslFrameRequestAheadUs (sender w)) / 1000 /\
    (t - now - mCslFrameRequestAheadUs (sender w)) / 1000 * 1000
      < mCslPeriod (neighbors w p) * kUsPerTenSymbols /\
    mIndirectMessage (neighbors w' p) = Some m /\
    (mIndirectMessage (neighbors w p) = None -> mIndirectFragmentOffset (neighbors w' p) = 0) /\
    mQueuedMessageCount (neighbors w' p) = mQueuedMessageCount (neighbors w p) /\
    mCslTxNeigh (sender w') = Some p.
Proof.
  intros Hpar Hc [Hmsg|[Hmsg Hq]] Hslot.
  - destruct (RescheduleCslTx_request now w p m Hpar Hc Hmsg Hslot) as (t & Ht & Hrun).
    destruct (slotOf_delay _ _ _ _ Ht) as [Hd0 Hd1].
    eexists. exists t. split; [exact Hrun|]. split; [exact Ht|].
    split; [reflexivity|]. split; [exact Hd0|]. split; [exact Hd1|].
    cbn [neighbors call withSender]. split; [exact Hmsg|].
    split; [congruence|]. split; reflexivity.
  - destruct (RescheduleCslTx_adopt now w p m Hpar Hc Hmsg Hq Hslot) as (t & Ht & Hrun).
    destruct (slotOf_delay _ _ _ _ Ht) as [Hd0 Hd1].
    eexists. exists t. split; [exact Hrun|]. split; [exact Ht|].
    split; [reflexivity|]. split; [exact Hd0|]. split; [exact Hd1|].
    cbn [neighbors call]. rewrite !neighbors_onNeighbor_same.
    split; [reflexivity|]. split; [reflexivity|]. split; reflexivity.
Qed.

(** X18. Enqueuing for the parent the sender is working for: the count of
    the parent goes up by one, the message is adopted as its indirect message
    (from offset 0) only when it had none, a message in flight is not
    replaced, and the MAC layer is asked for a transmission at the next
    slot. *)
Theorem AddMessageForCslPeer_for_parent aMessage now w p :
  mCslTxNeigh (sender w) = Some p ->
  GetParent w = Some p ->
  0 <= mQueuedMessageCount (neighbors w p) < 2^16 - 1 ->
  slotInputs loopFuel now (neighbors w p) (mCslFrameRequestAheadUs (sender w)) ->
  exists w' t,
    AddMessageForCslPeer loopFuel aMessage p now w = Done w' /\
    mQueuedMessageCount (neighbors w' p) = mQueuedMessageCount (neighbors w p) + 1 /\
    mIndirectMessage (neighbors w' p)
    = Some (default aMessage (mIndirectMessage (neighbors w p))) /\
    (mIndirectMessage (neighbors w p) = None -> mIndirectFragmentOffset (neighbors w' p) = 0) /\
    (mIndirectMessage (neighbors w p) <> None ->
     mIndirectFragmentOffset (neighbors w' p) = mIndirectFragmentOffset (neighbors w p)) /\
    slotOf now (neighbors w p) (mCslFrameRequestAheadUs (sender w)) t /\
    calls w' = RequestEnhCslFrameTransmission
                 ((t - now - mCslFrameRequestAheadUs (sender w)) / 1000) :: calls w.
Proof.
  intros Hneigh Hpar Hc Hslot. unfold AddMessageForCslPeer, enqueue. rewrite Hneigh.
  destruct (mIndirectMessage (neighbors w p)) as [m0|] eqn:Hmsg; cbn [andThen].
  - set (w1 := onNeighbor p IncrementIndirectMessageCount w).
    assert (Hn1 : neighbors w1 p = IncrementIndirectMessageCount (neighbors w p))
      by apply neighbors_onNeighbor_same.
    destruct (RescheduleCslTx_request now w1 p m0) as (t & Ht & Hrun).
    + exact Hpar.
    + rewrite Hn1. simpl. rewrite wrap16_small; lia.
    + rewrite Hn1. exact Hmsg.
    + rewrite Hn1. exact Hslot.
    + eexists. exists t. split; [exact Hrun|].
      cbn [neighbors call withSender]. rewrite Hn1. simpl.
      rewrite wrap16_small by lia.
      split; [reflexivity|]. split; [exact Hmsg|]. split; [discriminate|].
      split; [reflexivity|]. split; [|reflexivity].
      rewrite Hn1 in Ht. exact Ht.
  - set (w1 := onNeighbor p IncrementIndirectMessageCount
                 (onNeighbor p (SetIndirectFragmentOffset 0)
                    (onNeighbor p (SetIndirectMessage (Some aMessage)) w))).
    assert (Hn1 : neighbors w1 p
                  = IncrementIndirectMessageCount
                      (SetIndirectFragmentOffset 0
                         (SetIndirectMessage (Some aMessage) (neighbors w p))))
      by (unfold w1; now rewrite !neighbors_onNeighbor_same).
    destruct (RescheduleCslTx_request now w1 p aMessage) as (t & Ht & Hrun).
    + exact Hpar.
    + rewrite Hn1. simpl. rewrite wrap16_small; lia.
    + rewrite Hn1. reflexivity.
    + rewrite Hn1. exact Hslot.
    + eexists. exists t. split; [exact Hrun|].
      cbn [neighbors call withSender]. rewrite Hn1. simpl.
      rewrite wrap16_small by lia.
      split; [reflexivity|]. split; [reflexivity|]. split; [reflexivity|].
      split; [congruence|]. split; [|reflexivity].
      rewrite Hn1 in Ht. exact Ht.
Qed.

(** X19. A frame in flight whose message is no longer the indirect message
    of its neighbor: [Update] forgets the neighbor and clears the next
    offset, and the completion of that frame, with any result, then only
    clears [mCslTxMessage]: no neighbor, counter or queue is touched and
    nothing is rescheduled; a frame request in between gets no frame. *)
Theorem Update_drops_frame_in_flight now w q m :
  mCslTxMessage (sender w) = Some m ->
  mCslTxNeigh (sender w) = Some q ->
  samePointer (mIndirectMessage (neighbors w q)) (Some m) = false ->
  exists w1,
    Update loopFuel now w = Done w1 /\
    mCslTxNeigh (sender w1) = None /\
    mMessageNextOffset (sender w1) = 0 /\
    neighbors w1 = neighbors w /\ calls w1 = calls w /\
    (forall fr now',
       HandleFrameRequest kCslReceiverEnable GetMacSourceAddress GetMacDestinationAddress
         IsLinkLocal PrepareDataFrameWithNoMeshHeader loopFuel fr now' w1 = Done (None, w1)) /\
    (forall fr e now',
       HandleSentFrame kMaxEnhCslTriggeredTxAttempts sendQueueWithout loopFuel fr e now' w1
       = Done (withSender (SetCslTxMessage None) w1)).
Proof.
  intros Hmsg Hneigh Hdiff. unfold Update. rewrite Hmsg, Hneigh, Hdiff.
  cbn [negb]. eexists. split; [reflexivity|].
  repeat (split; [reflexivity|]). intros. reflexivity.
Qed.

(** *** What a completion leaves alone *)

(** The CSL parameters and the attempts of a neighbor, and the calls of
    [BecomeDetached] made so far. *)
Definition kept (w : World) (q : NeighborRef) : (Z * bool * Z * Z * Z * Z) * Z * list Event :=
  (cslInfo (neighbors w q), mCslTxAttempts (neighbors w q),
   List.filter isBecomeDetached (calls w)).

Lemma kept_onNeighbor p f w q :
  (forall n, cslInfo (f n) = cslInfo n /\ mCslTxAttempts (f n) = mCslTxAttempts n) ->
  kept (onNeighbor p f w) q = kept w q.
Proof.
  intros Hf. unfold kept. simpl. destruct (decide (q = p)) as [->|]; [|reflexivity].
  destruct (Hf (neighbors w p)) as [-> ->]. reflexivity.
Qed.

Lemma RescheduleCslTx_kept now w w' q :
  RescheduleCslTx loopFuel now w = Done w' -> kept w' q = kept w q.
Proof.
  unfold RescheduleCslTx. cbn [sender withSender mCslTxNeigh SetCslTxNeigh].
  destruct (GetParent w) as [p|]; [|discriminate].
  cbn [neighbors withSender].
  destruct (negb (mQueuedMessageCount (neighbors w p) >? 0)).
  { intros [= <-]. reflexivity. }
  set (w1 := match mIndirectMessage (neighbors w p) with
             | None => _ | Some _ => _ end).
  assert (H1 : kept w1 q = kept w q).
  { unfold w1. destruct (mIndirectMessage (neighbors w p)); [reflexivity|].
    cbn [mSendQueue withSender].
    destruct (List.find _ _); [|reflexivity].
    rewrite !kept_onNeighbor by (intros; split; reflexivity). reflexivity. }
  destruct (mIndirectMessage (neighbors w1 p)).
  - destruct (GetNextCslTransmissionDelay _ _ _ _) as [[d c]|]; [|discriminate].
    simpl. intros [= <-]. exact H1.
  - intros [= <-]. rewrite kept_onNeighbor by (intros; split; reflexivity). exact H1.
Qed.

Lemma HandleSentFrameToNeighbor_kept fr e p now w w' q :
  HandleSentFrameToNeighbor sendQueueWithout loopFuel fr e p now w = Done w' ->
  kept w' q = kept w q.
Proof.
  unfold HandleSentFrameToNeighbor.
  destruct (mIndirectMessage (neighbors w p)) as [m|].
  - destruct (mMessageNextOffset (sender w) <? msgLength m).
    + intros H. apply RescheduleCslTx_kept with (q := q) in H.
      rewrite H. now apply kept_onNeighbor.
    + destruct (negb (mQueuedMessageCount _ >? 0)); [discriminate|].
      intros H. apply RescheduleCslTx_kept with (q := q) in H.
      rewrite H. clear H. unfold kept.
      destruct (msgType m), (bool_decide (e = kErrorNone)), (negb (txIsEmpty fr));
        simpl; destruct (decide (q = p)) as [->|]; try reflexivity;
        destruct (decide (p = p)); try congruence; reflexivity.
  - apply RescheduleCslTx_kept.
Qed.

Lemma retryLater_kept fr e p now w w' q :
  retryLater sendQueueWithout loopFuel fr e p now w = Done w' ->
  kept w' q = kept w q.
Proof.
  intros Hrun. unfold retryLater in Hrun.
  set (w1 := if negb (txIsEmpty fr) then _ else w) in Hrun.
  assert (H1 : kept w1 q = kept w q).
  { unfold w1. destruct (negb (txIsEmpty fr)); [|reflexivity].
    destruct (txSecurityEnabled fr && txHeaderUpdated fr);
      rewrite !kept_onNeighbor by (intros; split; reflexivity); reflexivity. }
  rewrite <- H1.
  destruct (mIndirectMessage (neighbors w1 p)) as [m|]; [|discriminate].
  destruct (_ && _ && _) in Hrun.
  - destruct (HandleSentFrameToNeighbor sendQueueWithout loopFuel fr e p now w1)
      as [w2|] eqn:H2; [|discriminate].
    simpl in Hrun. apply RescheduleCslTx_kept with (q := q) in Hrun.
    rewrite Hrun. apply HandleSentFrameToNeighbor_kept with (q := q) in H2.
    rewrite <- H2. reflexivity.
  - simpl in Hrun. now apply RescheduleCslTx_kept with (q := q) in Hrun.
Qed.

(** X20. The attempts are a 6-bit field: with a maximum of 64 attempts or
    more (the peer's own or the configured one), a [kErrorNoAck] completion
    never gives the peer up.  The attempts go to [(attempts + 1) mod 64],
    so from 63 back to 0, the peer stays synchronized, [BecomeDetached] is
    not called and the maximum is still 64 or more; and the completion
    returns for a parent whose slot arithmetic is in range. *)
Theorem HandleSentFrame_NoAck_attempts_wrap aFrame aRadioNow w p :
  mCslTxNeigh (sender w) = Some p ->
  (txSecurityEnabled aFrame = true -> txHeaderUpdated aFrame = true) ->
  64 <= GetEnhCslMaxTxAttempts kMaxEnhCslTriggeredTxAttempts (neighbors w p) ->
  (forall w',
     HandleSentFrame kMaxEnhCslTriggeredTxAttempts sendQueueWithout loopFuel
       aFrame kErrorNoAck aRadioNow w = Done w' ->
     mCslSynchronized (neighbors w' p) = mCslSynchronized (neighbors w p) /\
     mCslTxAttempts (neighbors w' p) = wrap6 (mCslTxAttempts (neighbors w p) + 1) /\
     List.filter isBecomeDetached (calls w') = List.filter isBecomeDetached (calls w) /\
     64 <= GetEnhCslMaxTxAttempts kMaxEnhCslTriggeredTxAttempts (neighbors w' p)) /\
  (forall m,
     GetParent w = Some p ->
     mIndirectMessage (neighbors w p) = Some m ->
     msgSubType m <> kSubTypeMleChildIdRequest ->
     slotInputs loopFuel aRadioNow (neighbors w p) (mCslFrameRequestAheadUs (sender w)) ->
     exists w',
       HandleSentFrame kMaxEnhCslTriggeredTxAttempts sendQueueWithout loopFuel
         aFrame kErrorNoAck aRadioNow w = Done w').
Proof.
  intros Hneigh Hassert Hmax.
  set (w1 := onNeighbor p IncrementEnhCslTxAttempts
               (withSender (SetCslTxNeigh None) (withSender (SetCslTxMessage None) w))).
  assert (Hn1 : neighbors w1 p = IncrementEnhCslTxAttempts (neighbors w p))
    by (unfold w1; rewrite neighbors_onNeighbor_same; reflexivity).
  assert (Hrun : HandleSentFrame kMaxEnhCslTriggeredTxAttempts sendQueueWithout loopFuel
                   aFrame kErrorNoAck aRadioNow w
                 = retryLater sendQueueWithout loopFuel aFrame kErrorNoAck p aRadioNow w1).
  { unfold HandleSentFrame. rewrite Hneigh. unfold HandleSentFrameFor.
    assert (Hok : negb (negb (txSecurityEnabled aFrame) || txHeaderUpdated aFrame) = false).
    { destruct (txSecurityEnabled aFrame); [|reflexivity].
      now rewrite (Hassert eq_refl). }
    rewrite Hok. fold w1. rewrite Hn1.
    change (GetEnhCslMaxTxAttempts kMaxEnhCslTriggeredTxAttempts
              (IncrementEnhCslTxAttempts (neighbors w p)))
      with (GetEnhCslMaxTxAttempts kMaxEnhCslTriggeredTxAttempts (neighbors w p)).
    change (mCslTxAttempts (IncrementEnhCslTxAttempts (neighbors w p)))
      with (wrap6 (mCslTxAttempts (neighbors w p) + 1)).
    assert (Hlt : wrap6 (mCslTxAttempts (neighbors w p) + 1) < 64)
      by (unfold wrap6; apply Z.mod_pos_bound; lia).
    destruct (Z.leb_spec (GetEnhCslMaxTxAttempts kMaxEnhCslTriggeredTxAttempts (neighbors w p))
                (wrap6 (mCslTxAttempts (neighbors w p) + 1))); [lia | reflexivity]. }
  rewrite Hrun. split.
  - intros w' Hdone. apply retryLater_kept with (q := p) in Hdone.
    unfold kept in Hdone. rewrite Hn1 in Hdone.
    injection Hdone as _ Hsync Hm _ _ _ Hatt Hcalls.
    split; [exact Hsync|]. split; [exact Hatt|]. split; [exact Hcalls|].
    unfold GetEnhCslMaxTxAttempts in *. rewrite Hm. exact Hmax.
  - intros m Hpar Hmsg Hsub Hslot.
    apply (retryLater_returns sendQueueWithout loopFuel aFrame kErrorNoAck p aRadioNow w1 m).
    + exact Hpar.
    + rewrite Hn1. exact Hmsg.
    + exact Hsub.
    + rewrite Hn1. exact Hslot.
Qed.

(** *** A frame that was acknowledged *)

Lemma HandleSentFrame_success aFrame now w p :
  mCslTxNeigh (sender w) = Some p ->
  HandleSentFrame kMaxEnhCslTriggeredTxAttempts sendQueueWithout loopFuel aFrame kErrorNone now w
  = HandleSentFrameToNeighbor sendQueueWithout loopFuel aFrame kErrorNone p now
      (onNeighbor p ResetEnhCslTxAttempts
         (withSender (SetCslTxNeigh None) (withSender (SetCslTxMessage None) w))).
Proof. intros Hneigh. unfold HandleSentFrame. now rewrite Hneigh. Qed.

Lemma HandleSentFrameToNeighbor_more aFrame e p now w m :
  mIndirectMessage (neighbors w p) = Some m ->
  mMessageNextOffset (sender w) < msgLength m ->
  HandleSentFrameToNeighbor sendQueueWithout loopFuel aFrame e p now w
  = RescheduleCslTx loopFuel now
      (onNeighbor p (SetIndirectFragmentOffset (mMessageNextOffset (sender w))) w).
Proof.
  intros Hmsg Hoff. unfold HandleSentFrameToNeighbor. rewrite Hmsg.
  destruct (Z.ltb_spec (mMessageNextOffset (sender w)) (msgLength m)); [reflexivity | lia].
Qed.

(** The world after the last fragment of [message], before rescheduling. *)
Definition messageDone (aFrame : TxFrame) (e : Error) (p : NeighborRef) (message : Message)
    (w : World) : World :=
  let w := onNeighbor p (SetIndirectMessage None) w in
  let w := call (AddMessageTxStatus p true) w in
  let w := onNeighbor p DecrementIndirectMessageCount w in
  let w := if negb (txIsEmpty aFrame) then call (LogMessage message e) w else w in
  let w :=
    match msgType message with
    | kTypeIp6 => if bool_decide (e = kErrorNone) then IncrementTxSuccess w
                  else IncrementTxFailure w
    | _ => w
    end in
  doRemoveMessageIfNoPendingTx sendQueueWithout message w.

Lemma HandleSentFrameToNeighbor_last aFrame e p now w m :
  mIndirectMessage (neighbors w p) = Some m ->
  msgLength m <= mMessageNextOffset (sender w) ->
  0 < mQueuedMessageCount (neighbors w p) ->
  HandleSentFrameToNeighbor sendQueueWithout loopFuel aFrame e p now w
  = RescheduleCslTx loopFuel now (messageDone aFrame e p m w).
Proof.
  intros Hmsg Hoff Hc. unfold HandleSentFrameToNeighbor, messageDone. rewrite Hmsg.
  destruct (Z.ltb_spec (mMessageNextOffset (sender w)) (msgLength m)); [lia|].
  cbn [neighbors call]. rewrite neighbors_onNeighbor_same.
  cbn [mQueuedMessageCount SetIndirectMessage].
  destruct (Z.gtb_spec (mQueuedMessageCount (neighbors w p)) 0); [reflexivity | lia].
Qed.

Lemma messageDone_fields aFrame e p m w :
  neighbors (messageDone aFrame e p m w) p
  = DecrementIndirectMessageCount (SetIndirectMessage None (neighbors w p)) /\
  sender (messageDone aFrame e p m w) = sender w /\
  GetParent (messageDone aFrame e p m w) = GetParent w /\
  mSendQueue (messageDone aFrame e p m w) = sendQueueWithout m (mSendQueue w) /\
  mTxSuccess (messageDone aFrame e p m w)
  = (if bool_decide (msgType m = kTypeIp6) && bool_decide (e = kErrorNone)
     then wrap32 (mTxSuccess w + 1) else mTxSuccess w) /\
  mTxFailure (messageDone aFrame e p m w)
  = (if bool_decide (msgType m = kTypeIp6) && negb (bool_decide (e = kErrorNone))
     then wrap32 (mTxFailure w + 1) else mTxFailure w) /\
  calls (messageDone aFrame e p m w)
  = RemoveMessageIfNoPendingTx m
      :: (if txIsEmpty aFrame then [] else [LogMessage m e])
      ++ AddMessageTxStatus p true :: calls w.
Proof.
  unfold messageDone.
  destruct (msgType m), (bool_decide (e = kErrorNone)), (txIsEmpty aFrame);
    simpl; destruct (decide (p = p)); try congruence; repeat split.
Qed.

(** X21. The acknowledgement of a fragment that is not the last one of the
    message: the attempts of the peer go to 0, its fragment offset moves to
    the next offset of the frame context, the message stays its indirect
    message and the count stays as it is, no counter and no queue changes,
    and the one call made is the request for a transmission at the next
    slot. *)
Theorem HandleSentFrame_success_more_fragments aFrame now w p m :
  mCslTxNeigh (sender w) = Some p ->
  GetParent w = Some p ->
  mIndirectMessage (neighbors w p) = Some m ->
  mMessageNextOffset (sender w) < msgLength m ->
  0 < mQueuedMessageCount (neighbors w p) ->
  slotInputs loopFuel now (neighbors w p) (mCslFrameRequestAheadUs (sender w)) ->
  exists w' t,
    HandleSentFrame kMaxEnhCslTriggeredTxAttempts sendQueueWithout loopFuel
      aFrame kErrorNone now w = Done w' /\
    mIndirectFragmentOffset (neighbors w' p) = mMessageNextOffset (sender w) /\
    mIndirectMessage (neighbors w' p) = Some m /\
    mQueuedMessageCount (neighbors w' p) = mQueuedMessageCount (neighbors w p) /\
    mCslTxAttempts (neighbors w' p) = 0 /\
    mCslTxMessage (sender w') = None /\
    mCslTxNeigh (sender w') = Some p /\
    mTxSuccess w' = mTxSuccess w /\ mTxFailure w' = mTxFailure w /\
    mSendQueue w' = mSendQueue w /\
    slotOf now (neighbors w p) (mCslFrameRequestAheadUs (sender w)) t /\
    calls w' = RequestEnhCslFrameTransmission
                 ((t - now - mCslFrameRequestAheadUs (sender w)) / 1000) :: calls w.
Proof.
  intros Hneigh Hpar Hmsg Hoff Hc Hslot.
  rewrite (HandleSentFrame_success aFrame now w p Hneigh).
  set (w0 := onNeighbor p ResetEnhCslTxAttempts
               (withSender (SetCslTxNeigh None) (withSender (SetCslTxMessage None) w))).
  assert (Hn0 : neighbors w0 p = ResetEnhCslTxAttempts (neighbors w p))
    by (unfold w0; rewrite neighbors_onNeighbor_same; reflexivity).
  rewrite (HandleSentFrameToNeighbor_more aFrame kErrorNone p now w0 m)
    by (rewrite ?Hn0; assumption).
  set (w1 := onNeighbor p (SetIndirectFragmentOffset (mMessageNextOffset (sender w0))) w0).
  assert (Hn1 : neighbors w1 p
                = SetIndirectFragmentOffset (mMessageNextOffset (sender w))
                    (ResetEnhCslTxAttempts (neighbors w p)))
    by (unfold w1; rewrite neighbors_onNeighbor_same, Hn0; reflexivity).
  destruct (RescheduleCslTx_request now w1 p m) as (t & Ht & Hrun).
  - exact Hpar.
  - rewrite Hn1. exact Hc.
  - rewrite Hn1. exact Hmsg.
  - rewrite Hn1. exact Hslot.
  - rewrite Hrun. eexists. exists t. split; [reflexivity|].
    cbn [neighbors call withSender]. rewrite Hn1.
    repeat (split; [reflexivity|]). split; [exact Hmsg|].
    repeat (split; [reflexivity|]). split; [|reflexivity].
    rewrite Hn1 in Ht. exact Ht.
Qed.

(** X22. The acknowledgement of the last fragment of a message: the
    attempts of the peer go to 0, [mTxSuccess] goes up by one for an IPv6
    message, the message is released ([AddMessageTxStatus(true)], the log
    entry of a frame that is not empty, [RemoveMessageIfNoPendingTx]), and
    the sender moves on: with more messages counted, the first message for
    indirect transmission left in the send queue becomes the indirect
    message and a transmission is requested; when the queue has none, the
    count is reset to 0; with no more counted, nothing is requested. *)
Theorem HandleSentFrame_success_last_fragment aFrame now w p m :
  mCslTxNeigh (sender w) = Some p ->
  GetParent w = Some p ->
  mIndirectMessage (neighbors w p) = Some m ->
  msgLength m <= mMessageNextOffset (sender w) ->
  0 < mQueuedMessageCount (neighbors w p) < 2^16 ->
  slotInputs loopFuel now (neighbors w p) (mCslFrameRequestAheadUs (sender w)) ->
  let c := mQueuedMessageCount (neighbors w p) in
  let next := if 1 <? c then firstIndirect (sendQueueWithout m (mSendQueue w)) else None in
  exists w' pre,
    HandleSentFrame kMaxEnhCslTriggeredTxAttempts sendQueueWithout loopFuel
      aFrame kErrorNone now w = Done w' /\
    mCslTxAttempts (neighbors w' p) = 0 /\
    mIndirectMessage (neighbors w' p) = next /\
    mQueuedMessageCount (neighbors w' p)
    = match next with Some _ => c - 1 | None => 0 end /\
    mSendQueue w' = sendQueueWithout m (mSendQueue w) /\
    mTxSuccess w' = (if bool_decide (msgType m = kTypeIp6)
                     then wrap32 (mTxSuccess w + 1) else mTxSuccess w) /\
    mTxFailure w' = mTxFailure w /\
    mCslTxMessage (sender w') = None /\
    mCslTxNeigh (sender w') = Some p /\
    calls w' = pre ++ RemoveMessageIfNoPendingTx m
                 :: (if txIsEmpty aFrame then [] else [LogMessage m kErrorNone])
                 ++ AddMessageTxStatus p true :: calls w /\
    match next with
    | Some _ => exists d, pre = [RequestEnhCslFrameTransmission d]
    | None => pre = []
    end.
Proof.
  intros Hneigh Hpar Hmsg Hoff Hc Hslot c next.
  rewrite (HandleSentFrame_success aFrame now w p Hneigh).
  set (w0 := onNeighbor p ResetEnhCslTxAttempts
               (withSender (SetCslTxNeigh None) (withSender (SetCslTxMessage None) w))).
  assert (Hn0 : neighbors w0 p = ResetEnhCslTxAttempts (neighbors w p))
    by (unfold w0; rewrite neighbors_onNeighbor_same; reflexivity).
  rewrite (HandleSentFrameToNeighbor_last aFrame kErrorNone p now w0 m)
    by (rewrite ?Hn0; first [assumption | apply Hc]).
  destruct (messageDone_fields aFrame kErrorNone p m w0)
    as (Hn & Hs & Hp & Hq & Hok & Hfail & Hcalls).
  set (w3 := messageDone aFrame kErrorNone p m w0) in *.
  rewrite Hn0 in Hn.
  rewrite andb_true_r in Hok. rewrite andb_false_r in Hfail.
  assert (Hc3 : mQueuedMessageCount (neighbors w3 p) = c - 1).
  { rewrite Hn. simpl. fold c. apply wrap16_small. lia. }
  assert (Hm3 : mIndirectMessage (neighbors w3 p) = None) by (now rewrite Hn).
  assert (Ha3 : mCslTxAttempts (neighbors w3 p) = 0) by (now rewrite Hn).
  assert (Hslot3 : slotInputs loopFuel now (neighbors w3 p) (mCslFrameRequestAheadUs (sender w3))).
  { rewrite Hn, Hs. exact Hslot. }
  unfold next. destruct (Z.ltb_spec 1 c) as [Hmore|Hone].
  - destruct (firstIndirect (sendQueueWithout m (mSendQueue w))) as [m'|] eqn:Hnext.
    + destruct (RescheduleCslTx_adopt now w3 p m') as (t & _ & Hrun).
      * now rewrite Hp.
      * lia.
      * exact Hm3.
      * now rewrite Hq.
      * exact Hslot3.
      * rewrite Hrun. eexists. eexists [_]. split; [reflexivity|].
        cbn [neighbors call sender mSendQueue mTxSuccess mTxFailure calls onNeighbor
             withSender].
        destruct (decide (p = p)); [|congruence].
        cbn [mCslTxAttempts mIndirectMessage mQueuedMessageCount SetIndirectFragmentOffset
             SetIndirectMessage].
        rewrite Ha3, Hc3, Hq, Hok, Hfail, Hcalls, Hs.
        repeat (split; [reflexivity|]). eauto.
    + rewrite (RescheduleCslTx_recover now w3 p) by (rewrite ?Hp, ?Hq; first [assumption | lia]).
      eexists. exists []. split; [reflexivity|].
      cbn [neighbors call sender mSendQueue mTxSuccess mTxFailure calls onNeighbor
           withSender].
      destruct (decide (p = p)); [|congruence].
      cbn [mCslTxAttempts mIndirectMessage mQueuedMessageCount ResetIndirectMessageCount
           SetIndirectMessageCount].
      rewrite Ha3, Hm3, Hq, Hok, Hfail, Hcalls, Hs.
      repeat (split; [reflexivity|]). reflexivity.
  - rewrite (RescheduleCslTx_idle now w3 p) by (rewrite ?Hp; first [assumption | lia]).
    eexists. exists []. split; [reflexivity|].
    cbn [neighbors call sender mSendQueue mTxSuccess mTxFailure calls withSender].
    rewrite Ha3, Hm3, Hc3, Hq, Hok, Hfail, Hcalls, Hs.
    split; [reflexivity|]. split; [reflexivity|]. split; [lia|].
    repeat (split; [reflexivity|]). reflexivity.
Qed.

(** *** The frame handed to the MAC layer *)

Lemma wrap32_base_delay a t : wrap32 (wrap32 a + wrap32 (wrap64 (t - a))) = wrap32 t.
Proof.
  unfold wrap32, wrap64.
  assert (H64 : forall x, (x mod 2^64) mod 2^32 = x mod 2^32).
  { intros x. change (2^64) with (2^32 * 2^32). rewrite Z.rem_mul_r by lia.
    rewrite Z.mul_comm, Z.mod_add by lia. apply Z.mod_mod. lia. }
  rewrite H64, <- Zplus_mod. f_equal. lia.
Qed.

Lemma markRetransmission_flag n frame :
  txIsARetransmission (markRetransmission kCslReceiverEnable n frame)
  = (mCslTxAttempts n >? 0).
Proof.
  unfold markRetransmission. destruct (mCslTxAttempts n >? 0); [|reflexivity].
  cbv zeta. destruct (_ && _); reflexivity.
Qed.

(** X23. A frame that [HandleFrameRequest] hands to the MAC layer, for a
    peer whose slot arithmetic is in range: the peer is synchronized and has
    an indirect message, an IPv6 message that is not a secured Child ID
    Request, which becomes [mCslTxMessage]; the frame is sent without
    CSMA-CA at base time plus delay equal, modulo 2^32, to the next slot [t]
    of the peer at or after the radio clock, and that slot is no further
    away than the request-ahead time plus the guard interval of 1500 us; the
    frame is marked as a retransmission exactly when the attempts are above
    0.  No neighbor is written and no call is made. *)
Theorem HandleFrameRequest_frame_timing aTxFrame now w p fr w' :
  mCslTxNeigh (sender w) = Some p ->
  slotInputs loopFuel now (neighbors w p) 0 ->
  HandleFrameRequest kCslReceiverEnable GetMacSourceAddress GetMacDestinationAddress
    IsLinkLocal PrepareDataFrameWithNoMeshHeader loopFuel aTxFrame now w
  = Done (Some fr, w') ->
  exists m t,
    mIndirectMessage (neighbors w p) = Some m /\
    msgType m = kTypeIp6 /\
    (msgSubType m = kSubTypeMleChildIdRequest -> msgLinkSecurityEnabled m = false) /\
    IsEnhCslSynchronized (neighbors w p) = true /\
    mCslTxMessage (sender w') = Some m /\
    neighbors w' = neighbors w /\ calls w' = calls w /\
    slotOf now (neighbors w p) 0 t /\
    t - now <= wrap32 (mCslFrameRequestAheadUs (sender w) + kFramePreparationGuardInterval) /\
    txTxDelayBaseTime fr = wrap32 (mLastRxTimestamp (neighbors w p)) /\
    wrap32 (txTxDelayBaseTime fr + txTxDelay fr) = wrap32 t /\
    txCsmaCaEnabled fr = false /\
    txIsARetransmission fr = (mCslTxAttempts (neighbors w p) >? 0).
Proof.
  intros Hneigh Hslot.
  destruct (NextTxWindow_slot _ _ _ _ Hslot) as (t & _ & Hmod & Hrange & Hdelay).
  unfold HandleFrameRequest. rewrite Hneigh.
  destruct (IsEnhCslSynchronized (neighbors w p)) eqn:Hsync; [|discriminate]. cbn [negb].
  destruct (PrepareFrameForNeighbor _ _ _ _ _ _ _) as [[err frame] off] eqn:Hprep.
  destruct (bool_decide (err = kErrorNone)) eqn:Herr; [|discriminate].
  apply bool_decide_eq_true in Herr. subst err. cbn [negb].
  cbn [sender withSender mCslTxMessage SetCslTxMessage SetMessageNextOffset
       mCslFrameRequestAheadUs].
  destruct (mIndirectMessage (neighbors w p)) as [m|] eqn:Hmsg; [|discriminate].
  rewrite Hdelay. cbn [andThen].
  destruct (Z.leb_spec (t - now - 0)
              (wrap32 (mCslFrameRequestAheadUs (sender w) + kFramePreparationGuardInterval)))
    as [Hnear|]; [|discriminate].
  cbn [negb]. intros [= <- <-].
  assert (Hm : msgType m = kTypeIp6 /\
               (msgSubType m = kSubTypeMleChildIdRequest -> msgLinkSecurityEnabled m = false)).
  { unfold PrepareFrameForNeighbor in Hprep. rewrite Hmsg in Hprep.
    destruct (msgType m); try discriminate. split; [reflexivity|].
    destruct (PrepareDataFrame _ _ _ _ _ _ _) as [f o].
    intros Hsub. rewrite Hsub in Hprep.
    destruct (msgLinkSecurityEnabled m); [discriminate | reflexivity]. }
  exists m, t. destruct Hm as [Hty Hcid].
  split; [reflexivity|]. split; [exact Hty|]. split; [exact Hcid|].
  split; [reflexivity|]. split; [reflexivity|]. split; [reflexivity|].
  split; [reflexivity|]. split; [now split|]. split; [lia|].
  split; [reflexivity|]. split; [apply wrap32_base_delay|]. split; [reflexivity|].
  apply markRetransmission_flag.
Qed.

(** *** Clearing a peer *)

Lemma removeAll_fields l :
  forall w,
    let w' := fold_left (fun w m => doRemoveMessageIfNoPendingTx sendQueueWithout m w) l w in
    neighbors w' = neighbors w /\ sender w' = sender w /\ GetParent w' = GetParent w /\
    mTxSuccess w' = mTxSuccess w /\ mTxFailure w' = mTxFailure w /\
    calls w' = rev (RemoveMessageIfNoPendingTx <$> l) ++ calls w /\
    mSendQueue w' = fold_left (fun q m => sendQueueWithout m q) l (mSendQueue w).
Proof.
  induction l as [|m l IH]; intros w; [now repeat split|].
  cbn [fold_left]. destruct (IH (doRemoveMessageIfNoPendingTx sendQueueWithout m w))
    as (Hn & Hs & Hp & Hok & Hfail & Hcalls & Hq).
  split; [exact Hn|]. split; [exact Hs|]. split; [exact Hp|].
  split; [exact Hok|]. split; [exact Hfail|]. split; [|exact Hq].
  rewrite Hcalls. rewrite fmap_cons. cbn [rev]. rewrite <- app_assoc. reflexivity.
Qed.

(** [Update] for a parent with nothing counted neither writes a neighbor nor
    calls anything. *)
Lemma Update_nothing_counted now w p :
  GetParent w = Some p ->
  mQueuedMessageCount (neighbors w p) = 0 ->
  exists w',
    Update loopFuel now w = Done w' /\
    neighbors w' = neighbors w /\ calls w' = calls w /\ mSendQueue w' = mSendQueue w /\
    mTxSuccess w' = mTxSuccess w /\ mTxFailure w' = mTxFailure w.
Proof.
  intros Hpar Hc. unfold Update.
  destruct (mCslTxMessage (sender w)) as [m|].
  - destruct (mCslTxNeigh (sender w)) as [q|]; [|eexists; now repeat split].
    destruct (negb _); eexists; now repeat split.
  - rewrite (RescheduleCslTx_idle now w p Hpar) by lia.
    eexists. now repeat split.
Qed.

(** X24. Clearing the parent: with a count above 0,
    [ClearAllMessagesForCslPeer] returns, calls [RemoveMessageIfNoPendingTx]
    for every message of the send queue, in order, and nothing else, leaves
    the parent with no indirect message, a count of 0 and 0 attempts, and
    touches no other neighbor and no counter; clearing again, at any time,
    changes nothing. *)
Theorem ClearAllMessagesForCslPeer_clears now w p :
  GetParent w = Some p ->
  0 < mQueuedMessageCount (neighbors w p) ->
  exists w',
    ClearAllMessagesForCslPeer sendQueueWithout loopFuel p now w = Done w' /\
    mIndirectMessage (neighbors w' p) = None /\
    mQueuedMessageCount (neighbors w' p) = 0 /\
    mCslTxAttempts (neighbors w' p) = 0 /\
    (forall q, q <> p -> neighbors w' q = neighbors w q) /\
    calls w' = rev (RemoveMessageIfNoPendingTx <$> mSendQueue w) ++ calls w /\
    mSendQueue w' = fold_left (fun q m => sendQueueWithout m q) (mSendQueue w) (mSendQueue w) /\
    mTxSuccess w' = mTxSuccess w /\ mTxFailure w' = mTxFailure w /\
    (forall now', ClearAllMessagesForCslPeer sendQueueWithout loopFuel p now' w' = Done w').
Proof.
  intros Hpar Hc. unfold ClearAllMessagesForCslPeer at 1.
  destruct (Z.gtb_spec (mQueuedMessageCount (neighbors w p)) 0); [|lia]. cbn [negb].
  destruct (removeAll_fields (mSendQueue w) w) as (Hn & Hs & Hp & Hok & Hfail & Hcalls & Hq).
  set (w1 := fold_left _ (mSendQueue w) w) in *.
  set (w4 := onNeighbor p ResetEnhCslTxAttempts
               (onNeighbor p ResetIndirectMessageCount
                  (onNeighbor p (SetIndirectMessage None) w1))).
  assert (Hn4 : neighbors w4 p
                = ResetEnhCslTxAttempts
                    (ResetIndirectMessageCount (SetIndirectMessage None (neighbors w p))))
    by (unfold w4; rewrite !neighbors_onNeighbor_same, Hn; reflexivity).
  destruct (Update_nothing_counted now w4 p) as (w' & Hrun & Hn' & Hcalls' & Hq' & Hok' & Hfail').
  { change (GetParent w4) with (GetParent w1). now rewrite Hp. }
  { now rewrite Hn4. }
  exists w'. split; [exact Hrun|]. rewrite Hn', Hcalls', Hq', Hok', Hfail', Hn4.
  split; [reflexivity|]. split; [reflexivity|]. split; [reflexivity|].
  split.
  { intros q Hne. unfold w4. rewrite !neighbors_onNeighbor_other by assumption.
    now rewrite Hn. }
  split; [exact Hcalls|]. split; [exact Hq|]. split; [exact Hok|]. split; [exact Hfail|].
  intros now'. unfold ClearAllMessagesForCslPeer. now rewrite Hn', Hn4.
Qed.

(** *** The request-ahead time and the missing parent *)

(** X25. The request-ahead time of the constructor: without a bus speed it
    is the configured value; with a bus speed of at most 2^32 - 12 * 10^8 Hz
    it is the configured value plus the time 150 bytes take on the bus in
    microseconds, rounded up. *)
Theorem InitFrameRequestAhead_bus_time busSpeedHz :
  0 <= kCslRequestAheadUs < 2^31 ->
  0 <= busSpeedHz <= 2^32 - 1200000000 ->
  let q := (1200000000 + busSpeedHz - 1) / busSpeedHz in
  (busSpeedHz = 0 -> InitFrameRequestAhead kCslRequestAheadUs busSpeedHz = kCslRequestAheadUs) /\
  (0 < busSpeedHz ->
   InitFrameRequestAhead kCslRequestAheadUs busSpeedHz = kCslRequestAheadUs + q /\
   (q - 1) * busSpeedHz < 1200000000 <= q * busSpeedHz).
Proof.
  intros Hcfg Hbus q. split.
  - intros ->. unfold InitFrameRequestAhead. simpl. rewrite Z.add_0_r.
    apply wrap32_small. lia.
  - intros Hb.
    pose proof (WakeupTxScheduler.ceil_div_bounds 1200000000 busSpeedHz Hb) as Hq.
    fold q in Hq. split; [|exact Hq].
    unfold InitFrameRequestAhead. destruct (Z.eqb_spec busSpeedHz 0); [lia|].
    change (150 * 8 * 1000000) with 1200000000.
    rewrite (wrap32_small 1200000000) by lia.
    rewrite (wrap32_small (1200000000 + busSpeedHz - 1)) by lia.
    fold q. apply wrap32_small. nia.
Qed.

(** X26. No parent and no CSL central: [GetParent] returns [nullptr], and
    [RescheduleCslTx] reads the count through it.  So [Update] with no frame
    in flight, [AddMessageForCslPeer] and the completion of a frame for a
    neighbor (with [kErrorNone], a message in flight and fragments left)
    run into a null pointer. *)
Theorem RescheduleCslTx_without_parent now w :
  parentIsStateValid w = false ->
  cslCentralPresent w = false ->
  RescheduleCslTx loopFuel now w = Faulted NullDereference /\
  (mCslTxMessage (sender w) = None -> Update loopFuel now w = Faulted NullDereference) /\
  (forall m p, AddMessageForCslPeer loopFuel m p now w = Faulted NullDereference) /\
  (forall fr p m,
     mCslTxNeigh (sender w) = Some p ->
     mIndirectMessage (neighbors w p) = Some m ->
     mMessageNextOffset (sender w) < msgLength m ->
     HandleSentFrame kMaxEnhCslTriggeredTxAttempts sendQueueWithout loopFuel
       fr kErrorNone now w = Faulted NullDereference).
Proof.
  intros Hvalid Hcentral.
  assert (Hnull : forall w0, parentIsStateValid w0 = false -> cslCentralPresent w0 = false ->
                    RescheduleCslTx loopFuel now w0 = Faulted NullDereference).
  { intros w0 H1 H2. unfold RescheduleCslTx, GetParent.
    cbn [sender withSender mCslTxNeigh SetCslTxNeigh]. now rewrite H1, H2. }
  split; [now apply Hnull|]. split; [|split].
  - intros Hmsg. unfold Update. rewrite Hmsg. now apply Hnull.
  - intros m p. unfold AddMessageForCslPeer, enqueue.
    destruct (mCslTxNeigh (sender w)) as [q|]; [|reflexivity].
    cbn [andThen]. apply Hnull; destruct (mIndirectMessage (neighbors w q)); assumption.
  - intros fr p m Hneigh Hmsg Hoff.
    rewrite (HandleSentFrame_success fr now w p Hneigh).
    rewrite (HandleSentFrameToNeighbor_more fr kErrorNone p now _ m).
    + now apply Hnull.
    + now rewrite neighbors_onNeighbor_same.
    + exact Hoff.
Qed.

End Facts.

(** *** Scenarios *)

(** A parent like [exParent], with a count, an indirect message, attempts
    and a maximum of attempts of choice. *)
Definition exPeer (count : Z) (m : option Message) (attempts maxAttempts : Z) : Neighbor :=
  mkNeighbor 1 attempts true maxAttempts 500 100 0 42 3 100 m count 0.

(** Surroundings with a valid parent: the sender works for it with [inFlight]
    as [mCslTxMessage] and [nextOffset] in the frame context. *)
Definition exState (parent : Neighbor) (inFlight : option Message) (nextOffset : Z)
    (queue : list Message) : World :=
  mkWorld (mkSender (Some TheParent) inFlight 2000 nextOffset)
    (fun q => if decide (q = TheParent) then parent else freshNeighbor 2)
    true false queue 0 0 [].

(** A second message, for indirect transmission, and one for direct
    transmission. *)
Definition exSecond : Message := mkMessage 8 kTypeIp6 kSubTypeNone true false 60 0 1 2.
Definition exDirect : Message := mkMessage 9 kTypeIp6 kSubTypeNone true true 60 0 1 2.

Lemma exSlot count m attempts maxAttempts ahead :
  0 <= ahead <= 2000 ->
  slotInputs 4 1055000 (exPeer count m attempts maxAttempts) ahead.
Proof.
  intros Hah. unfold slotInputs, kUsPerTenSymbols. simpl.
  repeat split; try lia.
  assert (ahead / (500 * 160) = 0) as -> by (apply Z.div_small; lia). simpl. lia.
Qed.

Lemma RescheduleCslTx_recovers_count_witness :
  exists w',
    RescheduleCslTx 4 1055000 (exState (exPeer 2 None 0 3) None 0 [exDirect]) = Done w' /\
    mQueuedMessageCount (neighbors w' TheParent) = 0 /\ calls w' = [].
Proof.
  destruct (RescheduleCslTx_recovers_count 4 1055000
              (exState (exPeer 2 None 0 3) None 0 [exDirect]) TheParent
              eq_refl ltac:(simpl; lia) eq_refl eq_refl)
    as (w' & Hrun & Hc & _ & Hcalls & _).
  exists w'. split; [exact Hrun|]. split; [exact Hc | exact Hcalls].
Defined.

Lemma RescheduleCslTx_requests_next_slot_witness :
  exists w' d,
    RescheduleCslTx 4 1055000 (exState (exPeer 1 None 0 3) None 0 [exDirect; exSecond])
    = Done w' /\
    calls w' = [RequestEnhCslFrameTransmission d] /\
    mIndirectMessage (neighbors w' TheParent) = Some exSecond.
Proof.
  destruct (RescheduleCslTx_requests_next_slot 4 1055000
              (exState (exPeer 1 None 0 3) None 0 [exDirect; exSecond]) TheParent exSecond
              eq_refl ltac:(simpl; lia) ltac:(right; split; reflexivity)
              (exSlot 1 None 0 3 2000 ltac:(lia)))
    as (w' & t & Hrun & _ & Hcalls & _ & _ & Hmsg & _).
  exists w'. eexists. split; [exact Hrun|]. split; [exact Hcalls | exact Hmsg].
Defined.

Lemma AddMessageForCslPeer_for_parent_witness :
  exists w',
    AddMessageForCslPeer 4 exSecond TheParent 1055000
      (exState (exPeer 1 (Some exMessage) 0 3) None 0 [exMessage; exSecond]) = Done w' /\
    mQueuedMessageCount (neighbors w' TheParent) = 2 /\
    mIndirectMessage (neighbors w' TheParent) = Some exMessage.
Proof.
  destruct (AddMessageForCslPeer_for_parent 4 exSecond 1055000
              (exState (exPeer 1 (Some exMessage) 0 3) None 0 [exMessage; exSecond]) TheParent
              eq_refl eq_refl ltac:(simpl; lia) (exSlot 1 (Some exMessage) 0 3 2000 ltac:(lia)))
    as (w' & t & Hrun & Hc & Hmsg & _).
  exists w'. split; [exact Hrun|]. split; [exact Hc | exact Hmsg].
Defined.

Lemma Update_drops_frame_in_flight_witness :
  exists w1,
    Update 4 1055000 (exState (exPeer 1 (Some exSecond) 0 3) (Some exMessage) 40 [exSecond])
    = Done w1 /\
    mCslTxNeigh (sender w1) = None /\
    exSentFrame kErrorNone w1 = Done (withSender (SetCslTxMessage None) w1).
Proof.
  destruct (Update_drops_frame_in_flight 3 true (fun _ => AddrShort 1) (fun _ => AddrShort 2)
              (fun _ => true) (exBuild false) exWithout 4 1055000
              (exState (exPeer 1 (Some exSecond) 0 3) (Some exMessage) 40 [exSecond])
              TheParent exMessage eq_refl eq_refl ltac:(vm_compute; reflexivity))
    as (w1 & Hrun & Hneigh & _ & _ & _ & _ & Hsent).
  exists w1. split; [exact Hrun|]. split; [exact Hneigh | apply Hsent].
Defined.

Lemma HandleSentFrame_NoAck_attempts_wrap_witness :
  exists w',
    HandleSentFrame 3 exWithout 4 exSent kErrorNoAck 1055000
      (exState (exPeer 1 (Some exMessage) 63 100) (Some exMessage) 80 [exMessage]) = Done w' /\
    mCslTxAttempts (neighbors w' TheParent) = 0 /\
    mCslSynchronized (neighbors w' TheParent) = true.
Proof.
  destruct (HandleSentFrame_NoAck_attempts_wrap 3 exWithout 4 exSent 1055000
              (exState (exPeer 1 (Some exMessage) 63 100) (Some exMessage) 80 [exMessage])
              TheParent eq_refl ltac:(reflexivity) ltac:(vm_compute; discriminate))
    as [Hkeep Hret].
  destruct (Hret exMessage eq_refl eq_refl ltac:(discriminate)
              (exSlot 1 (Some exMessage) 63 100 2000 ltac:(lia))) as [w' Hrun].
  destruct (Hkeep w' Hrun) as (Hsync & Hatt & _).
  exists w'. split; [exact Hrun|]. split; [exact Hatt | exact Hsync].
Defined.

Lemma HandleSentFrame_success_more_fragments_witness :
  exists w',
    HandleSentFrame 3 exWithout 4 exSent kErrorNone 1055000
      (exState (exPeer 1 (Some exMessage) 2 3) (Some exMessage) 40 [exMessage]) = Done w' /\
    mIndirectFragmentOffset (neighbors w' TheParent) = 40 /\
    mCslTxAttempts (neighbors w' TheParent) = 0.
Proof.
  destruct (HandleSentFrame_success_more_fragments 3 exWithout 4 exSent 1055000
              (exState (exPeer 1 (Some exMessage) 2 3) (Some exMessage) 40 [exMessage])
              TheParent exMessage eq_refl eq_refl eq_refl ltac:(simpl; lia) ltac:(simpl; lia)
              (exSlot 1 (Some exMessage) 2 3 2000 ltac:(lia)))
    as (w' & t & Hrun & Hoff & _ & _ & Hatt & _).
  exists w'. split; [exact Hrun|]. split; [exact Hoff | exact Hatt].
Defined.

Lemma HandleSentFrame_success_last_fragment_witness :
  exists w',
    HandleSentFrame 3 exWithout 4 exSent kErrorNone 1055000
      (exState (exPeer 2 (Some exMessage) 2 3) (Some exMessage) 80 [exMessage; exSecond])
    = Done w' /\
    mIndirectMessage (neighbors w' TheParent) = Some exSecond /\
    mQueuedMessageCount (neighbors w' TheParent) = 1 /\
    mTxSuccess w' = 1.
Proof.
  destruct (HandleSentFrame_success_last_fragment 3 exWithout 4 exSent 1055000
              (exState (exPeer 2 (Some exMessage) 2 3) (Some exMessage) 80 [exMessage; exSecond])
              TheParent exMessage eq_refl eq_refl eq_refl ltac:(simpl; lia) ltac:(simpl; lia)
              (exSlot 2 (Some exMessage) 2 3 2000 ltac:(lia)))
    as (w' & pre & Hrun & _ & Hmsg & Hc & _ & Hok & _).
  exists w'. split; [exact Hrun|]. split; [exact Hmsg|]. split; [exact Hc | exact Hok].
Defined.

Lemma HandleFrameRequest_frame_timing_witness :
  exists fr w' t,
    exFrameRequest false (exWorld 1) = Done (Some fr, w') /\
    slotOf 1055000 (exParent 1) 0 t /\
    wrap32 (txTxDelayBaseTime fr + txTxDelay fr) = wrap32 t /\
    txCsmaCaEnabled fr = false.
Proof.
  assert (Hrun : exists fr w', exFrameRequest false (exWorld 1) = Done (Some fr, w'))
    by (eexists _, _; vm_compute; reflexivity).
  destruct Hrun as (fr & w' & Hrun).
  destruct (HandleFrameRequest_frame_timing true (fun _ => AddrShort 1) (fun _ => AddrShort 2)
              (fun _ => true) (exBuild false) 4 exBuffer 1055000 (exWorld 1) TheParent fr w'
              eq_refl (exSlot 1 (Some exMessage) 1 3 0 ltac:(lia)) Hrun)
    as (m & t & _ & _ & _ & _ & _ & _ & _ & Hslot & _ & _ & Htx & Hcsma & _).
  exists fr, w', t. split; [exact Hrun|]. split; [exact Hslot|]. split; [exact Htx | exact Hcsma].
Defined.

Lemma ClearAllMessagesForCslPeer_clears_witness :
  exists w',
    ClearAllMessagesForCslPeer exWithout 4 TheParent 1055000
      (exState (exPeer 2 (Some exMessage) 1 3) None 0 [exMessage; exSecond]) = Done w' /\
    mIndirectMessage (neighbors w' TheParent) = None /\
    mQueuedMessageCount (neighbors w' TheParent) = 0 /\
    calls w' = [RemoveMessageIfNoPendingTx exSecond; RemoveMessageIfNoPendingTx exMessage].
Proof.
  destruct (ClearAllMessagesForCslPeer_clears exWithout 4 1055000
              (exState (exPeer 2 (Some exMessage) 1 3) None 0 [exMessage; exSecond]) TheParent
              eq_refl ltac:(simpl; lia))
    as (w' & Hrun & Hmsg & Hc & _ & _ & Hcalls & _).
  exists w'. split; [exact Hrun|]. split; [exact Hmsg|]. split; [exact Hc | exact Hcalls].
Defined.

Lemma InitFrameRequestAhead_bus_time_witness :
  InitFrameRequestAhead 2000 1000000 = 3200.
Proof.
  destruct (InitFrameRequestAhead_bus_time 2000 1000000 ltac:(lia) ltac:(lia)) as [_ Hpos].
  destruct (Hpos ltac:(lia)) as [-> _]. reflexivity.
Defined.

Lemma RescheduleCslTx_without_parent_witness :
  Update 4 1055000
    (mkWorld (init 2000 0 None) (fun _ => freshNeighbor 2) false false [] 0 0 [])
  = Faulted NullDereference.
Proof.
  destruct (RescheduleCslTx_without_parent 3 exWithout 4 1055000
              (mkWorld (init 2000 0 None) (fun _ => freshNeighbor 2) false false [] 0 0 [])
              eq_refl eq_refl) as (_ & Hupdate & _).
  apply Hupdate. reflexivity.
Defined.

End EnhCslSenderFacts.

(** ** ChildSupervisor and SupervisionListener *)

Module ChildSupervision.

(** What the two classes read from their surroundings: the state of [Mle],
    whether the child table has a child in a valid state, and the receiver
    mode of the [MeshForwarder]. *)
Record Env : Type := mkEnv {
  mleIsDisabled           : bool;
  mleIsChild              : bool;
  mleIsCslPeripheralPresent : bool;
  mleIsCslCentralPresent  : bool;
  hasValidChildren        : bool;
  rxOnWhenIdle            : bool
}.

(** The events of the notifier that [HandleNotifierEvents] tests for, and
    any other. *)
Inductive NotifierEvent : Type :=
| kEventThreadRoleChanged
| kEventThreadChildAdded
| kEventThreadChildRemoved
| kEventOther (bit : nat).

(** The requests made to [Mle]. *)
Inductive MleCall : Type :=
| SendChildUpdateRequest
| BecomeDetached.

(** A timer: [Some dt] from [Start(dt)] until [Stop]; the expiry of the
    timer is the call of [HandleTimer]. *)
Definition IsRunning (timer : option Z) : bool :=
  match timer with Some _ => true | None => false end.

(** class SupervisionListener *)
Record Listener : Type := mkListener {
  mTimeout  : Z;     (* uint16_t, seconds *)
  mInterval : Z;     (* uint16_t *)
  mCounter  : Z;
  mTimer    : option Z
}.

Definition withTimer (timer : option Z) (l : Listener) : Listener :=
  mkListener (mTimeout l) (mInterval l) (mCounter l) timer.

Section Supervision.

(** Build-time configuration (OPENTHREAD_CONFIG_MAC_CSL_CENTRAL_ENABLE,
    OPENTHREAD_CONFIG_MAC_CSL_PERIPHERAL_ENABLE) and what child_supervision.hpp
    and common/time.hpp declare: the interval of a wake-on-radio link, the
    value of [kWorTimeout * 100], the conversion [Time::SecToMsec], and the
    increment of [mCounter] in its width. *)
Variable kCslCentralEnable : bool.
Variable kCslPeripheralEnable : bool.
Variable kWorInterval : Z.
Variable kWorTimeoutMs : Z.
Variable SecToMsec : Z -> Z.
Variable nextCounter : Z -> Z.

(** *** ChildSupervisor *)

(** uint32_t ChildSupervisor::GetInterval(void) *)
Definition GetInterval (env : Env) : Z :=
  if kCslCentralEnable && mleIsCslPeripheralPresent env then 100 else 1000.

(** void ChildSupervisor::CheckState(void), on [mTimer]. *)
Definition CheckState (env : Env) (timer : option Z) : option Z :=
  let shouldRun := negb (mleIsDisabled env) && hasValidChildren env in
  let timer := if shouldRun && negb (IsRunning timer) then Some (GetInterval env) else timer in
  if negb shouldRun && IsRunning timer then None else timer.

(** void ChildSupervisor::HandleNotifierEvents(Events aEvents) *)
Definition HandleNotifierEvents (aEvents : list NotifierEvent) (env : Env) (timer : option Z)
  : option Z :=
  if existsb (fun e => match e with kEventOther _ => false | _ => true end) aEvents
  then CheckState env timer
  else timer.

(** *** SupervisionListener *)

(** uint16_t SupervisionListener::GetCurrentInterval(void) const *)
Definition GetCurrentInterval (env : Env) (l : Listener) : Z :=
  if kCslPeripheralEnable && mleIsCslCentralPresent env then kWorInterval else mInterval l.

(** uint32_t SupervisionListener::GetCurrentTimeoutMs(void) const *)
Definition GetCurrentTimeoutMs (env : Env) (l : Listener) : Z :=
  if kCslPeripheralEnable && mleIsCslCentralPresent env then kWorTimeoutMs
  else SecToMsec (mTimeout l).

(** void SupervisionListener::RestartTimer(void) *)
Definition RestartTimer (env : Env) (l : Listener) : Listener :=
  let timeoutMs := GetCurrentTimeoutMs env l in
  if negb (timeoutMs =? 0) && negb (mleIsDisabled env) && negb (rxOnWhenIdle env)
  then withTimer (Some timeoutMs) l
  else withTimer None l.

(** void SupervisionListener::Start(void) and Stop(void) *)
Definition Start (env : Env) (l : Listener) : Listener := RestartTimer env l.
Definition Stop (l : Listener) : Listener := withTimer None l.

(** void SupervisionListener::SetInterval(uint16_t aInterval) *)
Definition SetInterval (env : Env) (aInterval : Z) (l : Listener) : Listener * list MleCall :=
  if negb (negb (mInterval l =? aInterval)) then (l, [])
  else
    (mkListener (mTimeout l) aInterval (mCounter l) (mTimer l),
     if mleIsChild env then [SendChildUpdateRequest] else []).

(** void SupervisionListener::SetTimeout(uint16_t aTimeout) *)
Definition SetTimeout (env : Env) (aTimeout : Z) (l : Listener) : Listener :=
  if negb (mTimeout l =? aTimeout)
  then RestartTimer env (mkListener aTimeout (mInterval l) (mCounter l) (mTimer l))
  else l.

(** void SupervisionListener::UpdateOnReceive(aSourceAddress, aIsSecure);
    [aFromParent] is the result of comparing [FindNeighbor(aSourceAddress)]
    with the parent. *)
Definition UpdateOnReceive (env : Env) (aFromParent aIsSecure : bool) (l : Listener) : Listener :=
  if negb (IsRunning (mTimer l) && aIsSecure && mleIsChild env && aFromParent) then l
  else RestartTimer env l.

(** void SupervisionListener::HandleTimer(void).  [env] is what the method
    reads before its request to [Mle], [envAfter] what [RestartTimer] reads
    after it. *)
Definition HandleTimer (env envAfter : Env) (l : Listener) : Listener * list MleCall :=
  if negb (mleIsChild env && negb (rxOnWhenIdle env)) then (RestartTimer env l, [])
  else
    let l := mkListener (mTimeout l) (mInterval l) (nextCounter (mCounter l)) (mTimer l) in
    if kCslPeripheralEnable && mleIsCslCentralPresent env
    then (RestartTimer envAfter l, [BecomeDetached])
    else (RestartTimer envAfter l, [SendChildUpdateRequest]).

(** The calls made on a listener. *)
Inductive Op : Type :=
| OpStart
| OpStop
| OpSetInterval (aInterval : Z)
| OpSetTimeout (aTimeout : Z)
| OpUpdateOnReceive (aFromParent aIsSecure : bool)
| OpHandleTimer.

(** One call, in surroundings that stay as they are. *)
Definition step (env : Env) (op : Op) (l : Listener) : Listener :=
  match op with
  | OpStart => Start env l
  | OpStop => Stop l
  | OpSetInterval aInterval => (SetInterval env aInterval l).1
  | OpSetTimeout aTimeout => SetTimeout env aTimeout l
  | OpUpdateOnReceive aFromParent aIsSecure => UpdateOnReceive env aFromParent aIsSecure l
  | OpHandleTimer => (HandleTimer env env l).1
  end.

Definition run (env : Env) (ops : list Op) (l : Listener) : Listener :=
  fold_left (fun l op => step env op l) ops l.

(** The timer of a listener runs only with the current timeout, which is not
    0, and only while [Mle] is enabled and the receiver is not on when idle. *)
Definition armed (env : Env) (l : Listener) : Prop :=
  forall dt, mTimer l = Some dt ->
    dt = GetCurrentTimeoutMs env l /\ dt <> 0 /\
    mleIsDisabled env = false /\ rxOnWhenIdle env = false.

(** The calls that leave a stopped listener stopped. *)
Definition quiet (l : Listener) (op : Op) : Prop :=
  match op with
  | OpStop | OpSetInterval _ | OpUpdateOnReceive _ _ => True
  | OpSetTimeout aTimeout => aTimeout = mTimeout l
  | OpStart | OpHandleTimer => False
  end.

Lemma armed_RestartTimer env l : armed env (RestartTimer env l).
Proof.
  unfold RestartTimer, armed.
  destruct (Z.eqb_spec (GetCurrentTimeoutMs env l) 0) as [|Hne]; cbn [negb andb];
    [discriminate|].
  destruct (mleIsDisabled env) eqn:Hd; cbn [negb andb]; [discriminate|].
  destruct (rxOnWhenIdle env) eqn:Hrx; cbn [negb andb]; [discriminate|].
  intros dt [= <-]. repeat split; assumption.
Qed.

Lemma armed_step env op l : armed env l -> armed env (step env op l).
Proof.
  intros Harmed. destruct op as [| |i|t|p s|]; cbn [step].
  - apply armed_RestartTimer.
  - intros dt. discriminate.
  - unfold SetInterval. destruct (negb (negb (mInterval l =? i))); exact Harmed.
  - unfold SetTimeout. destruct (negb (mTimeout l =? t)); [|exact Harmed].
    apply armed_RestartTimer.
  - unfold UpdateOnReceive. destruct (negb _); [exact Harmed | apply armed_RestartTimer].
  - unfold HandleTimer. destruct (negb _); [apply armed_RestartTimer|].
    destruct (_ && _); apply armed_RestartTimer.
Qed.

(** X28. After [CheckState] the timer of the supervisor runs exactly when
    supervision should run ([Mle] enabled and a valid child in the table);
    a timer that was running and should run is left alone, not restarted; a
    timer that is started gets 100 or 1000 ms; and a second [CheckState] in
    the same surroundings changes nothing.  [HandleNotifierEvents] does what
    [CheckState] does when the events contain a role change, a child added
    or a child removed, and leaves the timer as it is when they contain
    none of these. *)
Theorem CheckState_runs_when_needed env timer :
  let shouldRun := negb (mleIsDisabled env) && hasValidChildren env in
  IsRunning (CheckState env timer) = shouldRun /\
  (shouldRun = true -> IsRunning timer = true -> CheckState env timer = timer) /\
  (shouldRun = true -> IsRunning timer = false ->
   CheckState env timer = Some (GetInterval env) /\
   (GetInterval env = 100 \/ GetInterval env = 1000)) /\
  CheckState env (CheckState env timer) = CheckState env timer /\
  (forall aEvents,
     In kEventThreadRoleChanged aEvents \/ In kEventThreadChildAdded aEvents \/
     In kEventThreadChildRemoved aEvents ->
     HandleNotifierEvents aEvents env timer = CheckState env timer) /\
  (forall aEvents,
     (forall e, In e aEvents -> exists bit, e = kEventOther bit) ->
     HandleNotifierEvents aEvents env timer = timer).
Proof.
  intros shouldRun. unfold CheckState. fold shouldRun.
  split; [|split; [|split; [|split; [|split]]]].
  - destruct shouldRun, timer; reflexivity.
  - intros -> Hrun. destruct timer; [reflexivity | discriminate].
  - intros -> Hrun. destruct timer; [discriminate|]. split; [reflexivity|].
    unfold GetInterval. destruct (_ && _); [now left | now right].
  - destruct shouldRun, timer; reflexivity.
  - intros aEvents Hin. unfold HandleNotifierEvents, CheckState. fold shouldRun.
    assert (Hany : existsb (fun e => match e with kEventOther _ => false | _ => true end)
                     aEvents = true).
    { apply existsb_exists. destruct Hin as [H|[H|H]]; eauto. }
    now rewrite Hany.
  - intros aEvents Hother. unfold HandleNotifierEvents.
    assert (Hany : existsb (fun e => match e with kEventOther _ => false | _ => true end)
                     aEvents = false).
    { apply not_true_iff_false. intros Hex. apply existsb_exists in Hex as (e & He & Htest).
      destruct (Hother e He) as [bit ->]. discriminate. }
    now rewrite Hany.
Qed.

(** X29. A stopped listener stays stopped: [Stop], [SetInterval] with any
    value, [UpdateOnReceive] for any frame and [SetTimeout] with the timeout
    already set leave the timer stopped and the timeout as it is, in any
    surroundings; only [Start], [HandleTimer] and [SetTimeout] with another
    value can start it. *)
Theorem stopped_listener_stays_stopped env ops :
  forall l,
    mTimer l = None ->
    Forall (quiet l) ops ->
    mTimer (run env ops l) = None /\ mTimeout (run env ops l) = mTimeout l.
Proof.
  induction ops as [|op ops IH]; intros l Hstop Hquiet; [now split|].
  apply Forall_cons_1 in Hquiet as [Hop Hrest].
  change (run env (op :: ops) l) with (run env ops (step env op l)).
  assert (Hstep : mTimer (step env op l) = None /\ mTimeout (step env op l) = mTimeout l).
  { destruct op as [| |i|t|p s|]; cbn [quiet step] in *; try contradiction.
    - now split.
    - unfold SetInterval. destruct (negb (negb (mInterval l =? i))); now split.
    - unfold SetTimeout. subst t. rewrite Z.eqb_refl. now split.
    - unfold UpdateOnReceive. rewrite Hstop. now split. }
  destruct Hstep as [Hstop' Htimeout'].
  destruct (IH (step env op l) Hstop') as [H1 H2].
  - eapply List.Forall_impl; [|exact Hrest]. intros op'.
    destruct op'; cbn [quiet]; try tauto. now rewrite Htimeout'.
  - split; [exact H1 | now rewrite H2].
Qed.

(** X30. While the surroundings stay as they are, whatever is called on a
    listener whose timer is stopped, in any order, its timer runs only with
    the current timeout in milliseconds, which is not 0, and only if [Mle]
    is enabled and the receiver is not on when idle. *)
Theorem listener_timer_runs_with_current_timeout env ops l :
  mTimer l = None ->
  armed env (run env ops l).
Proof.
  intros Hstop.
  assert (H0 : armed env l) by (intros dt; rewrite Hstop; discriminate).
  clear Hstop. revert l H0.
  induction ops as [|op ops IH]; intros l H0; [exact H0|].
  change (run env (op :: ops) l) with (run env ops (step env op l)).
  apply IH. now apply armed_step.
Qed.

End Supervision.

(** A child with a supervision timeout of 190 s, and the calls of a while. *)
Definition exEnv : Env := mkEnv false true false false false false.
Definition exListener : Listener := mkListener 190 129 0 None.

Lemma stopped_listener_stays_stopped_witness :
  mTimer (run false 0 (fun s => s * 1000) (fun c => c + 1) exEnv
            [OpUpdateOnReceive true true; OpSetTimeout 190; OpSetInterval 60] exListener)
  = None.
Proof.
  refine (proj1 (stopped_listener_stays_stopped false 0 (fun s => s * 1000)
                   (fun c => c + 1) exEnv
                   [OpUpdateOnReceive true true; OpSetTimeout 190; OpSetInterval 60]
                   exListener eq_refl _)).
  repeat constructor.
Defined.

Lemma listener_timer_runs_with_current_timeout_witness :
  armed false 0 (fun s => s * 1000) exEnv
    (run false 0 (fun s => s * 1000) (fun c => c + 1) exEnv
       [OpStart; OpSetTimeout 60; OpHandleTimer] exListener).
Proof.
  apply (listener_timer_runs_with_current_timeout false 0 (fun s => s * 1000)
           (fun c => c + 1) exEnv [OpStart; OpSetTimeout 60; OpHandleTimer] exListener).
  reflexivity.
Defined.

End ChildSupervision.
